(** * The strategy engine of nautilus_trader: a shallow embedding

    The development follows [nautilus_trader/strategy.pyx] (class
    [TradeStrategy]) and the identifier generators of [generators.pyx].

    - Python dictionaries keep their insertion order, and the engine iterates
      over them (residual warnings in [stop], commands in
      [cancel_all_orders]): they are association lists, module [Dict].
    - Methods run in a state-and-exception monad over the strategy object.
      Calls on the collaborators that are not part of the engine (logger,
      clock, execution client) are appended to one chronological [trace].
    - The source is compiled by Cython without except clauses and with
      [nonecheck=False]. A method declared [void], [bint] or with an enum
      as its result cannot hand an exception to its caller: the exception
      is written to stderr and dropped, and the method returns (the zero of
      its result type). A method that returns an object propagates it. A
      call on an attribute that is None is not checked: it takes the
      process down.
    - The user hooks ([on_tick], [on_bar], [on_event], ...) are abstract
      methods: they are a type class, and the base class instance raises
      [NotImplementedError] as the source does.
    - Indicators are Python objects shared between the indicator lists and
      their updaters: they live in a heap and are held by reference. *)

From Stdlib Require Import ZArith Lia Ascii String List.
From stdpp Require Import base tactics option list strings pretty.

Open Scope Z_scope.

(** ** Insertion-ordered dictionaries *)

Module Dict.
Section dict.
Context {K V : Type} `{EqDecision K}.

Definition t := list (K * V).

Definition empty : t := [].

(** [d.get(k)] *)
Fixpoint get (k : K) (d : t) : option V :=
  match d with
  | [] => None
  | (k', v) :: d' => if decide (k = k') then Some v else get k d'
  end.

(** [k in d] *)
Definition mem (k : K) (d : t) : bool := bool_decide (is_Some (get k d)).

(** [d[k] = v]: an existing key keeps its place, a new one goes last. *)
Fixpoint set (k : K) (v : V) (d : t) : t :=
  match d with
  | [] => [(k, v)]
  | (k', v') :: d' =>
      if decide (k = k') then (k, v) :: d' else (k', v') :: set k v d'
  end.

(** [del d[k]] (the callers test [k in d] first). *)
Fixpoint del (k : K) (d : t) : t :=
  match d with
  | [] => []
  | (k', v') :: d' =>
      if decide (k = k') then del k d' else (k', v') :: del k d'
  end.

Definition keys (d : t) : list K := d.*1.
Definition values (d : t) : list V := d.*2.
Definition items (d : t) : list (K * V) := d.
Definition len (d : t) : nat := length d.

End dict.
Global Arguments t : clear implicits.
End Dict.

(** ** The state-and-exception monad *)

Inductive Exn : Type :=
  | ValueError (msg : string)
  | KeyError (msg : string)
  | IndexError (msg : string)
  | AttributeError (msg : string)
  | NotImplementedError (msg : string)
  | UserError (msg : string).

(** The outcome of a call: it returns, it raises a Python exception, or it
    takes the process down; [s] is the state of the strategy at that
    point. *)
Inductive Result (S A : Type) : Type :=
  | Ok (a : A) (s : S)
  | Raise (e : Exn) (s : S)
  | Crash (s : S).
Global Arguments Ok {S A} a s.
Global Arguments Raise {S A} e s.
Global Arguments Crash {S A} s.

Definition M (S A : Type) : Type := S → Result S A.

Global Instance M_ret {S} : MRet (M S) := λ A a s, Ok a s.
Global Instance M_bind {S} : MBind (M S) := λ A B f m s,
  match m s with
  | Ok a s' => f a s'
  | Raise e s' => Raise e s'
  | Crash s' => Crash s'
  end.

Definition raise {S A} (e : Exn) : M S A := λ s, Raise e s.
Definition crash {S A} : M S A := λ s, Crash s.
Definition gets {S A} (f : S → A) : M S A := λ s, Ok (f s) s.
Definition modify {S} (f : S → S) : M S unit := λ s, Ok tt (f s).

(** [try: body except Exception as ex: handler(ex)] *)
Definition try_except {S A} (body : M S A) (handler : Exn → M S A) : M S A :=
  λ s, match body s with
       | Ok a s' => Ok a s'
       | Raise e s' => handler e s'
       | Crash s' => Crash s'
       end.

(** [for x in l: body(x)] *)
Fixpoint for_each {S A} (l : list A) (body : A → M S unit) : M S unit :=
  match l with
  | [] => mret tt
  | x :: l' => body x ;; for_each l' body
  end.

(** [if c: body] *)
Definition when {S} (c : bool) (body : M S unit) : M S unit :=
  if c then body else mret tt.

Definition state_of {S A} (r : Result S A) : S :=
  match r with Ok _ s => s | Raise _ s => s | Crash s => s end.

(** [str(ex)]: the text of an exception; for a [KeyError] it is the
    representation of the key. *)
Definition str (ex : Exn) : string :=
  match ex with
  | ValueError msg | IndexError msg | AttributeError msg
  | NotImplementedError msg | UserError msg => msg
  | KeyError key => "'" +:+ key +:+ "'"
  end.

(** ** Identifier generators ([generators.pyx]) *)

(** The reading of a clock: the fields of a Python [datetime] that the
    identifier tag uses. *)
Record datetime : Type := {
  year : nat; month : nat; day : nat;
  hour : nat; minute : nat; second : nat
}.

(** The format specification [{n:02d}]: decimal, zero-padded to width two. *)
Definition fmt_02d (n : nat) : string :=
  if (n <? 10)%nat then "0" +:+ pretty n else pretty n.

Module IdentifierGenerator.

(** The clock is a shared object read at each call: the operations take its
    current reading [now] as an argument. The counter is a Python integer. *)
Record t : Type := {
  prefix : string;
  id_tag_trader : string;
  id_tag_strategy : string;
  counter : nat
}.

Definition with_counter (c : nat) (g : t) : t :=
  {| prefix := prefix g; id_tag_trader := id_tag_trader g;
     id_tag_strategy := id_tag_strategy g; counter := c |}.

Definition reset (g : t) : t := with_counter 0 g.

Definition _get_datetime_tag (time_now : datetime) : string :=
  pretty (year time_now) +:+ fmt_02d (month time_now)
    +:+ fmt_02d (day time_now) +:+ "-"
    +:+ fmt_02d (hour time_now) +:+ fmt_02d (minute time_now)
    +:+ fmt_02d (second time_now).

(** The string built by [_generate] once the counter holds [c]. *)
Definition identifier (g : t) (time_now : datetime) (c : nat) : string :=
  prefix g +:+ "-" +:+ _get_datetime_tag time_now +:+ "-"
    +:+ id_tag_trader g +:+ "-" +:+ id_tag_strategy g +:+ "-" +:+ pretty c.

Definition _generate (time_now : datetime) (g : t) : string * t :=
  let g' := with_counter (counter g + 1)%nat g in
  (identifier g' time_now (counter g'), g').

(** Successive calls, the clock reading [times !! i] at the i-th call. *)
Fixpoint generate_all (times : list datetime) (g : t) : list string * t :=
  match times with
  | [] => ([], g)
  | now :: times' =>
      let '(x, g') := _generate now g in
      let '(xs, g'') := generate_all times' g' in
      (x :: xs, g'')
  end.

End IdentifierGenerator.

Module OrderIdGenerator.
Definition new (id_tag_trader id_tag_strategy : string)
  : IdentifierGenerator.t :=
  {| IdentifierGenerator.prefix := "O";
     IdentifierGenerator.id_tag_trader := id_tag_trader;
     IdentifierGenerator.id_tag_strategy := id_tag_strategy;
     IdentifierGenerator.counter := 0 |}.
(** [generate] hands the string of [_generate] over as an order
    identifier. *)
Definition generate (time_now : datetime) (g : IdentifierGenerator.t)
  : string * IdentifierGenerator.t :=
  IdentifierGenerator._generate time_now g.

(** Successive calls of [generate], the clock reading [times !! i] at the
    i-th call. *)
Fixpoint generate_all (times : list datetime) (g : IdentifierGenerator.t)
  : list string * IdentifierGenerator.t :=
  match times with
  | [] => ([], g)
  | now :: times' =>
      let '(x, g') := generate now g in
      let '(xs, g'') := generate_all times' g' in
      (x :: xs, g'')
  end.
End OrderIdGenerator.

Module PositionIdGenerator.
Definition new (id_tag_trader id_tag_strategy : string)
  : IdentifierGenerator.t :=
  {| IdentifierGenerator.prefix := "P";
     IdentifierGenerator.id_tag_trader := id_tag_trader;
     IdentifierGenerator.id_tag_strategy := id_tag_strategy;
     IdentifierGenerator.counter := 0 |}.
(** [generate] hands the string of [_generate] over as a position
    identifier. *)
Definition generate (time_now : datetime) (g : IdentifierGenerator.t)
  : string * IdentifierGenerator.t :=
  IdentifierGenerator._generate time_now g.

(** Successive calls of [generate]. *)
Fixpoint generate_all (times : list datetime) (g : IdentifierGenerator.t)
  : list string * IdentifierGenerator.t :=
  match times with
  | [] => ([], g)
  | now :: times' =>
      let '(x, g') := generate now g in
      let '(xs, g'') := generate_all times' g' in
      (x :: xs, g'')
  end.
End PositionIdGenerator.

Definition test_clock_time : datetime :=
  {| year := 2020; month := 3; day := 14;
     hour := 9; minute := 26; second := 53 |}.



(** ** The data model *)

Abbreviation TraderId := string (only parsing).
Abbreviation StrategyId := string (only parsing).
Abbreviation OrderId := string (only parsing).
Abbreviation PositionId := string (only parsing).
Abbreviation Symbol := string (only parsing).
Abbreviation Label := string (only parsing).
Abbreviation GUID := nat (only parsing).

(** Prices and quantities are fixed-precision decimals: the integer count of
    units at the instrument's precision. *)
Abbreviation Price := Z (only parsing).
Abbreviation Quantity := Z (only parsing).

Inductive OrderSide : Type := BUY | SELL.

(** The declaration of the enum [OrderSide] is not part of the sources:
    which of its members has the value zero is a parameter. It is what a
    method with this result type returns after a dropped exception. *)
Class OrderSideEnum : Type := { OrderSide_zero : OrderSide }.
Inductive MarketPosition : Type := FLAT | LONG | SHORT.
Inductive OrderType : Type := MARKET | LIMIT | STOP_MARKET | STOP_LIMIT.

Global Instance OrderSide_eq_dec : EqDecision OrderSide.
Proof. solve_decision. Defined.
Global Instance MarketPosition_eq_dec : EqDecision MarketPosition.
Proof. solve_decision. Defined.
Global Instance OrderType_eq_dec : EqDecision OrderType.
Proof. solve_decision. Defined.
Global Instance datetime_eq_dec : EqDecision datetime.
Proof. solve_decision. Defined.

Module BarType.
Record t : Type := { symbol : Symbol; specification : string }.
Global Instance eq_dec : EqDecision t.
Proof. solve_decision. Defined.
End BarType.

Module Tick.
Record t : Type := {
  symbol : Symbol; bid : Price; ask : Price; timestamp : datetime
}.
End Tick.

Module Bar.
Record t : Type := {
  open : Price; high : Price; low : Price; close : Price;
  volume : Quantity; timestamp : datetime
}.
End Bar.

Module Order.
Record t : Type := {
  id : OrderId;
  symbol : Symbol;
  side : OrderSide;
  type : OrderType;
  quantity : Quantity;
  price : option Price;
  label : Label;
  is_active : bool
}.
Global Instance eq_dec : EqDecision t.
Proof. solve_decision. Defined.
End Order.

Module AtomicOrder.
Record t : Type := {
  entry : Order.t;
  stop_loss : Order.t;
  take_profit : option Order.t
}.
Definition has_take_profit (a : t) : bool := bool_decide (is_Some (take_profit a)).
End AtomicOrder.

Module Position.
Record t : Type := {
  id : PositionId;
  symbol : Symbol;
  market_position : MarketPosition;
  quantity : Quantity;
  is_entered : bool
}.
(** Modelled from the spec: the [Position] class is not part of the sources;
    a position is FLAT, LONG or SHORT, and [is_flat] is the first case. *)
Definition is_flat (p : t) : bool := bool_decide (market_position p = FLAT).
End Position.

(** Events: only [order_id] is read by the engine. *)
Inductive Event : Type :=
  | OrderRejected (order_id : OrderId)
  | OrderCancelled (order_id : OrderId)
  | OrderFilled (order_id : OrderId)
  | OrderPartiallyFilled (order_id : OrderId)
  | OrderCancelReject (order_id : OrderId)
  | OrderModified (order_id : OrderId)
  | OrderExpired (order_id : OrderId)
  | AccountEvent
  | PositionEvent (position_id : PositionId)
  | TimeEvent (label : Label).

(** Commands sent to the execution client. *)
Module ModifyOrder.
Record t : Type := {
  trader_id : TraderId;
  strategy_id : StrategyId;
  order_id : OrderId;
  modified_price : Price;
  command_id : GUID;
  command_timestamp : datetime
}.
Global Instance eq_dec : EqDecision t.
Proof. solve_decision. Defined.
End ModifyOrder.

Inductive Command : Type :=
  | CollateralInquiry (command_id : GUID) (command_timestamp : datetime)
  | SubmitOrder (trader_id : TraderId) (strategy_id : StrategyId)
      (position_id : PositionId) (order : Order.t)
      (command_id : GUID) (command_timestamp : datetime)
  | SubmitAtomicOrder (trader_id : TraderId) (strategy_id : StrategyId)
      (position_id : PositionId) (atomic_order : AtomicOrder.t)
      (command_id : GUID) (command_timestamp : datetime)
  | ModifyOrderCmd (command : ModifyOrder.t)
  | CancelOrder (trader_id : TraderId) (strategy_id : StrategyId)
      (order_id : OrderId) (cancel_reason : string)
      (command_id : GUID) (command_timestamp : datetime).

(** Log messages are f-strings: literal text and formatted objects. *)
Inductive Obj : Type :=
  | ObjEvent (e : Event)
  | ObjOrder (o : Order.t)
  | ObjAtomicOrder (a : AtomicOrder.t)
  | ObjPosition (p : Position.t)
  | ObjId (s : string)
  | ObjPrice (p : Price)
  | ObjModifyOrder (c : ModifyOrder.t).

Inductive Piece : Type := Lit (s : string) | Fmt (o : Obj).

Abbreviation Msg := (list Piece) (only parsing).

Inductive LogCall : Type :=
  | LogDebug (m : Msg)
  | LogInfo (m : Msg)
  | LogWarning (m : Msg)
  | LogError (m : Msg)
  | LogException (ex : Exn).

(** What the engine does to its collaborators, in the order it does it;
    [Unraisable] is an exception written to stderr where it was dropped. *)
Inductive Effect : Type :=
  | Logged (c : LogCall)
  | Executed (c : Command)
  | ClockCancelAllTimeAlerts
  | ClockCancelAllTimers
  | Unraisable (ex : Exn).

Definition is_command (e : Effect) : option Command :=
  match e with Executed c => Some c | _ => None end.

Definition commands_of (tr : list Effect) : list Command :=
  omap is_command tr.

(** ** Collaborators *)

Module Clock.
Record t : Type := { time_now : datetime }.
End Clock.

(** Modelled from the spec: the portfolio is consumed through
    [get_position], [get_positions_active], [get_position_for_order] and
    [is_strategy_flat]; what it answers for this strategy is data here. *)
Module Portfolio.
Record t : Type := {
  positions : Dict.t PositionId Position.t;
  positions_active : Dict.t PositionId Position.t;
  position_for_order : Dict.t OrderId Position.t;
  strategy_flat : bool
}.
End Portfolio.

(** Modelled from the spec: the execution client is consumed through
    [execute_command] (an [Executed] effect), [get_order], [get_orders] and
    [get_portfolio]; [orders] answers [get_order], [strategy_orders] answers
    [get_orders] for this strategy. *)
Module ExecutionClient.
Record t : Type := {
  orders : Dict.t OrderId Order.t;
  strategy_orders : Dict.t OrderId Order.t;
  portfolio : Portfolio.t
}.
End ExecutionClient.

(** Modelled from the spec: the order factory is not part of the sources; it
    owns an order identifier generator (prefix O), [market] builds a market
    order under the next identifier and [reset] resets the generator. *)
Module OrderFactory.
Record t : Type := { generator : IdentifierGenerator.t }.

Definition new (id_tag_trader id_tag_strategy : string) : t :=
  {| generator := OrderIdGenerator.new id_tag_trader id_tag_strategy |}.

Definition reset (f : t) : t :=
  {| generator := IdentifierGenerator.reset (generator f) |}.

Definition market (time_now : datetime) (symbol : Symbol) (side : OrderSide)
    (quantity : Quantity) (label : Label) (f : t) : Order.t * t :=
  let '(order_id, g) := OrderIdGenerator.generate time_now (generator f) in
  ({| Order.id := order_id; Order.symbol := symbol; Order.side := side;
      Order.type := MARKET; Order.quantity := quantity; Order.price := None;
      Order.label := label; Order.is_active := false |},
   {| generator := g |}).
End OrderFactory.

(** A bounded [collections.deque]. *)
Module Deque.
Section deque.
Context {A : Type}.
Record t : Type := { maxlen : nat; elements : list A }.

Definition new (maxlen : nat) : t := {| maxlen := maxlen; elements := [] |}.

(** [appendleft]: when the deque is full the rightmost element is dropped. *)
Definition appendleft (x : A) (d : t) : t :=
  {| maxlen := maxlen d; elements := take (maxlen d) (x :: elements d) |}.

Definition to_list (d : t) : list A := elements d.
End deque.
Global Arguments t : clear implicits.
End Deque.

(** The capability of an indicator object that the engine relies on. *)
Class Indicator (I : Type) : Type := {
  initialized : I → bool;
  indicator_reset : I → I
}.

Abbreviation IndicatorRef := nat (only parsing).

(** Modelled from the spec: [IndicatorUpdater] (not part of the sources)
    binds an update method to an indicator; [update_bar] feeds the bar to the
    indicator through that method. *)
Module IndicatorUpdater.
Record t (I : Type) : Type := {
  indicator : IndicatorRef;
  update_method : Bar.t → I → I
}.
Global Arguments indicator {I} _.
Global Arguments update_method {I} _ _ _.
End IndicatorUpdater.

(** ** The strategy object *)

Section Engine.
Context {I : Type} `{Indicator I} `{OrderSideEnum}.

(** The attributes of a [TradeStrategy]. [_guid_factory] is the next GUID of
    the factory, [heap] holds the indicator objects, [trace] the calls made
    on the logger, the clock and the execution client so far. The data
    client and the account take no part in the methods below. *)
Record TradeStrategy : Type := {
  trader_id : TraderId;
  id : StrategyId;
  id_tag_trader : string;
  id_tag_strategy : string;
  _guid_factory : GUID;
  clock : Clock.t;
  flatten_on_sl_reject : bool;
  flatten_on_stop : bool;
  cancel_all_orders_on_stop : bool;
  order_factory : OrderFactory.t;
  position_id_generator : IdentifierGenerator.t;
  _entry_orders : Dict.t OrderId Order.t;
  _stop_loss_orders : Dict.t OrderId Order.t;
  _take_profit_orders : Dict.t OrderId Order.t;
  _atomic_order_ids : Dict.t OrderId (list OrderId);
  bar_capacity : Z;
  _ticks : Dict.t Symbol Tick.t;
  _bars : Dict.t BarType.t (Deque.t Bar.t);
  _indicators : Dict.t BarType.t (list IndicatorRef);
  _indicator_updaters : Dict.t BarType.t (list (IndicatorUpdater.t I));
  _modify_order_buffer : Dict.t OrderId ModifyOrder.t;
  _exec_client : option ExecutionClient.t;
  _portfolio : option Portfolio.t;
  is_exec_client_registered : bool;
  is_portfolio_registered : bool;
  is_running : bool;
  heap : list I;
  trace : list Effect
}.

Definition set_guid_factory (v : GUID) (self : TradeStrategy) : TradeStrategy :=
  {| trader_id := trader_id self; id := id self;
     id_tag_trader := id_tag_trader self;
     id_tag_strategy := id_tag_strategy self; _guid_factory := v;
     clock := clock self; flatten_on_sl_reject := flatten_on_sl_reject self;
     flatten_on_stop := flatten_on_stop self;
     cancel_all_orders_on_stop := cancel_all_orders_on_stop self;
     order_factory := order_factory self;
     position_id_generator := position_id_generator self;
     _entry_orders := _entry_orders self;
     _stop_loss_orders := _stop_loss_orders self;
     _take_profit_orders := _take_profit_orders self;
     _atomic_order_ids := _atomic_order_ids self;
     bar_capacity := bar_capacity self; _ticks := _ticks self;
     _bars := _bars self; _indicators := _indicators self;
     _indicator_updaters := _indicator_updaters self;
     _modify_order_buffer := _modify_order_buffer self;
     _exec_client := _exec_client self; _portfolio := _portfolio self;
     is_exec_client_registered := is_exec_client_registered self;
     is_portfolio_registered := is_portfolio_registered self;
     is_running := is_running self; heap := heap self;
     trace := trace self |}.

Definition set_order_factory (v : OrderFactory.t) (self : TradeStrategy) : TradeStrategy :=
  {| trader_id := trader_id self; id := id self;
     id_tag_trader := id_tag_trader self;
     id_tag_strategy := id_tag_strategy self;
     _guid_factory := _guid_factory self; clock := clock self;
     flatten_on_sl_reject := flatten_on_sl_reject self;
     flatten_on_stop := flatten_on_stop self;
     cancel_all_orders_on_stop := cancel_all_orders_on_stop self;
     order_factory := v; position_id_generator := position_id_generator self;
     _entry_orders := _entry_orders self;
     _stop_loss_orders := _stop_loss_orders self;
     _take_profit_orders := _take_profit_orders self;
     _atomic_order_ids := _atomic_order_ids self;
     bar_capacity := bar_capacity self; _ticks := _ticks self;
     _bars := _bars self; _indicators := _indicators self;
     _indicator_updaters := _indicator_updaters self;
     _modify_order_buffer := _modify_order_buffer self;
     _exec_client := _exec_client self; _portfolio := _portfolio self;
     is_exec_client_registered := is_exec_client_registered self;
     is_portfolio_registered := is_portfolio_registered self;
     is_running := is_running self; heap := heap self;
     trace := trace self |}.

Definition set_position_id_generator (v : IdentifierGenerator.t) (self : TradeStrategy) : TradeStrategy :=
  {| trader_id := trader_id self; id := id self;
     id_tag_trader := id_tag_trader self;
     id_tag_strategy := id_tag_strategy self;
     _guid_factory := _guid_factory self; clock := clock self;
     flatten_on_sl_reject := flatten_on_sl_reject self;
     flatten_on_stop := flatten_on_stop self;
     cancel_all_orders_on_stop := cancel_all_orders_on_stop self;
     order_factory := order_factory self; position_id_generator := v;
     _entry_orders := _entry_orders self;
     _stop_loss_orders := _stop_loss_orders self;
     _take_profit_orders := _take_profit_orders self;
     _atomic_order_ids := _atomic_order_ids self;
     bar_capacity := bar_capacity self; _ticks := _ticks self;
     _bars := _bars self; _indicators := _indicators self;
     _indicator_updaters := _indicator_updaters self;
     _modify_order_buffer := _modify_order_buffer self;
     _exec_client := _exec_client self; _portfolio := _portfolio self;
     is_exec_client_registered := is_exec_client_registered self;
     is_portfolio_registered := is_portfolio_registered self;
     is_running := is_running self; heap := heap self;
     trace := trace self |}.

Definition set_entry_orders (v : Dict.t OrderId Order.t) (self : TradeStrategy) : TradeStrategy :=
  {| trader_id := trader_id self; id := id self;
     id_tag_trader := id_tag_trader self;
     id_tag_strategy := id_tag_strategy self;
     _guid_factory := _guid_factory self; clock := clock self;
     flatten_on_sl_reject := flatten_on_sl_reject self;
     flatten_on_stop := flatten_on_stop self;
     cancel_all_orders_on_stop := cancel_all_orders_on_stop self;
     order_factory := order_factory self;
     position_id_generator := position_id_generator self; _entry_orders := v;
     _stop_loss_orders := _stop_loss_orders self;
     _take_profit_orders := _take_profit_orders self;
     _atomic_order_ids := _atomic_order_ids self;
     bar_capacity := bar_capacity self; _ticks := _ticks self;
     _bars := _bars self; _indicators := _indicators self;
     _indicator_updaters := _indicator_updaters self;
     _modify_order_buffer := _modify_order_buffer self;
     _exec_client := _exec_client self; _portfolio := _portfolio self;
     is_exec_client_registered := is_exec_client_registered self;
     is_portfolio_registered := is_portfolio_registered self;
     is_running := is_running self; heap := heap self;
     trace := trace self |}.

Definition set_stop_loss_orders (v : Dict.t OrderId Order.t) (self : TradeStrategy) : TradeStrategy :=
  {| trader_id := trader_id self; id := id self;
     id_tag_trader := id_tag_trader self;
     id_tag_strategy := id_tag_strategy self;
     _guid_factory := _guid_factory self; clock := clock self;
     flatten_on_sl_reject := flatten_on_sl_reject self;
     flatten_on_stop := flatten_on_stop self;
     cancel_all_orders_on_stop := cancel_all_orders_on_stop self;
     order_factory := order_factory self;
     position_id_generator := position_id_generator self;
     _entry_orders := _entry_orders self; _stop_loss_orders := v;
     _take_profit_orders := _take_profit_orders self;
     _atomic_order_ids := _atomic_order_ids self;
     bar_capacity := bar_capacity self; _ticks := _ticks self;
     _bars := _bars self; _indicators := _indicators self;
     _indicator_updaters := _indicator_updaters self;
     _modify_order_buffer := _modify_order_buffer self;
     _exec_client := _exec_client self; _portfolio := _portfolio self;
     is_exec_client_registered := is_exec_client_registered self;
     is_portfolio_registered := is_portfolio_registered self;
     is_running := is_running self; heap := heap self;
     trace := trace self |}.

Definition set_take_profit_orders (v : Dict.t OrderId Order.t) (self : TradeStrategy) : TradeStrategy :=
  {| trader_id := trader_id self; id := id self;
     id_tag_trader := id_tag_trader self;
     id_tag_strategy := id_tag_strategy self;
     _guid_factory := _guid_factory self; clock := clock self;
     flatten_on_sl_reject := flatten_on_sl_reject self;
     flatten_on_stop := flatten_on_stop self;
     cancel_all_orders_on_stop := cancel_all_orders_on_stop self;
     order_factory := order_factory self;
     position_id_generator := position_id_generator self;
     _entry_orders := _entry_orders self;
     _stop_loss_orders := _stop_loss_orders self; _take_profit_orders := v;
     _atomic_order_ids := _atomic_order_ids self;
     bar_capacity := bar_capacity self; _ticks := _ticks self;
     _bars := _bars self; _indicators := _indicators self;
     _indicator_updaters := _indicator_updaters self;
     _modify_order_buffer := _modify_order_buffer self;
     _exec_client := _exec_client self; _portfolio := _portfolio self;
     is_exec_client_registered := is_exec_client_registered self;
     is_portfolio_registered := is_portfolio_registered self;
     is_running := is_running self; heap := heap self;
     trace := trace self |}.

Definition set_atomic_order_ids (v : Dict.t OrderId (list OrderId)) (self : TradeStrategy) : TradeStrategy :=
  {| trader_id := trader_id self; id := id self;
     id_tag_trader := id_tag_trader self;
     id_tag_strategy := id_tag_strategy self;
     _guid_factory := _guid_factory self; clock := clock self;
     flatten_on_sl_reject := flatten_on_sl_reject self;
     flatten_on_stop := flatten_on_stop self;
     cancel_all_orders_on_stop := cancel_all_orders_on_stop self;
     order_factory := order_factory self;
     position_id_generator := position_id_generator self;
     _entry_orders := _entry_orders self;
     _stop_loss_orders := _stop_loss_orders self;
     _take_profit_orders := _take_profit_orders self; _atomic_order_ids := v;
     bar_capacity := bar_capacity self; _ticks := _ticks self;
     _bars := _bars self; _indicators := _indicators self;
     _indicator_updaters := _indicator_updaters self;
     _modify_order_buffer := _modify_order_buffer self;
     _exec_client := _exec_client self; _portfolio := _portfolio self;
     is_exec_client_registered := is_exec_client_registered self;
     is_portfolio_registered := is_portfolio_registered self;
     is_running := is_running self; heap := heap self;
     trace := trace self |}.

Definition set_ticks (v : Dict.t Symbol Tick.t) (self : TradeStrategy) : TradeStrategy :=
  {| trader_id := trader_id self; id := id self;
     id_tag_trader := id_tag_trader self;
     id_tag_strategy := id_tag_strategy self;
     _guid_factory := _guid_factory self; clock := clock self;
     flatten_on_sl_reject := flatten_on_sl_reject self;
     flatten_on_stop := flatten_on_stop self;
     cancel_all_orders_on_stop := cancel_all_orders_on_stop self;
     order_factory := order_factory self;
     position_id_generator := position_id_generator self;
     _entry_orders := _entry_orders self;
     _stop_loss_orders := _stop_loss_orders self;
     _take_profit_orders := _take_profit_orders self;
     _atomic_order_ids := _atomic_order_ids self;
     bar_capacity := bar_capacity self; _ticks := v; _bars := _bars self;
     _indicators := _indicators self;
     _indicator_updaters := _indicator_updaters self;
     _modify_order_buffer := _modify_order_buffer self;
     _exec_client := _exec_client self; _portfolio := _portfolio self;
     is_exec_client_registered := is_exec_client_registered self;
     is_portfolio_registered := is_portfolio_registered self;
     is_running := is_running self; heap := heap self;
     trace := trace self |}.

Definition set_bars (v : Dict.t BarType.t (Deque.t Bar.t)) (self : TradeStrategy) : TradeStrategy :=
  {| trader_id := trader_id self; id := id self;
     id_tag_trader := id_tag_trader self;
     id_tag_strategy := id_tag_strategy self;
     _guid_factory := _guid_factory self; clock := clock self;
     flatten_on_sl_reject := flatten_on_sl_reject self;
     flatten_on_stop := flatten_on_stop self;
     cancel_all_orders_on_stop := cancel_all_orders_on_stop self;
     order_factory := order_factory self;
     position_id_generator := position_id_generator self;
     _entry_orders := _entry_orders self;
     _stop_loss_orders := _stop_loss_orders self;
     _take_profit_orders := _take_profit_orders self;
     _atomic_order_ids := _atomic_order_ids self;
     bar_capacity := bar_capacity self; _ticks := _ticks self; _bars := v;
     _indicators := _indicators self;
     _indicator_updaters := _indicator_updaters self;
     _modify_order_buffer := _modify_order_buffer self;
     _exec_client := _exec_client self; _portfolio := _portfolio self;
     is_exec_client_registered := is_exec_client_registered self;
     is_portfolio_registered := is_portfolio_registered self;
     is_running := is_running self; heap := heap self;
     trace := trace self |}.

Definition set_indicators (v : Dict.t BarType.t (list IndicatorRef)) (self : TradeStrategy) : TradeStrategy :=
  {| trader_id := trader_id self; id := id self;
     id_tag_trader := id_tag_trader self;
     id_tag_strategy := id_tag_strategy self;
     _guid_factory := _guid_factory self; clock := clock self;
     flatten_on_sl_reject := flatten_on_sl_reject self;
     flatten_on_stop := flatten_on_stop self;
     cancel_all_orders_on_stop := cancel_all_orders_on_stop self;
     order_factory := order_factory self;
     position_id_generator := position_id_generator self;
     _entry_orders := _entry_orders self;
     _stop_loss_orders := _stop_loss_orders self;
     _take_profit_orders := _take_profit_orders self;
     _atomic_order_ids := _atomic_order_ids self;
     bar_capacity := bar_capacity self; _ticks := _ticks self;
     _bars := _bars self; _indicators := v;
     _indicator_updaters := _indicator_updaters self;
     _modify_order_buffer := _modify_order_buffer self;
     _exec_client := _exec_client self; _portfolio := _portfolio self;
     is_exec_client_registered := is_exec_client_registered self;
     is_portfolio_registered := is_portfolio_registered self;
     is_running := is_running self; heap := heap self;
     trace := trace self |}.

Definition set_indicator_updaters (v : Dict.t BarType.t (list (IndicatorUpdater.t I))) (self : TradeStrategy) : TradeStrategy :=
  {| trader_id := trader_id self; id := id self;
     id_tag_trader := id_tag_trader self;
     id_tag_strategy := id_tag_strategy self;
     _guid_factory := _guid_factory self; clock := clock self;
     flatten_on_sl_reject := flatten_on_sl_reject self;
     flatten_on_stop := flatten_on_stop self;
     cancel_all_orders_on_stop := cancel_all_orders_on_stop self;
     order_factory := order_factory self;
     position_id_generator := position_id_generator self;
     _entry_orders := _entry_orders self;
     _stop_loss_orders := _stop_loss_orders self;
     _take_profit_orders := _take_profit_orders self;
     _atomic_order_ids := _atomic_order_ids self;
     bar_capacity := bar_capacity self; _ticks := _ticks self;
     _bars := _bars self; _indicators := _indicators self;
     _indicator_updaters := v;
     _modify_order_buffer := _modify_order_buffer self;
     _exec_client := _exec_client self; _portfolio := _portfolio self;
     is_exec_client_registered := is_exec_client_registered self;
     is_portfolio_registered := is_portfolio_registered self;
     is_running := is_running self; heap := heap self;
     trace := trace self |}.

Definition set_modify_order_buffer (v : Dict.t OrderId ModifyOrder.t) (self : TradeStrategy) : TradeStrategy :=
  {| trader_id := trader_id self; id := id self;
     id_tag_trader := id_tag_trader self;
     id_tag_strategy := id_tag_strategy self;
     _guid_factory := _guid_factory self; clock := clock self;
     flatten_on_sl_reject := flatten_on_sl_reject self;
     flatten_on_stop := flatten_on_stop self;
     cancel_all_orders_on_stop := cancel_all_orders_on_stop self;
     order_factory := order_factory self;
     position_id_generator := position_id_generator self;
     _entry_orders := _entry_orders self;
     _stop_loss_orders := _stop_loss_orders self;
     _take_profit_orders := _take_profit_orders self;
     _atomic_order_ids := _atomic_order_ids self;
     bar_capacity := bar_capacity self; _ticks := _ticks self;
     _bars := _bars self; _indicators := _indicators self;
     _indicator_updaters := _indicator_updaters self;
     _modify_order_buffer := v; _exec_client := _exec_client self;
     _portfolio := _portfolio self;
     is_exec_client_registered := is_exec_client_registered self;
     is_portfolio_registered := is_portfolio_registered self;
     is_running := is_running self; heap := heap self;
     trace := trace self |}.

Definition set_exec_client (v : option ExecutionClient.t) (self : TradeStrategy) : TradeStrategy :=
  {| trader_id := trader_id self; id := id self;
     id_tag_trader := id_tag_trader self;
     id_tag_strategy := id_tag_strategy self;
     _guid_factory := _guid_factory self; clock := clock self;
     flatten_on_sl_reject := flatten_on_sl_reject self;
     flatten_on_stop := flatten_on_stop self;
     cancel_all_orders_on_stop := cancel_all_orders_on_stop self;
     order_factory := order_factory self;
     position_id_generator := position_id_generator self;
     _entry_orders := _entry_orders self;
     _stop_loss_orders := _stop_loss_orders self;
     _take_profit_orders := _take_profit_orders self;
     _atomic_order_ids := _atomic_order_ids self;
     bar_capacity := bar_capacity self; _ticks := _ticks self;
     _bars := _bars self; _indicators := _indicators self;
     _indicator_updaters := _indicator_updaters self;
     _modify_order_buffer := _modify_order_buffer self; _exec_client := v;
     _portfolio := _portfolio self;
     is_exec_client_registered := is_exec_client_registered self;
     is_portfolio_registered := is_portfolio_registered self;
     is_running := is_running self; heap := heap self;
     trace := trace self |}.

Definition set_portfolio (v : option Portfolio.t) (self : TradeStrategy) : TradeStrategy :=
  {| trader_id := trader_id self; id := id self;
     id_tag_trader := id_tag_trader self;
     id_tag_strategy := id_tag_strategy self;
     _guid_factory := _guid_factory self; clock := clock self;
     flatten_on_sl_reject := flatten_on_sl_reject self;
     flatten_on_stop := flatten_on_stop self;
     cancel_all_orders_on_stop := cancel_all_orders_on_stop self;
     order_factory := order_factory self;
     position_id_generator := position_id_generator self;
     _entry_orders := _entry_orders self;
     _stop_loss_orders := _stop_loss_orders self;
     _take_profit_orders := _take_profit_orders self;
     _atomic_order_ids := _atomic_order_ids self;
     bar_capacity := bar_capacity self; _ticks := _ticks self;
     _bars := _bars self; _indicators := _indicators self;
     _indicator_updaters := _indicator_updaters self;
     _modify_order_buffer := _modify_order_buffer self;
     _exec_client := _exec_client self; _portfolio := v;
     is_exec_client_registered := is_exec_client_registered self;
     is_portfolio_registered := is_portfolio_registered self;
     is_running := is_running self; heap := heap self;
     trace := trace self |}.

Definition set_is_exec_client_registered (v : bool) (self : TradeStrategy) : TradeStrategy :=
  {| trader_id := trader_id self; id := id self;
     id_tag_trader := id_tag_trader self;
     id_tag_strategy := id_tag_strategy self;
     _guid_factory := _guid_factory self; clock := clock self;
     flatten_on_sl_reject := flatten_on_sl_reject self;
     flatten_on_stop := flatten_on_stop self;
     cancel_all_orders_on_stop := cancel_all_orders_on_stop self;
     order_factory := order_factory self;
     position_id_generator := position_id_generator self;
     _entry_orders := _entry_orders self;
     _stop_loss_orders := _stop_loss_orders self;
     _take_profit_orders := _take_profit_orders self;
     _atomic_order_ids := _atomic_order_ids self;
     bar_capacity := bar_capacity self; _ticks := _ticks self;
     _bars := _bars self; _indicators := _indicators self;
     _indicator_updaters := _indicator_updaters self;
     _modify_order_buffer := _modify_order_buffer self;
     _exec_client := _exec_client self; _portfolio := _portfolio self;
     is_exec_client_registered := v;
     is_portfolio_registered := is_portfolio_registered self;
     is_running := is_running self; heap := heap self;
     trace := trace self |}.

Definition set_is_portfolio_registered (v : bool) (self : TradeStrategy) : TradeStrategy :=
  {| trader_id := trader_id self; id := id self;
     id_tag_trader := id_tag_trader self;
     id_tag_strategy := id_tag_strategy self;
     _guid_factory := _guid_factory self; clock := clock self;
     flatten_on_sl_reject := flatten_on_sl_reject self;
     flatten_on_stop := flatten_on_stop self;
     cancel_all_orders_on_stop := cancel_all_orders_on_stop self;
     order_factory := order_factory self;
     position_id_generator := position_id_generator self;
     _entry_orders := _entry_orders self;
     _stop_loss_orders := _stop_loss_orders self;
     _take_profit_orders := _take_profit_orders self;
     _atomic_order_ids := _atomic_order_ids self;
     bar_capacity := bar_capacity self; _ticks := _ticks self;
     _bars := _bars self; _indicators := _indicators self;
     _indicator_updaters := _indicator_updaters self;
     _modify_order_buffer := _modify_order_buffer self;
     _exec_client := _exec_client self; _portfolio := _portfolio self;
     is_exec_client_registered := is_exec_client_registered self;
     is_portfolio_registered := v; is_running := is_running self;
     heap := heap self; trace := trace self |}.

Definition set_is_running (v : bool) (self : TradeStrategy) : TradeStrategy :=
  {| trader_id := trader_id self; id := id self;
     id_tag_trader := id_tag_trader self;
     id_tag_strategy := id_tag_strategy self;
     _guid_factory := _guid_factory self; clock := clock self;
     flatten_on_sl_reject := flatten_on_sl_reject self;
     flatten_on_stop := flatten_on_stop self;
     cancel_all_orders_on_stop := cancel_all_orders_on_stop self;
     order_factory := order_factory self;
     position_id_generator := position_id_generator self;
     _entry_orders := _entry_orders self;
     _stop_loss_orders := _stop_loss_orders self;
     _take_profit_orders := _take_profit_orders self;
     _atomic_order_ids := _atomic_order_ids self;
     bar_capacity := bar_capacity self; _ticks := _ticks self;
     _bars := _bars self; _indicators := _indicators self;
     _indicator_updaters := _indicator_updaters self;
     _modify_order_buffer := _modify_order_buffer self;
     _exec_client := _exec_client self; _portfolio := _portfolio self;
     is_exec_client_registered := is_exec_client_registered self;
     is_portfolio_registered := is_portfolio_registered self;
     is_running := v; heap := heap self; trace := trace self |}.

Definition set_heap (v : list I) (self : TradeStrategy) : TradeStrategy :=
  {| trader_id := trader_id self; id := id self;
     id_tag_trader := id_tag_trader self;
     id_tag_strategy := id_tag_strategy self;
     _guid_factory := _guid_factory self; clock := clock self;
     flatten_on_sl_reject := flatten_on_sl_reject self;
     flatten_on_stop := flatten_on_stop self;
     cancel_all_orders_on_stop := cancel_all_orders_on_stop self;
     order_factory := order_factory self;
     position_id_generator := position_id_generator self;
     _entry_orders := _entry_orders self;
     _stop_loss_orders := _stop_loss_orders self;
     _take_profit_orders := _take_profit_orders self;
     _atomic_order_ids := _atomic_order_ids self;
     bar_capacity := bar_capacity self; _ticks := _ticks self;
     _bars := _bars self; _indicators := _indicators self;
     _indicator_updaters := _indicator_updaters self;
     _modify_order_buffer := _modify_order_buffer self;
     _exec_client := _exec_client self; _portfolio := _portfolio self;
     is_exec_client_registered := is_exec_client_registered self;
     is_portfolio_registered := is_portfolio_registered self;
     is_running := is_running self; heap := v; trace := trace self |}.

Definition set_trace (v : list Effect) (self : TradeStrategy) : TradeStrategy :=
  {| trader_id := trader_id self; id := id self;
     id_tag_trader := id_tag_trader self;
     id_tag_strategy := id_tag_strategy self;
     _guid_factory := _guid_factory self; clock := clock self;
     flatten_on_sl_reject := flatten_on_sl_reject self;
     flatten_on_stop := flatten_on_stop self;
     cancel_all_orders_on_stop := cancel_all_orders_on_stop self;
     order_factory := order_factory self;
     position_id_generator := position_id_generator self;
     _entry_orders := _entry_orders self;
     _stop_loss_orders := _stop_loss_orders self;
     _take_profit_orders := _take_profit_orders self;
     _atomic_order_ids := _atomic_order_ids self;
     bar_capacity := bar_capacity self; _ticks := _ticks self;
     _bars := _bars self; _indicators := _indicators self;
     _indicator_updaters := _indicator_updaters self;
     _modify_order_buffer := _modify_order_buffer self;
     _exec_client := _exec_client self; _portfolio := _portfolio self;
     is_exec_client_registered := is_exec_client_registered self;
     is_portfolio_registered := is_portfolio_registered self;
     is_running := is_running self; heap := heap self; trace := v |}.

Local Abbreviation Method := (M TradeStrategy).

(** A call comes back when it returns or raises. *)
Definition comes_back {A} (m : Method A) : Prop :=
  ∀ self self', m self ≠ Crash self'.

(** The abstract methods of the class, overridden by the user's strategy.
    A hook is any computation on the strategy object; it is Python code of
    the strategy's author and comes back: it returns or it raises. *)
Class UserHooks : Type := {
  on_start : Method unit;
  on_tick : Tick.t → Method unit;
  on_bar : BarType.t → Bar.t → Method unit;
  on_event : Event → Method unit;
  on_stop : Method unit;
  on_reset : Method unit;
  on_dispose : Method unit;
  on_start_comes_back : comes_back on_start;
  on_tick_comes_back : ∀ tick, comes_back (on_tick tick);
  on_bar_comes_back : ∀ bar_type bar, comes_back (on_bar bar_type bar);
  on_event_comes_back : ∀ event, comes_back (on_event event);
  on_stop_comes_back : comes_back on_stop;
  on_reset_comes_back : comes_back on_reset;
  on_dispose_comes_back : comes_back on_dispose
}.

Context `{UserHooks}.

(** *** Access to the collaborators *)

Definition get_self : Method TradeStrategy := gets (λ self, self).

Definition emit (e : Effect) : Method unit :=
  modify (λ self, set_trace (trace self ++ [e]) self).

Definition log_debug (m : Msg) : Method unit := emit (Logged (LogDebug m)).
Definition log_info (m : Msg) : Method unit := emit (Logged (LogInfo m)).
Definition log_warning (m : Msg) : Method unit := emit (Logged (LogWarning m)).
Definition log_error (m : Msg) : Method unit := emit (Logged (LogError m)).
Definition log_exception (ex : Exn) : Method unit :=
  emit (Logged (LogException ex)).

(** The boundary of a method declared [void], [bint] or with an enum as
    its result: an exception raised in the body is written to stderr and
    dropped, and the method returns [zero], the zero of its result type.
    What the body did before it raised stays done. The methods of these
    types whose body cannot raise are written without it. *)
Definition unraisable {A} (zero : A) (body : Method A) : Method A :=
  λ self, match body self with
          | Ok a self' => Ok a self'
          | Raise ex self' => (emit (Unraisable ex) ;; mret zero) self'
          | Crash self' => Crash self'
          end.

Definition time_now : Method datetime :=
  gets (λ self, Clock.time_now (clock self)).

Definition guid_generate : Method GUID :=
  self ← get_self;
  modify (set_guid_factory (S (_guid_factory self))) ;;
  mret (_guid_factory self).

(** [self._exec_client], for a call of one of its methods: the attribute
    is None until an execution client is registered. *)
Definition exec_client : Method ExecutionClient.t :=
  self ← get_self;
  match _exec_client self with
  | Some client => mret client
  | None => crash
  end.

(** [self._portfolio], for a call of one of its methods. *)
Definition portfolio : Method Portfolio.t :=
  self ← get_self;
  match _portfolio self with
  | Some p => mret p
  | None => crash
  end.

Definition execute_command (command : Command) : Method unit :=
  _ ← exec_client; emit (Executed command).

(** [ExecutionClient.get_order] raises when the order is unknown. *)
Definition get_order (order_id : OrderId) : Method Order.t :=
  client ← exec_client;
  match Dict.get order_id (ExecutionClient.orders client) with
  | Some order => mret order
  | None => raise (ValueError "order not found")
  end.

(** [Portfolio.get_position] raises when the position is unknown. *)
Definition get_position (position_id : PositionId) : Method Position.t :=
  p ← portfolio;
  match Dict.get position_id (Portfolio.positions p) with
  | Some position => mret position
  | None => raise (ValueError "position not found")
  end.

(** [Portfolio.get_position_for_order] answers None for an order without
    position. *)
Definition get_position_for_order (order_id : OrderId)
  : Method (option Position.t) :=
  p ← portfolio;
  mret (Dict.get order_id (Portfolio.position_for_order p)).

(** An attribute of a variable declared with an extension type
    ([cdef Position position]): the read is not checked for None. *)
Definition attribute_of {A B} (o : option A) (f : A → B) : Method B :=
  match o with
  | Some a => mret (f a)
  | None => crash
  end.

Definition deref (r : IndicatorRef) : Method I :=
  self ← get_self;
  match heap self !! r with
  | Some i => mret i
  | None => raise (UserError "dangling indicator reference")
  end.

Definition store (r : IndicatorRef) (i : I) : Method unit :=
  modify (λ self, set_heap (<[r := i]> (heap self)) self).

(** [Precondition.is_in(key, dictionary, ...)] *)
Definition Precondition_is_in {K V} `{EqDecision K}
    (key : K) (d : Dict.t K V) (what : string) : Method unit :=
  if Dict.mem key d then mret tt else raise (ValueError what).

(** [Precondition.not_negative(value, ...)] *)
Definition Precondition_not_negative (value : Z) (what : string)
  : Method unit :=
  if (0 <=? value)%Z then mret tt else raise (ValueError what).

(** [ValidString(value)]: None and the empty string are refused. *)
Definition ValidString (value : option string) : Method string :=
  match value with
  | Some s => if decide (s = "") then raise (ValueError "invalid string")
              else mret s
  | None => raise (ValueError "invalid string")
  end.

(** [try: hook except Exception as ex: self.log.exception(ex)] *)
Definition guarded (hook : Method unit) : Method unit :=
  try_except hook log_exception.

(** *** Registration methods *)

Definition register_execution_client (client : ExecutionClient.t)
  : Method unit :=
  modify (set_exec_client (Some client)) ;;
  modify (set_portfolio (Some (ExecutionClient.portfolio client))) ;;
  modify (set_is_exec_client_registered true) ;;
  modify (set_is_portfolio_registered true) ;;
  log_debug [Lit "Registered execution client, portfolio, and account."].

Definition register_indicator (bar_type : BarType.t)
    (indicator : IndicatorRef) (update_method : Bar.t → I → I)
  : Method unit :=
  unraisable tt
    (self ← get_self;
     when (negb (Dict.mem bar_type (_indicators self)))
       (modify (set_indicators (Dict.set bar_type [] (_indicators self)))) ;;
     self ← get_self;
     match Dict.get bar_type (_indicators self) with
     | Some l =>
         modify (set_indicators
                   (Dict.set bar_type (l ++ [indicator]) (_indicators self)))
     | None => raise (KeyError "bar_type")
     end ;;
     self ← get_self;
     when (negb (Dict.mem bar_type (_indicator_updaters self)))
       (modify (set_indicator_updaters
                  (Dict.set bar_type [] (_indicator_updaters self)))) ;;
     self ← get_self;
     match Dict.get bar_type (_indicator_updaters self) with
     | Some l =>
         modify (set_indicator_updaters
                   (Dict.set bar_type
                      (l ++ [{| IndicatorUpdater.indicator := indicator;
                                IndicatorUpdater.update_method :=
                                  update_method |}])
                      (_indicator_updaters self)))
     | None => raise (KeyError "bar_type")
     end).

Definition register_entry_order (order : Order.t) (position_id : PositionId)
  : Method unit :=
  modify (λ self,
    set_entry_orders (Dict.set (Order.id order) order (_entry_orders self)) self).

Definition register_stop_loss_order (order : Order.t)
    (position_id : PositionId) : Method unit :=
  modify (λ self,
    set_stop_loss_orders
      (Dict.set (Order.id order) order (_stop_loss_orders self)) self).

Definition register_take_profit_order (order : Order.t)
    (position_id : PositionId) : Method unit :=
  modify (λ self,
    set_take_profit_orders
      (Dict.set (Order.id order) order (_take_profit_orders self)) self).

(** *** Command methods used by the handlers *)

Definition get_opposite_side (side : OrderSide) : OrderSide :=
  if decide (side = SELL) then BUY else SELL.

Definition get_flatten_side (market_position : MarketPosition)
  : Method OrderSide :=
  unraisable OrderSide_zero
    match market_position with
    | LONG => mret SELL
    | SHORT => mret BUY
    | FLAT => raise (ValueError "Cannot flatten a FLAT position.")
    end.

Definition order_factory_market (symbol : Symbol) (side : OrderSide)
    (quantity : Quantity) (label : Label) : Method Order.t :=
  self ← get_self;
  let '(order, factory) :=
    OrderFactory.market (Clock.time_now (clock self)) symbol side quantity
      label (order_factory self) in
  modify (set_order_factory factory) ;;
  mret order.

Definition submit_order (order : Order.t) (position_id : PositionId)
  : Method unit :=
  self ← get_self;
  if negb (is_exec_client_registered self) then
    log_error [Lit "Cannot submit order (execution client not registered)."]
  else
    log_info [Lit "Submitting "; Fmt (ObjOrder order); Lit " with ";
              Fmt (ObjId position_id)] ;;
    command_id ← guid_generate;
    now ← time_now;
    execute_command
      (SubmitOrder (trader_id self) (id self) position_id order command_id now).

Definition submit_entry_order (order : Order.t) (position_id : PositionId)
  : Method unit :=
  register_entry_order order position_id ;; submit_order order position_id.

Definition submit_stop_loss_order (order : Order.t) (position_id : PositionId)
  : Method unit :=
  register_stop_loss_order order position_id ;; submit_order order position_id.

Definition submit_take_profit_order (order : Order.t)
    (position_id : PositionId) : Method unit :=
  register_take_profit_order order position_id ;;
  submit_order order position_id.

Definition submit_atomic_order (atomic_order : AtomicOrder.t)
    (position_id : PositionId) : Method unit :=
  self ← get_self;
  if negb (is_exec_client_registered self) then
    log_error
      [Lit "Cannot submit atomic order (execution client not registered)."]
  else
    log_info [Lit "Submitting "; Fmt (ObjAtomicOrder atomic_order);
              Lit " for "; Fmt (ObjId position_id)] ;;
    register_entry_order (AtomicOrder.entry atomic_order) position_id ;;
    register_stop_loss_order (AtomicOrder.stop_loss atomic_order)
      position_id ;;
    match AtomicOrder.take_profit atomic_order with
    | Some take_profit => register_take_profit_order take_profit position_id
    | None => mret tt
    end ;;
    let child_order_ids :=
      [Order.id (AtomicOrder.stop_loss atomic_order)]
        ++ match AtomicOrder.take_profit atomic_order with
           | Some take_profit => [Order.id take_profit]
           | None => []
           end in
    modify (λ self,
      set_atomic_order_ids
        (Dict.set (Order.id (AtomicOrder.entry atomic_order)) child_order_ids
           (_atomic_order_ids self)) self) ;;
    command_id ← guid_generate;
    now ← time_now;
    execute_command
      (SubmitAtomicOrder (trader_id self) (id self) position_id atomic_order
         command_id now).

Definition modify_order (order : Order.t) (new_price : Price) : Method unit :=
  self ← get_self;
  if negb (is_exec_client_registered self) then
    log_error [Lit "Cannot modify order (execution client not registered)."]
  else
    command_id ← guid_generate;
    now ← time_now;
    let command :=
      {| ModifyOrder.trader_id := trader_id self;
         ModifyOrder.strategy_id := id self;
         ModifyOrder.order_id := Order.id order;
         ModifyOrder.modified_price := new_price;
         ModifyOrder.command_id := command_id;
         ModifyOrder.command_timestamp := now |} in
    if Dict.mem (Order.id order) (_modify_order_buffer self) then
      modify (λ self,
        set_modify_order_buffer
          (Dict.set (Order.id order) command (_modify_order_buffer self))
          self) ;;
      log_warning [Lit "Buffering ModifyOrder command for ";
                   Fmt (ObjOrder order); Lit " with new price ";
                   Fmt (ObjPrice new_price)]
    else
      modify (λ self,
        set_modify_order_buffer
          (Dict.set (Order.id order) command (_modify_order_buffer self))
          self) ;;
      log_info [Lit "Modifying "; Fmt (ObjOrder order);
                Lit " with new price "; Fmt (ObjPrice new_price)] ;;
      execute_command (ModifyOrderCmd command).

Definition cancel_order (order : Order.t) (cancel_reason : option string)
  : Method unit :=
  unraisable tt
    (self ← get_self;
     if negb (is_exec_client_registered self) then
       log_error [Lit "Cannot cancel order (execution client not registered)."]
     else
       log_info [Lit "Cancelling "; Fmt (ObjOrder order)] ;;
       reason ← ValidString cancel_reason;
       command_id ← guid_generate;
       now ← time_now;
       execute_command
         (CancelOrder (trader_id self) (id self) (Order.id order) reason
            command_id now)).

Definition cancel_all_orders (cancel_reason : option string) : Method unit :=
  unraisable tt
    (self ← get_self;
     if negb (is_exec_client_registered self) then
       log_error
         [Lit "Cannot cancel all orders (execution client not registered)."]
     else
       client ← exec_client;
       let all_orders := ExecutionClient.strategy_orders client in
       for_each (Dict.items all_orders) (λ '(order_id, order),
         when (Order.is_active order)
           (reason ← ValidString cancel_reason;
            command_id ← guid_generate;
            now ← time_now;
            execute_command
              (CancelOrder (trader_id self) (id self) order_id reason
                 command_id now)))).

Definition flatten_position (position_id : PositionId) : Method unit :=
  unraisable tt
    (self ← get_self;
     if negb (is_exec_client_registered self) then
       log_error
         [Lit "Cannot flatten position (execution client not registered)."]
     else
       position ← get_position position_id;
       if Position.is_flat position then
         log_warning [Lit "Cannot flatten position (the position ";
                      Fmt (ObjId position_id); Lit " was already FLAT)."]
       else
         side ← get_flatten_side (Position.market_position position);
         order ← order_factory_market (Position.symbol position) side
                   (Position.quantity position) "EXIT";
         log_info [Lit "Flattening "; Fmt (ObjPosition position)] ;;
         submit_order order position_id).

Definition flatten_all_positions : Method unit :=
  self ← get_self;
  if negb (is_exec_client_registered self) then
    log_error
      [Lit "Cannot flatten all positions (execution client not registered)."]
  else
    p ← portfolio;
    let positions := Portfolio.positions_active p in
    if decide (Dict.len positions = 0%nat) then
      log_warning
        [Lit "Did not flatten all positions (no active positions to flatten)."]
    else
      for_each (Dict.items positions) (λ '(position_id, position),
        if Position.is_flat position then
          log_warning [Lit "Cannot flatten position (the position ";
                       Fmt (ObjId position_id); Lit " was already FLAT."]
        else
          side ← get_flatten_side (Position.market_position position);
          order ← order_factory_market (Position.symbol position) side
                    (Position.quantity position) "EXIT";
          log_info [Lit "Flattening "; Fmt (ObjPosition position); Lit "."] ;;
          submit_order order position_id).

Definition is_flat : Method bool :=
  p ← portfolio; mret (Portfolio.strategy_flat p).

(** *** Handler methods *)

Definition handle_tick (tick : Tick.t) : Method unit :=
  modify (λ self,
    set_ticks (Dict.set (Tick.symbol tick) tick (_ticks self)) self) ;;
  self ← get_self;
  when (is_running self) (guarded (on_tick tick)).

Definition update_bar (bar : Bar.t) (updater : IndicatorUpdater.t I)
  : Method unit :=
  i ← deref (IndicatorUpdater.indicator updater);
  store (IndicatorUpdater.indicator updater)
    (IndicatorUpdater.update_method updater bar i).

(** [deque(maxlen=n)] refuses a negative [n] with a [ValueError]. *)
Definition handle_bar (bar_type : BarType.t) (bar : Bar.t) : Method unit :=
  unraisable tt
    (self ← get_self;
     when (negb (Dict.mem bar_type (_bars self)))
       (if (bar_capacity self <? 0)%Z then
          raise (ValueError "maxlen must be non-negative")
        else
          modify (set_bars
            (Dict.set bar_type (Deque.new (Z.to_nat (bar_capacity self)))
               (_bars self)))) ;;
     self ← get_self;
     match Dict.get bar_type (_bars self) with
     | Some d =>
         modify (set_bars
                   (Dict.set bar_type (Deque.appendleft bar d) (_bars self)))
     | None => raise (KeyError "bar_type")
     end ;;
     self ← get_self;
     when (Dict.mem bar_type (_indicators self))
       match Dict.get bar_type (_indicator_updaters self) with
       | Some updaters => for_each updaters (update_bar bar)
       | None => raise (KeyError "bar_type")
       end ;;
     self ← get_self;
     when (is_running self) (guarded (on_bar bar_type bar))).

Definition _remove_from_registered_orders (order_id : OrderId)
  : Method unit :=
  self ← get_self;
  if Dict.mem order_id (_entry_orders self) then
    modify (set_entry_orders (Dict.del order_id (_entry_orders self)))
  else if Dict.mem order_id (_stop_loss_orders self) then
    modify (set_stop_loss_orders (Dict.del order_id (_stop_loss_orders self)))
  else if Dict.mem order_id (_take_profit_orders self) then
    modify (set_take_profit_orders
              (Dict.del order_id (_take_profit_orders self)))
  else mret tt.

Definition _remove_atomic_child_orders (order_id : OrderId) : Method unit :=
  self ← get_self;
  match Dict.get order_id (_atomic_order_ids self) with
  | Some children =>
      for_each children _remove_from_registered_orders ;;
      modify (λ self,
        set_atomic_order_ids (Dict.del order_id (_atomic_order_ids self)) self)
  | None => mret tt
  end.

Definition _process_modify_order_buffer (order_id : OrderId) : Method unit :=
  unraisable tt
    (self ← get_self;
     match Dict.get order_id (_modify_order_buffer self) with
     | Some buffered_command =>
         order ← get_order order_id;
         when (bool_decide (Some (ModifyOrder.modified_price buffered_command)
                            ≠ Order.price order))
           (log_info [Lit "Modifying ";
                      Fmt (ObjId (ModifyOrder.order_id buffered_command));
                      Lit " with price ";
                      Fmt (ObjPrice
                             (ModifyOrder.modified_price buffered_command))] ;;
            execute_command (ModifyOrderCmd buffered_command)) ;;
         modify (λ self,
           set_modify_order_buffer
             (Dict.del order_id (_modify_order_buffer self)) self)
     | None => raise (KeyError "order_id")
     end).

Definition handle_event (event : Event) : Method unit :=
  match event with
  | OrderRejected order_id =>
      log_warning [Fmt (ObjEvent event)] ;;
      self ← get_self;
      when (Dict.mem order_id (_stop_loss_orders self)
            && flatten_on_sl_reject self)
        (position ← get_position_for_order order_id;
         entered ← attribute_of position Position.is_entered;
         when entered
           (position_id ← attribute_of position Position.id;
            flatten_position position_id)) ;;
      _remove_atomic_child_orders order_id ;;
      _remove_from_registered_orders order_id
  | OrderCancelled order_id =>
      log_info [Fmt (ObjEvent event)] ;;
      _remove_atomic_child_orders order_id ;;
      _remove_from_registered_orders order_id
  | OrderFilled order_id =>
      log_info [Fmt (ObjEvent event)] ;;
      self ← get_self;
      when (Dict.mem order_id (_atomic_order_ids self))
        (modify (set_atomic_order_ids
                   (Dict.del order_id (_atomic_order_ids self)))) ;;
      _remove_from_registered_orders order_id
  | OrderPartiallyFilled order_id =>
      log_warning [Fmt (ObjEvent event)]
  | OrderCancelReject order_id =>
      log_warning [Fmt (ObjEvent event)] ;;
      self ← get_self;
      when (Dict.mem order_id (_modify_order_buffer self))
        (_process_modify_order_buffer order_id)
  | OrderModified order_id =>
      log_info [Fmt (ObjEvent event)] ;;
      self ← get_self;
      when (Dict.mem order_id (_modify_order_buffer self))
        (_process_modify_order_buffer order_id)
  | OrderExpired order_id =>
      log_info [Fmt (ObjEvent event)] ;;
      _remove_atomic_child_orders order_id ;;
      _remove_from_registered_orders order_id
  | _ => log_info [Fmt (ObjEvent event)]
  end ;;
  self ← get_self;
  when (is_running self) (guarded (on_event event)).

(** *** Data methods *)

Definition bars (bar_type : BarType.t) : Method (list Bar.t) :=
  self ← get_self;
  Precondition_is_in bar_type (_bars self) "bar_type" ;;
  match Dict.get bar_type (_bars self) with
  | Some d => mret (Deque.to_list d)
  | None => raise (KeyError "bar_type")
  end.

Definition bar (bar_type : BarType.t) (index : Z) : Method Bar.t :=
  self ← get_self;
  Precondition_is_in bar_type (_bars self) "bar_type" ;;
  Precondition_not_negative index "index" ;;
  match Dict.get bar_type (_bars self) with
  | Some d =>
      match Deque.to_list d !! Z.to_nat index with
      | Some b => mret b
      | None => raise (IndexError "deque index out of range")
      end
  | None => raise (KeyError "bar_type")
  end.

Definition last_bar (bar_type : BarType.t) : Method Bar.t :=
  self ← get_self;
  Precondition_is_in bar_type (_bars self) "bar_type" ;;
  match Dict.get bar_type (_bars self) with
  | Some d =>
      match Deque.to_list d !! 0%nat with
      | Some b => mret b
      | None => raise (IndexError "deque index out of range")
      end
  | None => raise (KeyError "bar_type")
  end.

Definition last_tick (symbol : Symbol) : Method Tick.t :=
  self ← get_self;
  Precondition_is_in symbol (_ticks self) "symbol" ;;
  match Dict.get symbol (_ticks self) with
  | Some tick => mret tick
  | None => raise (KeyError "symbol")
  end.

(** *** Indicator methods *)

Definition indicators (bar_type : BarType.t) : Method (list IndicatorRef) :=
  self ← get_self;
  Precondition_is_in bar_type (_indicators self) "bar_type" ;;
  match Dict.get bar_type (_indicators self) with
  | Some l => mret l
  | None => raise (KeyError "bar_type")
  end.

(** [for indicator in l: if indicator.initialized is False: return False] *)
Fixpoint all_initialized (l : list IndicatorRef) : Method bool :=
  match l with
  | [] => mret true
  | r :: l' =>
      i ← deref r;
      if initialized i then all_initialized l' else mret false
  end.

Fixpoint all_lists_initialized (ls : list (list IndicatorRef))
  : Method bool :=
  match ls with
  | [] => mret true
  | l :: ls' =>
      b ← all_initialized l;
      if (b : bool) then all_lists_initialized ls' else mret false
  end.

Definition indicators_initialized (bar_type : BarType.t) : Method bool :=
  unraisable false
    (self ← get_self;
     Precondition_is_in bar_type (_indicators self) "bar_type" ;;
     match Dict.get bar_type (_indicators self) with
     | Some l => all_initialized l
     | None => raise (KeyError "bar_type")
     end).

Definition indicators_initialized_all : Method bool :=
  unraisable false
    (self ← get_self;
     all_lists_initialized (Dict.values (_indicators self))).

(** *** Lifecycle *)

Definition start : Method unit :=
  log_info [Lit "Starting..."] ;;
  modify (set_is_running true) ;;
  guarded on_start ;;
  log_info [Lit "Running..."].

(** The residual checks of [stop]. *)
Definition warn_residuals : Method unit :=
  self ← get_self;
  for_each (Dict.values (_entry_orders self)) (λ order,
    log_warning [Lit "Residual entry "; Fmt (ObjOrder order)]) ;;
  for_each (Dict.values (_stop_loss_orders self)) (λ order,
    log_warning [Lit "Residual stop-loss "; Fmt (ObjOrder order)]) ;;
  for_each (Dict.values (_take_profit_orders self)) (λ order,
    log_warning [Lit "Residual take-profit "; Fmt (ObjOrder order)]) ;;
  for_each (Dict.items (_atomic_order_ids self)) (λ '(order_id, children),
    for_each children (λ child_order_id,
      log_warning [Lit "Residual child order "; Fmt (ObjId child_order_id)])) ;;
  for_each (Dict.items (_modify_order_buffer self)) (λ '(order_id, command),
    log_warning [Lit "Residual buffered "; Fmt (ObjModifyOrder command);
                 Lit " command for "; Fmt (ObjId order_id); Lit "."]).

Definition stop : Method unit :=
  log_info [Lit "Stopping..."] ;;
  emit ClockCancelAllTimeAlerts ;;
  emit ClockCancelAllTimers ;;
  self ← get_self;
  when (flatten_on_stop self)
    (flat ← is_flat; when (negb flat) flatten_all_positions) ;;
  self ← get_self;
  when (cancel_all_orders_on_stop self)
    (cancel_all_orders (Some "STOPPING STRATEGY")) ;;
  modify (set_is_running false) ;;
  warn_residuals ;;
  guarded on_stop ;;
  log_info [Lit "Stopped."].

Definition reset_indicator (r : IndicatorRef) : Method unit :=
  i ← deref r; store r (indicator_reset i).

Definition reset : Method unit :=
  unraisable tt
    (self ← get_self;
     if is_running self then
       log_error [Lit "Cannot reset (cannot reset a running strategy)."]
     else
       log_info [Lit "Resetting..."] ;;
       modify (λ self,
         set_order_factory (OrderFactory.reset (order_factory self)) self) ;;
       modify (λ self,
         set_position_id_generator
           (IdentifierGenerator.reset (position_id_generator self)) self) ;;
       modify (set_ticks Dict.empty) ;;
       modify (set_bars Dict.empty) ;;
       self ← get_self;
       for_each (Dict.values (_indicators self)) (λ indicator_list,
         for_each indicator_list reset_indicator) ;;
       guarded on_reset ;;
       log_info [Lit "Reset."]).

(** [dispose] logs the text of a hook failure at error level. *)
Definition dispose : Method unit :=
  log_info [Lit "Disposing..."] ;;
  try_except on_dispose (λ ex, log_error [Lit (str ex)]) ;;
  log_info [Lit "Disposed."].

End Engine.

Global Arguments TradeStrategy : clear implicits.
Global Arguments UserHooks I : clear implicits.

(** *** Construction *)

(** The attributes set by [TradeStrategy.__init__]; [class_name] is
    [self.__class__.__name__]. *)
Definition initial {I : Type} (class_name : string) (id_tag_strategy : string)
    (flatten_on_sl_reject flatten_on_stop cancel_all_orders_on_stop : bool)
    (bar_capacity : Z) (clock : Clock.t) (guid_factory : GUID)
  : TradeStrategy I :=
  {| trader_id := "Trader-000";
     id := class_name +:+ "-" +:+ id_tag_strategy;
     id_tag_trader := "000";
     id_tag_strategy := id_tag_strategy;
     _guid_factory := guid_factory;
     clock := clock;
     flatten_on_sl_reject := flatten_on_sl_reject;
     flatten_on_stop := flatten_on_stop;
     cancel_all_orders_on_stop := cancel_all_orders_on_stop;
     order_factory := OrderFactory.new "000" id_tag_strategy;
     position_id_generator := PositionIdGenerator.new "000" id_tag_strategy;
     _entry_orders := Dict.empty;
     _stop_loss_orders := Dict.empty;
     _take_profit_orders := Dict.empty;
     _atomic_order_ids := Dict.empty;
     bar_capacity := bar_capacity;
     _ticks := Dict.empty;
     _bars := Dict.empty;
     _indicators := Dict.empty;
     _indicator_updaters := Dict.empty;
     _modify_order_buffer := Dict.empty;
     _exec_client := None;
     _portfolio := None;
     is_exec_client_registered := false;
     is_portfolio_registered := false;
     is_running := false;
     heap := [];
     trace := [] |}.

(** [TradeStrategy.__init__]: the two preconditions refuse an empty tag and
    a capacity that is not positive. *)
Definition TradeStrategy_init {I : Type} (class_name : string)
    (id_tag_strategy : string)
    (flatten_on_sl_reject flatten_on_stop cancel_all_orders_on_stop : bool)
    (bar_capacity : Z) (clock : Clock.t) (guid_factory : GUID)
  : Exn + TradeStrategy I :=
  if decide (id_tag_strategy = "") then inl (ValueError "id_tag_strategy")
  else if negb (0 <? bar_capacity)%Z then inl (ValueError "bar_capacity")
  else inr (initial class_name id_tag_strategy flatten_on_sl_reject
              flatten_on_stop cancel_all_orders_on_stop bar_capacity clock
              guid_factory).

(** A [raise] statement comes back. *)
Definition raise_comes_back {I A : Type} (e : Exn)
  : comes_back (raise e : M (TradeStrategy I) A) :=
  λ self self' (Heq : Raise e self = Crash self'),
    match Heq in _ = r return match r with Crash _ => False | _ => True end
    with eq_refl => Logic.I end.

(** The hooks of the base class: each raises [NotImplementedError]. *)
Definition abstract_hooks (I : Type) : UserHooks I :=
  {| on_start := raise (NotImplementedError
       "Method on_start() must be implemented in the strategy (or just add pass).");
     on_tick := λ _, raise (NotImplementedError
       "Method on_tick() must be implemented in the strategy (or just add pass).");
     on_bar := λ _ _, raise (NotImplementedError
       "Method on_bar() must be implemented in the strategy (or just add pass).");
     on_event := λ _, raise (NotImplementedError
       "Method on_event() must be implemented in the strategy (or just add pass).");
     on_stop := raise (NotImplementedError
       "Method on_stop() must be implemented in the strategy (or just add pass).");
     on_reset := raise (NotImplementedError
       "Method reset() must be implemented in the strategy (or just add pass).");
     on_dispose := raise (NotImplementedError
       "Method on_dispose() must be implemented in the strategy (or just add pass).");
     on_start_comes_back := raise_comes_back _;
     on_tick_comes_back := λ _, raise_comes_back _;
     on_bar_comes_back := λ _ _, raise_comes_back _;
     on_event_comes_back := λ _, raise_comes_back _;
     on_stop_comes_back := raise_comes_back _;
     on_reset_comes_back := raise_comes_back _;
     on_dispose_comes_back := raise_comes_back _ |}.

(** * Specification vocabulary

    The definitions below are not methods of the engine: they name the
    states, views and effect lists that the statements about the methods
    speak of. *)

(** What the updaters of one bar type do to the indicator heap. *)
Definition feed {I : Type} (bar : Bar.t)
    (updaters : list (IndicatorUpdater.t I)) (h : list I) : list I :=
  foldl (λ h u, alter (IndicatorUpdater.update_method u bar)
                  (IndicatorUpdater.indicator u) h) h updaters.

(** The deque of a bar type after one more bar. *)
Definition deque_with_bar {I : Type} (bar_type : BarType.t) (bar : Bar.t)
    (self : TradeStrategy I) : Deque.t Bar.t :=
  Deque.appendleft bar
    (default (Deque.new (Z.to_nat (bar_capacity self)))
       (Dict.get bar_type (_bars self))).

(** The data client delivers bars one call at a time; a call that raises
    does not stop the next delivery. *)
Definition deliver {I : Type} `{UserHooks I}
    (calls : list (BarType.t * Bar.t)) (self : TradeStrategy I)
  : TradeStrategy I :=
  foldl (λ s '(bar_type, bar), state_of (handle_bar bar_type bar s)) self calls.

(** The bars of one bar type among the delivered ones, oldest first. *)
Definition bars_of (bar_type : BarType.t) (calls : list (BarType.t * Bar.t))
  : list Bar.t :=
  omap (λ '(bt, b), if decide (bt = bar_type) then Some b else None) calls.

(** The capacity is not negative (the constructor makes it positive), and
    every cached deque was created with the capacity of the strategy and
    holds no more than that. *)
Definition bar_cache_ok {I : Type} (self : TradeStrategy I) : Prop :=
  0 ≤ bar_capacity self
  ∧ ∀ bar_type d, Dict.get bar_type (_bars self) = Some d →
      Deque.maxlen d = Z.to_nat (bar_capacity self)
      ∧ (length (Deque.to_list d) ≤ Deque.maxlen d)%nat.

(** A computation keeps a view of the strategy: the view of the final state,
    returned or raised, is the view of the initial one. *)
Definition keeps {I A V : Type} (view : TradeStrategy I → V)
    (m : M (TradeStrategy I) A) : Prop :=
  ∀ self, view (state_of (m self)) = view self.

(** Every registered indicator is an object of the heap. *)
Definition heap_ok {I : Type} (self : TradeStrategy I) : Prop :=
  Forall (Forall (λ r, r < length (heap self))%nat)
    (Dict.values (_indicators self)).

(** [reset] applied to the indicators of the given references, in order. *)
Definition reset_all {I : Type} `{Indicator I} (refs : list IndicatorRef)
    (h : list I) : list I :=
  foldl (λ h r, alter indicator_reset r h) h refs.

(** The order and position ledger. *)
Definition ledger {I : Type} (self : TradeStrategy I) :=
  (_entry_orders self, _stop_loss_orders self, _take_profit_orders self,
   _atomic_order_ids self, _modify_order_buffer self).

(** Everything but the tick cache, the bar cache, the indicator objects, the
    order factory, the position identifier generator and the trace. *)
Definition outside_reset {I : Type} (self : TradeStrategy I) :=
  (trader_id self, id self, id_tag_trader self, id_tag_strategy self,
   _guid_factory self, clock self, flatten_on_sl_reject self,
   flatten_on_stop self, cancel_all_orders_on_stop self, ledger self,
   bar_capacity self, _indicators self, _indicator_updaters self,
   _exec_client self, _portfolio self, is_exec_client_registered self,
   is_portfolio_registered self, is_running self).


(** The three order registers. *)
Definition registers {I : Type} (self : TradeStrategy I) :=
  (_entry_orders self, _stop_loss_orders self, _take_profit_orders self).

(** The order identifier is in none of the registers. *)
Definition absent {I : Type} (order_id : OrderId) (self : TradeStrategy I)
  : Prop :=
  Dict.mem order_id (_entry_orders self) = false
  ∧ Dict.mem order_id (_stop_loss_orders self) = false
  ∧ Dict.mem order_id (_take_profit_orders self) = false.

(** The order identifier is in at most one of the registers. *)
Definition in_at_most_one {I : Type} (order_id : OrderId)
    (self : TradeStrategy I) : Prop :=
  (Dict.mem order_id (_entry_orders self) = true →
     Dict.mem order_id (_stop_loss_orders self) = false
     ∧ Dict.mem order_id (_take_profit_orders self) = false)
  ∧ (Dict.mem order_id (_stop_loss_orders self) = true →
       Dict.mem order_id (_take_profit_orders self) = false).

(** The state after [_remove_from_registered_orders]. *)
Definition remove_registered {I : Type} (order_id : OrderId)
    (self : TradeStrategy I) : TradeStrategy I :=
  if Dict.mem order_id (_entry_orders self) then
    set_entry_orders (Dict.del order_id (_entry_orders self)) self
  else if Dict.mem order_id (_stop_loss_orders self) then
    set_stop_loss_orders (Dict.del order_id (_stop_loss_orders self)) self
  else if Dict.mem order_id (_take_profit_orders self) then
    set_take_profit_orders (Dict.del order_id (_take_profit_orders self)) self
  else self.

(** The state after [_remove_atomic_child_orders]. *)
Definition remove_children {I : Type} (order_id : OrderId)
    (self : TradeStrategy I) : TradeStrategy I :=
  match Dict.get order_id (_atomic_order_ids self) with
  | Some children =>
      set_atomic_order_ids (Dict.del order_id (_atomic_order_ids self))
        (foldl (λ s child, remove_registered child s) self children)
  | None => self
  end.



(** The side of the order that closes a position that is not flat. *)
Definition closing_side (market_position : MarketPosition) : OrderSide :=
  match market_position with LONG => SELL | _ => BUY end.

(** The commands sent to the execution client so far. *)
Definition sent {I : Type} (self : TradeStrategy I) : list Command :=
  commands_of (trace self).

(** The state after a line of the log. *)
Definition logged {I : Type} (c : LogCall) (self : TradeStrategy I)
  : TradeStrategy I :=
  set_trace (trace self ++ [Logged c]) self.

(** The state after an exception was dropped. *)
Definition dropped {I : Type} (ex : Exn) (self : TradeStrategy I)
  : TradeStrategy I :=
  set_trace (trace self ++ [Unraisable ex]) self.


(** What the loop of [flatten_all_positions] does over the active
    positions: the effects, the order factory and the next GUID after it. *)
Fixpoint flatten_effects (trader_id : TraderId) (strategy_id : StrategyId)
    (now : datetime) (factory : OrderFactory.t) (guid : GUID)
    (positions : list (PositionId * Position.t))
  : list Effect * OrderFactory.t * GUID :=
  match positions with
  | [] => ([], factory, guid)
  | (position_id, position) :: rest =>
      if Position.is_flat position then
        let '(effects, factory', guid') :=
          flatten_effects trader_id strategy_id now factory guid rest in
        (Logged (LogWarning [Lit "Cannot flatten position (the position ";
                             Fmt (ObjId position_id);
                             Lit " was already FLAT."]) :: effects,
         factory', guid')
      else
        let '(order, factory1) :=
          OrderFactory.market now (Position.symbol position)
            (closing_side (Position.market_position position))
            (Position.quantity position) "EXIT" factory in
        let '(effects, factory', guid') :=
          flatten_effects trader_id strategy_id now factory1 (S guid) rest in
        (Logged (LogInfo [Lit "Flattening "; Fmt (ObjPosition position);
                          Lit "."])
           :: Logged (LogInfo [Lit "Submitting "; Fmt (ObjOrder order);
                               Lit " with "; Fmt (ObjId position_id)])
           :: Executed (SubmitOrder trader_id strategy_id position_id order
                          guid now)
           :: effects,
         factory', guid')
  end.

(** The flatten step of [stop]. *)
Definition stop_flatten {I : Type} (self : TradeStrategy I)
    (p : Portfolio.t) : list Effect * OrderFactory.t * GUID :=
  if flatten_on_stop self && negb (Portfolio.strategy_flat p) then
    if decide (Dict.len (Portfolio.positions_active p) = 0%nat) then
      ([Logged (LogWarning
          [Lit "Did not flatten all positions (no active positions to flatten)."])],
       order_factory self, _guid_factory self)
    else
      flatten_effects (trader_id self) (id self) (Clock.time_now (clock self))
        (order_factory self) (_guid_factory self)
        (Dict.items (Portfolio.positions_active p))
  else ([], order_factory self, _guid_factory self).

(** The commands of the loop of [cancel_all_orders]. *)
Fixpoint cancel_commands (trader_id : TraderId) (strategy_id : StrategyId)
    (reason : string) (now : datetime) (guid : GUID)
    (orders : list (OrderId * Order.t)) : list Command :=
  match orders with
  | [] => []
  | (order_id, order) :: rest =>
      if Order.is_active order then
        CancelOrder trader_id strategy_id order_id reason guid now
          :: cancel_commands trader_id strategy_id reason now (S guid) rest
      else cancel_commands trader_id strategy_id reason now guid rest
  end.

(** The residual warnings of [stop]. *)
Definition residual_warnings {I : Type} (self : TradeStrategy I)
  : list Effect :=
  ((λ order, Logged (LogWarning [Lit "Residual entry "; Fmt (ObjOrder order)]))
     <$> Dict.values (_entry_orders self))
  ++ ((λ order,
         Logged (LogWarning [Lit "Residual stop-loss "; Fmt (ObjOrder order)]))
        <$> Dict.values (_stop_loss_orders self))
  ++ ((λ order,
         Logged (LogWarning [Lit "Residual take-profit "; Fmt (ObjOrder order)]))
        <$> Dict.values (_take_profit_orders self))
  ++ ((λ child,
         Logged (LogWarning [Lit "Residual child order "; Fmt (ObjId child)]))
        <$> concat (Dict.values (_atomic_order_ids self)))
  ++ ((λ '(order_id, command),
         Logged (LogWarning [Lit "Residual buffered ";
                             Fmt (ObjModifyOrder command);
                             Lit " command for "; Fmt (ObjId order_id);
                             Lit "."]))
        <$> Dict.items (_modify_order_buffer self)).

(** The market order that closes a position. *)
Definition exit_order_for (trader_id : TraderId) (strategy_id : StrategyId)
    (now : datetime) (entry : PositionId * Position.t) (c : Command) : Prop :=
  ∃ order_id guid,
    c = SubmitOrder trader_id strategy_id entry.1
          {| Order.id := order_id;
             Order.symbol := Position.symbol entry.2;
             Order.side := closing_side (Position.market_position entry.2);
             Order.type := MARKET;
             Order.quantity := Position.quantity entry.2;
             Order.price := None;
             Order.label := "EXIT";
             Order.is_active := false |}
          guid now.

(** The cancellation of an order. *)
Definition cancel_for (trader_id : TraderId) (strategy_id : StrategyId)
    (reason : string) (now : datetime) (entry : OrderId * Order.t)
    (c : Command) : Prop :=
  ∃ guid, c = CancelOrder trader_id strategy_id entry.1 reason guid now.

(** A string without the separator character of the identifiers. *)
Fixpoint no_dash (s : string) : Prop :=
  match s with
  | EmptyString => True
  | String c s' => c ≠ "-"%char ∧ no_dash s'
  end.

(** Parts of methods, named so that statements and proofs can speak of
    them. *)

Section Pieces.
Context {I : Type} `{Indicator I} `{OrderSideEnum}.

Local Abbreviation Method := (M (TradeStrategy I)).

(** [handle_bar] after the bar is in the cache: the updaters, then the hook. *)
Definition feed_and_hook `{UserHooks I} (bar_type : BarType.t) (bar : Bar.t)
  : Method unit :=
  self ← get_self;
  when (Dict.mem bar_type (_indicators self))
    match Dict.get bar_type (_indicator_updaters self) with
    | Some updaters => for_each updaters (update_bar bar)
    | None => raise (KeyError "bar_type")
    end ;;
  self ← get_self;
  when (is_running self) (guarded (on_bar bar_type bar)).


(** The flatten of the position of a rejected stop-loss. *)
Definition flatten_on_reject (order_id : OrderId) : Method unit :=
  self ← get_self;
  when (Dict.mem order_id (_stop_loss_orders self)
        && flatten_on_sl_reject self)
    (position ← get_position_for_order order_id;
     entered ← attribute_of position Position.is_entered;
     when entered
       (position_id ← attribute_of position Position.id;
        flatten_position position_id)).

(** The call of the hook that ends [handle_event]. *)
Definition call_on_event `{UserHooks I} (event : Event) : Method unit :=
  self ← get_self;
  when (is_running self) (guarded (on_event event)).


(** The body of the loop of [cancel_all_orders]. *)
Definition cancel_one (trader : TraderId) (strategy : StrategyId)
    (cancel_reason : option string) (entry : OrderId * Order.t)
  : Method unit :=
  let '(order_id, order) := entry in
  when (Order.is_active order)
    (reason ← ValidString cancel_reason;
     command_id ← guid_generate;
     now ← time_now;
     execute_command
       (CancelOrder trader strategy order_id reason command_id now)).

(** The body of the loop of [flatten_all_positions]. *)
Definition flatten_one (entry : PositionId * Position.t) : Method unit :=
  let '(position_id, position) := entry in
  if Position.is_flat position then
    log_warning [Lit "Cannot flatten position (the position ";
                 Fmt (ObjId position_id); Lit " was already FLAT."]
  else
    side ← get_flatten_side (Position.market_position position);
    order ← order_factory_market (Position.symbol position) side
              (Position.quantity position) "EXIT";
    log_info [Lit "Flattening "; Fmt (ObjPosition position); Lit "."] ;;
    submit_order order position_id.

End Pieces.

(** * A strategy under test

    The concrete strategy, orders, positions and bars on which the
    statements below are instantiated. *)

Module Example.

(** An indicator that is initialized after [period] inputs, as a moving
    average is. *)
Record Warmup : Type := { period : nat; inputs : nat }.

Global Instance Warmup_indicator : Indicator Warmup :=
  {| initialized := λ w, (period w <=? inputs w)%nat;
     indicator_reset := λ w, {| period := period w; inputs := 0 |} |}.

Definition warmup_update (bar : Bar.t) (w : Warmup) : Warmup :=
  {| period := period w; inputs := S (inputs w) |}.

(** The strategy keeps the hooks of the base class. *)
Global Instance hooks : UserHooks Warmup := abstract_hooks Warmup.

(** The enum as the strategy under test sees it; no position there is
    flattened while FLAT, so that its zero is never returned. *)
#[export] Instance order_side : OrderSideEnum := {| OrderSide_zero := BUY |}.

Definition test_clock : Clock.t := {| Clock.time_now := test_clock_time |}.

(** A strategy just constructed, with a bar capacity of 3. *)
Definition strategy : TradeStrategy Warmup :=
  initial "TradeStrategy" "EMA-001" true true true 3 test_clock 0.

Definition order (order_id : OrderId) (side : OrderSide) (type : OrderType)
    (price : Price) (is_active : bool) : Order.t :=
  {| Order.id := order_id; Order.symbol := "AUDUSD"; Order.side := side;
     Order.type := type; Order.quantity := 100000; Order.price := Some price;
     Order.label := "S1"; Order.is_active := is_active |}.

Definition O1 : Order.t := order "O1" BUY STOP_MARKET 12000 true.
Definition O2 : Order.t := order "O2" SELL STOP_MARKET 11950 false.
Definition O3 : Order.t := order "O3" SELL LIMIT 12050 false.

Definition atomic : AtomicOrder.t :=
  {| AtomicOrder.entry := O1; AtomicOrder.stop_loss := O2;
     AtomicOrder.take_profit := Some O3 |}.

Definition P1 : Position.t :=
  {| Position.id := "P1"; Position.symbol := "AUDUSD";
     Position.market_position := LONG; Position.quantity := 100000;
     Position.is_entered := true |}.

Definition P2 : Position.t :=
  {| Position.id := "P2"; Position.symbol := "GBPUSD";
     Position.market_position := SHORT; Position.quantity := 50000;
     Position.is_entered := true |}.

(** Two active positions; P1 is the position of the orders O1 and O2. *)
Definition portfolio : Portfolio.t :=
  {| Portfolio.positions := [("P1", P1); ("P2", P2)];
     Portfolio.positions_active := [("P1", P1); ("P2", P2)];
     Portfolio.position_for_order := [("O1", P1); ("O2", P1)];
     Portfolio.strategy_flat := false |}.

(** The execution client holds one working order, O1, at price 1.2000. *)
Definition client : ExecutionClient.t :=
  {| ExecutionClient.orders := [("O1", O1)];
     ExecutionClient.strategy_orders := [("O1", O1)];
     ExecutionClient.portfolio := portfolio |}.

(** The strategy registered with the execution client. *)
Definition registered : TradeStrategy Warmup :=
  state_of (register_execution_client client strategy).

(** The same strategy, started. *)
Definition running : TradeStrategy Warmup := state_of (start registered).

(** The strategy just constructed, started without any registration. *)
Definition started : TradeStrategy Warmup := state_of (start strategy).


Definition AUDUSD_1m : BarType.t :=
  {| BarType.symbol := "AUDUSD"; BarType.specification := "1-MINUTE-BID" |}.

Definition bar_closing (close : Price) : Bar.t :=
  {| Bar.open := 12000; Bar.high := 12010; Bar.low := 11990;
     Bar.close := close; Bar.volume := 1000;
     Bar.timestamp := test_clock_time |}.

Definition b1 : Bar.t := bar_closing 12001.
Definition b2 : Bar.t := bar_closing 12002.
Definition b3 : Bar.t := bar_closing 12003.
Definition b4 : Bar.t := bar_closing 12004.

Definition tick : Tick.t :=
  {| Tick.symbol := "AUDUSD"; Tick.bid := 12000; Tick.ask := 12001;
     Tick.timestamp := test_clock_time |}.

(** The strategy with one indicator of period 2 registered for the bar
    type. *)
Definition with_indicator : TradeStrategy Warmup :=
  state_of (register_indicator AUDUSD_1m 0%nat warmup_update
              (set_heap [{| period := 2; inputs := 0 |}] strategy)).

(** The same strategy, started. *)
Definition live : TradeStrategy Warmup := state_of (start with_indicator).

(** Two bars and a tick were delivered to it. *)
Definition warmed : TradeStrategy Warmup :=
  state_of (handle_tick tick
              (deliver [(AUDUSD_1m, b1); (AUDUSD_1m, b2)] with_indicator)).

(** The command of the modification in flight. *)
Definition first_modify : ModifyOrder.t :=
  {| ModifyOrder.trader_id := "Trader-000";
     ModifyOrder.strategy_id := "TradeStrategy-EMA-001";
     ModifyOrder.order_id := "O1";
     ModifyOrder.modified_price := 12005;
     ModifyOrder.command_id := 1%nat;
     ModifyOrder.command_timestamp := test_clock_time |}.

(** The atomic order was submitted against P1, then O1 modified. *)
Definition submitted : TradeStrategy Warmup :=
  state_of (submit_atomic_order atomic "P1" registered).

Definition modifying : TradeStrategy Warmup :=
  state_of (modify_order O1 12005 submitted).

(** The entry O1 of the atomic order was rejected. *)
Definition rejected_entry : TradeStrategy Warmup :=
  state_of (handle_event (OrderRejected "O1") submitted).


Definition atomic_submission : Command :=
  SubmitAtomicOrder "Trader-000" "TradeStrategy-EMA-001" "P1" atomic 0%nat
    test_clock_time.

End Example.

(** The value a call returned, if it returned. *)
Definition value_of {S A : Type} (r : Result S A) : option A :=
  match r with Ok a _ => Some a | Raise _ _ => None | Crash _ => None end.

(** A market order closing the position was sent to the execution client. *)
Definition flatten_submitted {I : Type} (position_id : PositionId)
    (self : TradeStrategy I) : Prop :=
  ∃ trader strategy order guid now,
    SubmitOrder trader strategy position_id order guid now ∈ sent self
    ∧ Order.type order = MARKET.

(** * Further methods of the engine

    The registration of the trader, the backtest methods that replace the
    clock and the GUID factory, and the collateral inquiry. The methods on
    the data client and the account are left out: the strategy object
    holds neither. *)

Section MoreEngine.
Context {I : Type} `{Indicator I} `{OrderSideEnum} `{UserHooks I}.

Local Abbreviation Method := (M (TradeStrategy I)).

Definition set_trader_id (v : TraderId) (self : TradeStrategy I)
  : TradeStrategy I :=
  {| trader_id := v; id := id self; id_tag_trader := id_tag_trader self;
     id_tag_strategy := id_tag_strategy self;
     _guid_factory := _guid_factory self; clock := clock self;
     flatten_on_sl_reject := flatten_on_sl_reject self;
     flatten_on_stop := flatten_on_stop self;
     cancel_all_orders_on_stop := cancel_all_orders_on_stop self;
     order_factory := order_factory self;
     position_id_generator := position_id_generator self;
     _entry_orders := _entry_orders self;
     _stop_loss_orders := _stop_loss_orders self;
     _take_profit_orders := _take_profit_orders self;
     _atomic_order_ids := _atomic_order_ids self;
     bar_capacity := bar_capacity self; _ticks := _ticks self;
     _bars := _bars self; _indicators := _indicators self;
     _indicator_updaters := _indicator_updaters self;
     _modify_order_buffer := _modify_order_buffer self;
     _exec_client := _exec_client self; _portfolio := _portfolio self;
     is_exec_client_registered := is_exec_client_registered self;
     is_portfolio_registered := is_portfolio_registered self;
     is_running := is_running self; heap := heap self;
     trace := trace self |}.

Definition set_id_tag_trader (v : string) (self : TradeStrategy I)
  : TradeStrategy I :=
  {| trader_id := trader_id self; id := id self; id_tag_trader := v;
     id_tag_strategy := id_tag_strategy self;
     _guid_factory := _guid_factory self; clock := clock self;
     flatten_on_sl_reject := flatten_on_sl_reject self;
     flatten_on_stop := flatten_on_stop self;
     cancel_all_orders_on_stop := cancel_all_orders_on_stop self;
     order_factory := order_factory self;
     position_id_generator := position_id_generator self;
     _entry_orders := _entry_orders self;
     _stop_loss_orders := _stop_loss_orders self;
     _take_profit_orders := _take_profit_orders self;
     _atomic_order_ids := _atomic_order_ids self;
     bar_capacity := bar_capacity self; _ticks := _ticks self;
     _bars := _bars self; _indicators := _indicators self;
     _indicator_updaters := _indicator_updaters self;
     _modify_order_buffer := _modify_order_buffer self;
     _exec_client := _exec_client self; _portfolio := _portfolio self;
     is_exec_client_registered := is_exec_client_registered self;
     is_portfolio_registered := is_portfolio_registered self;
     is_running := is_running self; heap := heap self;
     trace := trace self |}.

Definition set_clock (v : Clock.t) (self : TradeStrategy I)
  : TradeStrategy I :=
  {| trader_id := trader_id self; id := id self;
     id_tag_trader := id_tag_trader self;
     id_tag_strategy := id_tag_strategy self;
     _guid_factory := _guid_factory self; clock := v;
     flatten_on_sl_reject := flatten_on_sl_reject self;
     flatten_on_stop := flatten_on_stop self;
     cancel_all_orders_on_stop := cancel_all_orders_on_stop self;
     order_factory := order_factory self;
     position_id_generator := position_id_generator self;
     _entry_orders := _entry_orders self;
     _stop_loss_orders := _stop_loss_orders self;
     _take_profit_orders := _take_profit_orders self;
     _atomic_order_ids := _atomic_order_ids self;
     bar_capacity := bar_capacity self; _ticks := _ticks self;
     _bars := _bars self; _indicators := _indicators self;
     _indicator_updaters := _indicator_updaters self;
     _modify_order_buffer := _modify_order_buffer self;
     _exec_client := _exec_client self; _portfolio := _portfolio self;
     is_exec_client_registered := is_exec_client_registered self;
     is_portfolio_registered := is_portfolio_registered self;
     is_running := is_running self; heap := heap self;
     trace := trace self |}.

(** [register_trader_id]: the two attributes are assigned; the order
    factory and the position identifier generator, built by the constructor,
    are not touched. *)
Definition register_trader_id (trader_id : TraderId) (order_id_tag : string)
  : Method unit :=
  modify (set_trader_id trader_id) ;;
  modify (set_id_tag_trader order_id_tag).

(** [change_clock]: the clock is replaced, and the order factory and the
    position identifier generator are built anew from the current tags.
    The logger and the event handler registered with the new clock are
    attributes of the clock object, of which the strategy keeps the reading
    only. *)
Definition change_clock (clock : Clock.t) : Method unit :=
  modify (set_clock clock) ;;
  self ← get_self;
  modify (set_order_factory
            (OrderFactory.new (id_tag_trader self) (id_tag_strategy self))) ;;
  self ← get_self;
  modify (set_position_id_generator
            (PositionIdGenerator.new (id_tag_trader self)
               (id_tag_strategy self))).

Definition change_guid_factory (guid_factory : GUID) : Method unit :=
  modify (set_guid_factory guid_factory).

(** [collateral_inquiry] has no registration check: the command is built
    first, then handed to the execution client. *)
Definition collateral_inquiry : Method unit :=
  command_id ← guid_generate;
  now ← time_now;
  execute_command (CollateralInquiry command_id now).

(** [position_id_generator.generate()] on the generator of the strategy. *)
Definition generate_position_id : Method PositionId :=
  self ← get_self;
  let '(position_id, generator) :=
    PositionIdGenerator.generate (Clock.time_now (clock self))
      (position_id_generator self) in
  modify (set_position_id_generator generator) ;;
  mret position_id.

End MoreEngine.

(** ** More specification vocabulary *)

(** An argument declared [int] is a C integer: a Python integer out of
    its range is refused at the call, before the body runs. *)
Definition c_int (z : Z) : Prop := - 2 ^ 31 ≤ z < 2 ^ 31.

(** The data client delivers ticks one call at a time. *)
Definition deliver_ticks {I : Type} `{Indicator I} `{UserHooks I}
    (ticks : list Tick.t) (self : TradeStrategy I) : TradeStrategy I :=
  foldl (λ s tick, state_of (handle_tick tick s)) self ticks.

(** The last tick of a symbol among the delivered ones. *)
Definition last_of (symbol : Symbol) (ticks : list Tick.t) : option Tick.t :=
  last (filter (λ tick, Tick.symbol tick = symbol) ticks).

(** What the delivered bars do to the indicator heap: the updaters of the
    bar type of each bar, in the order of delivery. *)
Definition feed_all {I : Type} (self : TradeStrategy I)
    (calls : list (BarType.t * Bar.t)) (h : list I) : list I :=
  foldl (λ h '(bar_type, bar),
           if Dict.mem bar_type (_indicators self) then
             feed bar (default [] (Dict.get bar_type (_indicator_updaters self)))
               h
           else h) h calls.

(** The two indicator maps go together: the updaters of a bar type are
    bound, one by one, to the indicators registered for it, and these are
    objects of the heap. *)
Definition indicators_aligned {I : Type} (self : TradeStrategy I) : Prop :=
  ∀ bar_type,
    ((λ us : list (IndicatorUpdater.t I), IndicatorUpdater.indicator <$> us)
       <$> Dict.get bar_type (_indicator_updaters self))
    = Dict.get bar_type (_indicators self)
    ∧ Forall (λ r, r < length (heap self))%nat
        (default [] (Dict.get bar_type (_indicators self))).

(** Every order identifier is in at most one register. *)
Definition registers_disjoint {I : Type} (self : TradeStrategy I) : Prop :=
  ∀ order_id, in_at_most_one order_id self.

(** The keys of the ledger of [self'] are keys of the ledger of [self]:
    nothing was added to a register, to the parent to children map or to the
    modify-order buffer. *)
Definition ledger_within {I : Type} (self' self : TradeStrategy I) : Prop :=
  ∀ order_id,
    (Dict.mem order_id (_entry_orders self') = true →
     Dict.mem order_id (_entry_orders self) = true)
    ∧ (Dict.mem order_id (_stop_loss_orders self') = true →
       Dict.mem order_id (_stop_loss_orders self) = true)
    ∧ (Dict.mem order_id (_take_profit_orders self') = true →
       Dict.mem order_id (_take_profit_orders self) = true)
    ∧ (Dict.mem order_id (_atomic_order_ids self') = true →
       Dict.mem order_id (_atomic_order_ids self) = true)
    ∧ (Dict.mem order_id (_modify_order_buffer self') = true →
       Dict.mem order_id (_modify_order_buffer self) = true).

(** Everything but the log and the GUID factory. *)
Definition outside_commands {I : Type} (self : TradeStrategy I) :=
  (outside_reset (set_guid_factory 0%nat self), order_factory self,
   position_id_generator self, _ticks self, _bars self, heap self).

(** A computation adds nothing to the ledger. *)
Definition shrinks_ledger {I A : Type} (m : M (TradeStrategy I) A) : Prop :=
  ∀ self, ledger_within (state_of (m self)) self.

(** * Verification *)

(** Symbolic execution of a method body. *)
Ltac run :=
  repeat (progress (unfold mbind, M_bind, mret, M_ret, gets, modify, raise,
                      crash, unraisable, when, get_self, emit, log_debug,
                      log_info, log_warning, log_error, log_exception,
                      time_now, guid_generate;
                    simpl)).

(** Two strategies with the same attributes are the same. *)
Lemma strategy_ext {I : Type} (s1 s2 : TradeStrategy I) :
  trader_id s1 = trader_id s2 →
  id s1 = id s2 →
  id_tag_trader s1 = id_tag_trader s2 →
  id_tag_strategy s1 = id_tag_strategy s2 →
  _guid_factory s1 = _guid_factory s2 →
  clock s1 = clock s2 →
  flatten_on_sl_reject s1 = flatten_on_sl_reject s2 →
  flatten_on_stop s1 = flatten_on_stop s2 →
  cancel_all_orders_on_stop s1 = cancel_all_orders_on_stop s2 →
  order_factory s1 = order_factory s2 →
  position_id_generator s1 = position_id_generator s2 →
  _entry_orders s1 = _entry_orders s2 →
  _stop_loss_orders s1 = _stop_loss_orders s2 →
  _take_profit_orders s1 = _take_profit_orders s2 →
  _atomic_order_ids s1 = _atomic_order_ids s2 →
  bar_capacity s1 = bar_capacity s2 →
  _ticks s1 = _ticks s2 →
  _bars s1 = _bars s2 →
  _indicators s1 = _indicators s2 →
  _indicator_updaters s1 = _indicator_updaters s2 →
  _modify_order_buffer s1 = _modify_order_buffer s2 →
  _exec_client s1 = _exec_client s2 →
  _portfolio s1 = _portfolio s2 →
  is_exec_client_registered s1 = is_exec_client_registered s2 →
  is_portfolio_registered s1 = is_portfolio_registered s2 →
  is_running s1 = is_running s2 →
  heap s1 = heap s2 →
  trace s1 = trace s2 →
  s1 = s2.
Proof. destruct s1, s2. simpl. intros. by subst. Qed.

(** Equality of two states, attribute by attribute. *)
Ltac state_eq := apply strategy_ext; simpl; try done.

(** ** Dictionaries and lists *)

Section DictFacts.
Context {K V : Type} `{EqDecision K}.
Implicit Types (k : K) (v : V) (d : Dict.t K V).

Lemma dict_mem_true k d : Dict.mem k d = true ↔ is_Some (Dict.get k d).
Proof. unfold Dict.mem. by rewrite bool_decide_eq_true. Qed.

Lemma dict_mem_false k d : Dict.mem k d = false ↔ Dict.get k d = None.
Proof.
  unfold Dict.mem. by rewrite bool_decide_eq_false, <-eq_None_not_Some.
Qed.

Lemma dict_get_set k v k' d :
  Dict.get k' (Dict.set k v d)
  = if decide (k' = k) then Some v else Dict.get k' d.
Proof.
  induction d as [|[k0 v0] d IH]; simpl.
  - by repeat case_decide.
  - repeat (case_decide; simpl; simplify_eq); try done.
Qed.

Lemma dict_get_set_eq k v d : Dict.get k (Dict.set k v d) = Some v.
Proof. rewrite dict_get_set. by case_decide. Qed.

Lemma dict_get_set_ne k v k' d :
  k' ≠ k → Dict.get k' (Dict.set k v d) = Dict.get k' d.
Proof. intros. rewrite dict_get_set. by case_decide. Qed.

Lemma dict_get_del k k' d :
  Dict.get k' (Dict.del k d)
  = if decide (k' = k) then None else Dict.get k' d.
Proof.
  induction d as [|[k0 v0] d IH]; simpl.
  - by case_decide.
  - repeat (case_decide; simpl; simplify_eq); try done.
Qed.

Lemma dict_get_del_eq k d : Dict.get k (Dict.del k d) = None.
Proof. rewrite dict_get_del. by case_decide. Qed.

Lemma dict_mem_del_eq k d : Dict.mem k (Dict.del k d) = false.
Proof. apply dict_mem_false, dict_get_del_eq. Qed.

Lemma dict_mem_del_false k k' d :
  Dict.mem k' d = false → Dict.mem k' (Dict.del k d) = false.
Proof. rewrite !dict_mem_false, dict_get_del. intros. by case_decide. Qed.

Lemma dict_mem_set_eq k v d : Dict.mem k (Dict.set k v d) = true.
Proof. apply dict_mem_true. rewrite dict_get_set_eq. by eexists. Qed.

Lemma dict_mem_set_ne k k' v d :
  k' ≠ k → Dict.get k' d = None → Dict.mem k' (Dict.set k v d) = false.
Proof. intros. apply dict_mem_false. by rewrite dict_get_set_ne. Qed.

Lemma dict_del_absent k d : Dict.get k d = None → Dict.del k d = d.
Proof.
  induction d as [|[k0 v0] d IH]; simpl; [done|].
  case_decide; [done|]. intros. by rewrite IH.
Qed.

Lemma dict_set_set k v w d : Dict.set k v (Dict.set k w d) = Dict.set k v d.
Proof.
  induction d as [|[k0 v0] d IH]; simpl.
  - by case_decide.
  - case_decide; simpl; case_decide; try done. by rewrite IH.
Qed.

(** A key set and then deleted leaves the dictionary it was not in. *)
Lemma dict_del_set_absent k v d :
  Dict.get k d = None → Dict.del k (Dict.set k v d) = d.
Proof.
  induction d as [|[k0 v0] d IH]; simpl.
  - intros _. by rewrite decide_True.
  - case_decide; [done|]. intros Hd. simpl. rewrite decide_False by done.
    by rewrite IH.
Qed.

End DictFacts.

Lemma alter_insert_lookup {A} (f : A → A) (l : list A) (r : nat) (x : A) :
  l !! r = Some x → <[r := f x]> l = alter f r l.
Proof.
  revert r. induction l as [|y l IH]; intros [|r]; simpl; try done.
  - by intros [= ->].
  - intros. f_equal. by apply IH.
Qed.

(** ** Identifier generators *)

Module IdentifierGeneratorFacts.
Import IdentifierGenerator.

Lemma append_cons (x : ascii) (a b : string) :
  String x a +:+ b = String x (a +:+ b).
Proof. done. Qed.

Lemma append_empty (b : string) : "" +:+ b = b.
Proof. done. Qed.

Ltac norm_append :=
  repeat (rewrite append_empty || rewrite append_cons).

Lemma append_assoc (a b c : string) : (a +:+ b) +:+ c = a +:+ b +:+ c.
Proof.
  induction a as [|x a IH]; [done|]. rewrite !append_cons. by f_equal.
Qed.

Lemma dash_in_middle (a b : string) : ¬ no_dash (a +:+ "-" +:+ b).
Proof.
  induction a as [|x a IH]; norm_append; simpl; intros [? ?]; auto.
Qed.

(** The text after the last separator determines itself. *)
Lemma last_field_inj (a b d1 d2 : string) :
  no_dash d1 → no_dash d2 →
  a +:+ "-" +:+ d1 = b +:+ "-" +:+ d2 → d1 = d2.
Proof.
  revert b. induction a as [|x a IH]; intros [|y b] H1 H2; norm_append.
  - by intros [= ->].
  - intros [= <- ->]. by destruct (dash_in_middle b d2).
  - intros [= -> <-]. by destruct (dash_in_middle a d1).
  - intros [= -> ?]. eauto.
Qed.

Lemma pretty_N_char_no_dash (x : N) : pretty_N_char x ≠ "-"%char.
Proof. unfold pretty_N_char. by repeat case_match. Qed.

Lemma pretty_N_go_no_dash (x : N) (s : string) :
  no_dash s → no_dash (pretty_N_go x s).
Proof.
  revert s. induction (N.lt_wf_0 x) as [x _ IH]; intros s Hs.
  destruct (decide (x = 0%N)) as [->|Hx]; [by rewrite pretty_N_go_0|].
  rewrite pretty_N_go_step by lia.
  apply IH; [apply N.div_lt; lia|].
  split; [apply pretty_N_char_no_dash|done].
Qed.

Lemma pretty_nat_no_dash (n : nat) : no_dash (pretty n).
Proof.
  unfold pretty, pretty_nat, pretty, pretty_N.
  case_decide; [by simpl|]. by apply pretty_N_go_no_dash.
Qed.

Lemma identifier_with_counter g now c c' :
  identifier (with_counter c' g) now c = identifier g now c.
Proof. done. Qed.

(** Two identifiers of one generator that agree have the same counter,
    whatever the clock read. *)
Lemma identifier_counter_inj g now1 now2 c1 c2 :
  identifier g now1 c1 = identifier g now2 c2 → c1 = c2.
Proof.
  unfold identifier. intros Heq.
  apply (inj pretty).
  eapply (last_field_inj
    (prefix g +:+ "-" +:+ _get_datetime_tag now1 +:+ "-" +:+ id_tag_trader g
       +:+ "-" +:+ id_tag_strategy g)
    (prefix g +:+ "-" +:+ _get_datetime_tag now2 +:+ "-" +:+ id_tag_trader g
       +:+ "-" +:+ id_tag_strategy g)); try apply pretty_nat_no_dash.
  by rewrite !append_assoc.
Qed.

Lemma generate_all_lookup times : ∀ g i now,
  times !! i = Some now →
  (generate_all times g).1 !! i = Some (identifier g now (counter g + S i)).
Proof.
  induction times as [|t times IH]; intros g i now; [done|].
  simpl. destruct (generate_all times _) as [xs g''] eqn:Hrec.
  destruct i as [|i]; simpl.
  - intros [= ->]. by rewrite identifier_with_counter.
  - intros Hi. specialize (IH (with_counter (counter g + 1) g) i now Hi).
    rewrite Hrec in IH. simpl in IH. rewrite IH, identifier_with_counter.
    f_equal. f_equal. lia.
Qed.

Lemma generate_all_length times : ∀ g,
  length (generate_all times g).1 = length times.
Proof.
  induction times as [|t times IH]; intros g; [done|].
  simpl. specialize (IH (with_counter (counter g + 1) g)).
  destruct (generate_all times _) as [xs g'']. simpl in *. by rewrite IH.
Qed.

Lemma generate_all_counter times : ∀ g,
  counter (generate_all times g).2 = (counter g + length times)%nat.
Proof.
  induction times as [|t times IH]; intros g; simpl; [lia|].
  specialize (IH (with_counter (counter g + 1) g)).
  destruct (generate_all times _) as [xs g'']. simpl in *. lia.
Qed.

Lemma generate_all_NoDup times g : NoDup (generate_all times g).1.
Proof.
  apply NoDup_alt. intros i j x Hi Hj.
  destruct (times !! i) as [ti|] eqn:Hti; last first.
  { apply lookup_ge_None in Hti. apply lookup_lt_Some in Hi.
    rewrite generate_all_length in Hi. lia. }
  destruct (times !! j) as [tj|] eqn:Htj; last first.
  { apply lookup_ge_None in Htj. apply lookup_lt_Some in Hj.
    rewrite generate_all_length in Hj. lia. }
  rewrite (generate_all_lookup _ _ _ _ Hti) in Hi.
  rewrite (generate_all_lookup _ _ _ _ Htj) in Hj.
  rewrite <-Hj in Hi. injection Hi as Hi.
  apply identifier_counter_inj in Hi. lia.
Qed.

Lemma position_generate_all times g :
  PositionIdGenerator.generate_all times g = generate_all times g.
Proof.
  revert g. induction times as [|t times IH]; intros g; simpl; [done|].
  by rewrite IH.
Qed.

(** C6. Each [generate], of the order and of the position identifier
    generator, increments the counter and returns
    prefix-datetime-trader_tag-strategy_tag-counter; with the test clock at
    2020-03-14 09:26:53 and the tags 000 and EMA-001 three calls of
    [OrderIdGenerator.generate] give the identifiers ending in 1, 2 and 3;
    the identifiers of a run of calls, whatever the clock reads at each, are
    pairwise distinct, the i-th carrying the i-th counter value after the
    start; [reset] sets the counter to zero. *)
Theorem generate_increments_formats_distinct :
  (∀ g now,
     OrderIdGenerator.generate now g =
       (prefix g +:+ "-" +:+ _get_datetime_tag now +:+ "-"
          +:+ id_tag_trader g +:+ "-" +:+ id_tag_strategy g +:+ "-"
          +:+ pretty (counter g + 1)%nat,
        with_counter (counter g + 1) g)
     ∧ PositionIdGenerator.generate now g = OrderIdGenerator.generate now g)
  ∧ (∀ g1 g2 g3 x1 x2 x3,
       OrderIdGenerator.generate test_clock_time
         (OrderIdGenerator.new "000" "EMA-001") = (x1, g1) →
       OrderIdGenerator.generate test_clock_time g1 = (x2, g2) →
       OrderIdGenerator.generate test_clock_time g2 = (x3, g3) →
       [x1; x2; x3]
       = ["O-20200314-092653-000-EMA-001-1"; "O-20200314-092653-000-EMA-001-2";
          "O-20200314-092653-000-EMA-001-3"])
  ∧ (∀ times g,
       NoDup (OrderIdGenerator.generate_all times g).1
       ∧ (∀ i now, times !! i = Some now →
            (OrderIdGenerator.generate_all times g).1 !! i
            = Some (prefix g +:+ "-" +:+ _get_datetime_tag now +:+ "-"
                      +:+ id_tag_trader g +:+ "-" +:+ id_tag_strategy g
                      +:+ "-" +:+ pretty (counter g + S i)%nat))
       ∧ counter (OrderIdGenerator.generate_all times g).2
         = (counter g + length times)%nat
       ∧ PositionIdGenerator.generate_all times g
         = OrderIdGenerator.generate_all times g)
  ∧ (∀ g, counter (reset g) = 0%nat
          ∧ prefix (reset g) = prefix g
          ∧ id_tag_trader (reset g) = id_tag_trader g
          ∧ id_tag_strategy (reset g) = id_tag_strategy g).
Proof.
  split_and!.
  - done.
  - intros g1 g2 g3 x1 x2 x3 [= <- <-] [= <- <-] [= <- <-].
    by vm_compute.
  - intros times g. rewrite position_generate_all.
    change (OrderIdGenerator.generate_all times g) with (generate_all times g).
    split_and!.
    + apply generate_all_NoDup.
    + intros i now Hi. by rewrite (generate_all_lookup _ _ _ _ Hi).
    + apply generate_all_counter.
    + done.
  - done.
Qed.

End IdentifierGeneratorFacts.

(** ** The engine *)

Section EngineFacts.
Context {I : Type} `{Indicator I}.

Local Abbreviation Method := (M (TradeStrategy I)).

(** *** Calls that come back, and exceptions that are dropped *)

Lemma guarded_eq (hook : Method unit) (self : TradeStrategy I) :
  guarded hook self
  = match hook self with
    | Ok _ s => Ok tt s
    | Raise e s => Ok tt (logged (LogException e) s)
    | Crash s => Crash s
    end.
Proof.
  unfold guarded, try_except. by destruct (hook self) as [[] s|e s|s].
Qed.

Lemma guarded_returns (hook : Method unit) (self : TradeStrategy I) :
  comes_back hook → ∃ self', guarded hook self = Ok tt self'.
Proof.
  intros Hback. rewrite guarded_eq. specialize (Hback self).
  destruct (hook self) as [[] s'|e s'|s']; eauto. by destruct (Hback s').
Qed.

Lemma guarded_ok (hook : Method unit) (self s' : TradeStrategy I) :
  hook self = Ok tt s' → guarded hook self = Ok tt s'.
Proof. intros Hhook. by rewrite guarded_eq, Hhook. Qed.

Lemma guarded_raise (hook : Method unit) (self s' : TradeStrategy I) e :
  hook self = Raise e s' →
  guarded hook self = Ok tt (logged (LogException e) s').
Proof. intros Hhook. by rewrite guarded_eq, Hhook. Qed.

Lemma unraisable_ok {A} (zero : A) (body : Method A)
    (self self' : TradeStrategy I) a :
  body self = Ok a self' → unraisable zero body self = Ok a self'.
Proof. intros Hbody. unfold unraisable. by rewrite Hbody. Qed.

Lemma unraisable_raise {A} (zero : A) (body : Method A)
    (self self' : TradeStrategy I) e :
  body self = Raise e self' →
  unraisable zero body self = Ok zero (dropped e self').
Proof. intros Hbody. unfold unraisable. by rewrite Hbody. Qed.

Lemma unraisable_crash {A} (zero : A) (body : Method A)
    (self self' : TradeStrategy I) :
  body self = Crash self' → unraisable zero body self = Crash self'.
Proof. intros Hbody. unfold unraisable. by rewrite Hbody. Qed.

Lemma unraisable_guarded (hook : Method unit) (self : TradeStrategy I) :
  unraisable tt (guarded hook) self = guarded hook self.
Proof.
  unfold unraisable. rewrite guarded_eq.
  by destruct (hook self) as [[] ?|? ?|?].
Qed.


Lemma feed_length (bar : Bar.t) (us : list (IndicatorUpdater.t I)) h :
  length (feed bar us h) = length h.
Proof.
  revert h. induction us as [|u us IH]; intros h; simpl; [done|].
  unfold feed in *. simpl. by rewrite IH, length_alter.
Qed.

Lemma for_each_update_bar (bar : Bar.t) (us : list (IndicatorUpdater.t I))
    (self : TradeStrategy I) :
  Forall (λ u, IndicatorUpdater.indicator u < length (heap self))%nat us →
  for_each us (update_bar bar) self
  = Ok tt (set_heap (feed bar us (heap self)) self).
Proof.
  revert self. induction us as [|u us IH]; intros self Hus.
  - simpl. run. by destruct self.
  - apply Forall_cons in Hus as [Hu Hus].
    apply lookup_lt_is_Some in Hu as [i Hi].
    simpl. unfold update_bar, deref, store. run. rewrite Hi. run.
    rewrite IH; simpl.
    + by rewrite (alter_insert_lookup _ _ _ _ Hi).
    + by rewrite length_insert.
Qed.

(** *** Views kept by computations *)

Section keeps.
Context {V : Type} (view : TradeStrategy I → V).

Lemma keeps_ret {A} (a : A) : keeps view (mret a).
Proof. by intros self. Qed.

Lemma keeps_raise {A} (e : Exn) : keeps view (raise e : Method A).
Proof. by intros self. Qed.

Lemma keeps_gets {A} (f : TradeStrategy I → A) : keeps view (gets f).
Proof. by intros self. Qed.

Lemma keeps_modify (f : TradeStrategy I → TradeStrategy I) :
  (∀ self, view (f self) = view self) → keeps view (modify f).
Proof. intros Hf self. apply Hf. Qed.

Lemma keeps_crash {A} : keeps view (crash : Method A).
Proof. by intros self. Qed.

Lemma keeps_bind {A B} (m : Method A) (f : A → Method B) :
  keeps view m → (∀ a, keeps view (f a)) → keeps view (m ≫= f).
Proof.
  intros Hm Hf self. unfold mbind, M_bind. specialize (Hm self).
  destruct (m self) as [a s'|e s'|s']; simpl in *; [|done..].
  by rewrite Hf.
Qed.

Lemma keeps_when (c : bool) (m : Method unit) :
  keeps view m → keeps view (when c m).
Proof. destruct c; [done|]. intros _. apply keeps_ret. Qed.

Lemma keeps_for_each {A} (l : list A) (body : A → Method unit) :
  (∀ x, keeps view (body x)) → keeps view (for_each l body).
Proof.
  intros Hbody. induction l as [|x l IH]; simpl; [apply keeps_ret|].
  apply keeps_bind; auto.
Qed.

Lemma keeps_try_except {A} (body : Method A) (handler : Exn → Method A) :
  keeps view body → (∀ e, keeps view (handler e)) →
  keeps view (try_except body handler).
Proof.
  intros Hb Hh self. unfold try_except. specialize (Hb self).
  destruct (body self) as [a s'|e s'|s']; simpl in *; [done| |done].
  by rewrite Hh.
Qed.

(** Views that do not read the trace are kept by the logger and by the
    commands sent to the execution client. *)
Hypothesis view_trace : ∀ v self, view (set_trace v self) = view self.

Lemma keeps_emit (e : Effect) : keeps view (emit e).
Proof. apply keeps_modify. intros. apply view_trace. Qed.

Lemma keeps_guarded (hook : Method unit) :
  keeps view hook → keeps view (guarded hook).
Proof.
  intros. apply keeps_try_except; [done|]. intros. apply keeps_emit.
Qed.

Lemma keeps_unraisable {A} (zero : A) (body : Method A) :
  keeps view body → keeps view (unraisable zero body).
Proof.
  intros Hb self. unfold unraisable. specialize (Hb self).
  destruct (body self) as [a s'|e s'|s']; simpl in *; [done| |done].
  by rewrite view_trace.
Qed.

Lemma keeps_execute_command (c : Command) : keeps view (execute_command c).
Proof.
  unfold execute_command, exec_client, get_self.
  apply keeps_bind; [|intros; apply keeps_emit].
  apply keeps_bind; [apply keeps_gets|].
  intros self. destruct (_exec_client self); [apply keeps_ret|apply keeps_crash].
Qed.

End keeps.

(** *** The bar cache *)

Lemma handle_bar_split `{UserHooks I} bar_type bar (self : TradeStrategy I) :
  0 ≤ bar_capacity self →
  handle_bar bar_type bar self
  = unraisable tt (feed_and_hook bar_type bar)
      (set_bars (Dict.set bar_type (deque_with_bar bar_type bar self)
                   (_bars self)) self).
Proof.
  intros Hcap. unfold handle_bar, unraisable, feed_and_hook, deque_with_bar.
  run.
  destruct (Dict.mem bar_type (_bars self)) eqn:Hmem; simpl.
  - apply dict_mem_true in Hmem as [d Hd]. by rewrite Hd.
  - rewrite (proj2 (Z.ltb_ge _ _)) by done. simpl.
    rewrite dict_get_set_eq. simpl.
    apply dict_mem_false in Hmem. by rewrite Hmem, dict_set_set.
Qed.

(** [handle_bar] up to the call of the hook. *)
Lemma handle_bar_fed `{UserHooks I} bar_type bar (self : TradeStrategy I) :
  0 ≤ bar_capacity self →
  (Dict.mem bar_type (_indicators self) = true →
     ∃ us, Dict.get bar_type (_indicator_updaters self) = Some us
           ∧ Forall (λ u, IndicatorUpdater.indicator u < length (heap self))%nat
               us) →
  handle_bar bar_type bar self
  = let fed :=
      set_heap
        (if Dict.mem bar_type (_indicators self)
         then feed bar
                (default [] (Dict.get bar_type (_indicator_updaters self)))
                (heap self)
         else heap self)
        (set_bars (Dict.set bar_type (deque_with_bar bar_type bar self)
                     (_bars self)) self) in
    if is_running self then guarded (on_bar bar_type bar) fed else Ok tt fed.
Proof.
  intros Hcap Hreg. cbv zeta. rewrite handle_bar_split by done.
  set (base := set_bars _ self).
  match goal with |- _ = if _ then _ ?s else _ => set (fed := s) end.
  assert (feed_and_hook bar_type bar base
          = if is_running self then guarded (on_bar bar_type bar) fed
            else Ok tt fed) as Hbody.
  { unfold feed_and_hook. run.
    destruct (Dict.mem bar_type (_indicators self)) eqn:Hind; simpl.
    - destruct Hreg as (us & Hget & Hus); [done|].
      unfold fed. rewrite Hget. simpl.
      rewrite (for_each_update_bar bar us base Hus). simpl.
      by destruct (is_running self).
    - assert (fed = base) as Hfed by (unfold fed, base; state_eq).
      rewrite Hfed. by destruct (is_running self). }
  unfold unraisable. rewrite Hbody.
  destruct (is_running self); [|done]. apply unraisable_guarded.
Qed.

(** C8. [handle_tick] caches the tick and [handle_bar] prepends the bar and
    feeds every updater bound to the bar type, whether the strategy runs or
    not. When the strategy is not running the result is the state so
    updated, whatever the hooks are: they are not called. When it is
    running the hook ([on_tick], [on_bar]) is called on the state so
    updated: what it returns is the result, and what it raises is logged
    from the state in which it raised. The capacity is not negative, as the
    constructor ensures, and the updaters of the bar type hold indicators
    of the heap. *)
Theorem handlers_update_then_call_hooks (hooks : UserHooks I)
    (tick : Tick.t) (bar_type : BarType.t) (bar : Bar.t)
    (self : TradeStrategy I) :
  0 ≤ bar_capacity self →
  (Dict.mem bar_type (_indicators self) = true →
     ∃ us, Dict.get bar_type (_indicator_updaters self) = Some us
           ∧ Forall (λ u, IndicatorUpdater.indicator u < length (heap self))%nat
               us) →
  let cached :=
    set_ticks (Dict.set (Tick.symbol tick) tick (_ticks self)) self in
  let fed :=
    set_heap
      (if Dict.mem bar_type (_indicators self)
       then feed bar (default [] (Dict.get bar_type (_indicator_updaters self)))
              (heap self)
       else heap self)
      (set_bars (Dict.set bar_type (deque_with_bar bar_type bar self)
                   (_bars self)) self) in
  last_tick (Tick.symbol tick) cached = Ok tick cached
  ∧ bars bar_type fed
    = Ok (take (Deque.maxlen (deque_with_bar bar_type bar self))
            (bar :: default [] (Deque.to_list
                                  <$> Dict.get bar_type (_bars self)))) fed
  ∧ (is_running self = false →
     handle_tick tick self = Ok tt cached
     ∧ handle_bar bar_type bar self = Ok tt fed)
  ∧ (is_running self = true →
     (∀ s', on_tick tick cached = Ok tt s' → handle_tick tick self = Ok tt s')
     ∧ (∀ e s', on_tick tick cached = Raise e s' →
          handle_tick tick self = Ok tt (logged (LogException e) s'))
     ∧ (∀ s', on_bar bar_type bar fed = Ok tt s' →
          handle_bar bar_type bar self = Ok tt s')
     ∧ (∀ e s', on_bar bar_type bar fed = Raise e s' →
          handle_bar bar_type bar self = Ok tt (logged (LogException e) s'))).
Proof.
  intros Hcap Hreg cached fed.
  assert (handle_tick tick self
          = if is_running self then guarded (on_tick tick) cached
            else Ok tt cached) as Htick.
  { unfold handle_tick. run. by destruct (is_running self). }
  pose proof (handle_bar_fed bar_type bar self Hcap Hreg) as Hbar.
  cbv zeta in Hbar. fold fed in Hbar.
  split_and!.
  - unfold last_tick, Precondition_is_in. run.
    by rewrite dict_mem_set_eq, dict_get_set_eq.
  - unfold bars, Precondition_is_in. run.
    rewrite dict_mem_set_eq, dict_get_set_eq. simpl.
    unfold deque_with_bar, Deque.to_list.
    by destruct (Dict.get bar_type (_bars self)).
  - intros Hrun. by rewrite Htick, Hbar, Hrun.
  - intros Hrun. rewrite Htick, Hbar, Hrun. split_and!.
    + intros s'. apply guarded_ok.
    + intros e s'. apply guarded_raise.
    + intros s'. apply guarded_ok.
    + intros e s'. apply guarded_raise.
Qed.

Lemma keeps_update_bar {V} (view : TradeStrategy I → V) bar u :
  (∀ v self, view (set_heap v self) = view self) →
  keeps view (update_bar bar u).
Proof.
  intros Hview. unfold update_bar, deref, store, get_self.
  apply keeps_bind.
  - apply keeps_bind; [apply keeps_gets|]. intros self.
    destruct (heap self !! _); [apply keeps_ret|apply keeps_raise].
  - intros i. apply keeps_modify. intros. apply Hview.
Qed.

Lemma keeps_feed_and_hook `{UserHooks I} {V} (view : TradeStrategy I → V)
    bar_type bar :
  (∀ v self, view (set_heap v self) = view self) →
  (∀ v self, view (set_trace v self) = view self) →
  keeps view (on_bar bar_type bar) →
  keeps view (feed_and_hook bar_type bar).
Proof.
  intros Hheap Htrace Hhook. unfold feed_and_hook, get_self.
  apply keeps_bind; [apply keeps_gets|]. intros self.
  apply keeps_bind.
  - apply keeps_when. destruct (Dict.get _ _); [|apply keeps_raise].
    apply keeps_for_each. intros u. by apply keeps_update_bar.
  - intros _. apply keeps_bind; [apply keeps_gets|]. intros self'.
    apply keeps_when. by apply keeps_guarded.
Qed.

Lemma take_app_take {A} (l1 l2 : list A) : ∀ n m, (n ≤ m)%nat →
  take n (l1 ++ take m l2) = take n (l1 ++ l2).
Proof.
  induction l1 as [|x l1 IH]; intros n m Hnm; simpl.
  - rewrite take_take. f_equal. lia.
  - destruct n as [|n]; simpl; [done|]. f_equal. apply IH. lia.
Qed.

Section bar_cache.
Context (hooks : UserHooks I).
Hypothesis hook_keeps_bars : ∀ bar_type bar, keeps _bars (on_bar bar_type bar).
Hypothesis hook_keeps_capacity :
  ∀ bar_type bar, keeps bar_capacity (on_bar bar_type bar).

Lemma handle_bar_bars bar_type bar (self : TradeStrategy I) :
  0 ≤ bar_capacity self →
  _bars (state_of (handle_bar bar_type bar self))
  = Dict.set bar_type (deque_with_bar bar_type bar self) (_bars self).
Proof.
  intros Hcap. rewrite handle_bar_split by done.
  by rewrite (keeps_unraisable _bars (λ _ _, eq_refl) _ _
                (keeps_feed_and_hook _bars _ _ (λ _ _, eq_refl)
                   (λ _ _, eq_refl) (hook_keeps_bars _ _))).
Qed.

Lemma handle_bar_capacity bar_type bar (self : TradeStrategy I) :
  0 ≤ bar_capacity self →
  bar_capacity (state_of (handle_bar bar_type bar self)) = bar_capacity self.
Proof.
  intros Hcap. rewrite handle_bar_split by done.
  by rewrite (keeps_unraisable bar_capacity (λ _ _, eq_refl) _ _
                (keeps_feed_and_hook bar_capacity _ _ (λ _ _, eq_refl)
                   (λ _ _, eq_refl) (hook_keeps_capacity _ _))).
Qed.

Lemma handle_bar_cache_ok bar_type bar (self : TradeStrategy I) :
  bar_cache_ok self → bar_cache_ok (state_of (handle_bar bar_type bar self)).
Proof.
  intros [Hcap Hok]. split; [by rewrite handle_bar_capacity|]. intros bt d.
  rewrite handle_bar_bars, handle_bar_capacity, dict_get_set by done.
  case_decide as Hbt; [|by apply Hok]. subst bt. intros [= <-].
  unfold deque_with_bar, Deque.to_list. simpl.
  destruct (Dict.get bar_type (_bars self)) as [d0|] eqn:Hd0; simpl.
  - destruct (Hok _ _ Hd0) as [-> _]. split; [done|]. rewrite length_take. lia.
  - split; [done|]. rewrite length_take. lia.
Qed.

Lemma deliver_capacity calls (self : TradeStrategy I) :
  0 ≤ bar_capacity self →
  bar_capacity (deliver calls self) = bar_capacity self.
Proof.
  revert self. induction calls as [|[bt b] calls IH]; intros self ?; [done|].
  simpl. rewrite IH; by rewrite handle_bar_capacity.
Qed.

Lemma deliver_cache_ok calls (self : TradeStrategy I) :
  bar_cache_ok self → bar_cache_ok (deliver calls self).
Proof.
  revert self. induction calls as [|[bt b] calls IH]; intros self ?; [done|].
  simpl. by apply IH, handle_bar_cache_ok.
Qed.

(** The deque of a bar type after the deliveries: the delivered bars of
    that type, newest first, before the bars held at the start, cut at the
    capacity. *)
Lemma deliver_bars calls : ∀ (self : TradeStrategy I) bar_type,
  bar_cache_ok self →
  Dict.get bar_type (_bars (deliver calls self))
  = if decide (bars_of bar_type calls = []
               ∧ Dict.get bar_type (_bars self) = None)
    then None
    else Some
      {| Deque.maxlen := Z.to_nat (bar_capacity self);
         Deque.elements :=
           take (Z.to_nat (bar_capacity self))
             (reverse (bars_of bar_type calls)
                ++ default [] (Deque.to_list
                                 <$> Dict.get bar_type (_bars self))) |}.
Proof.
  induction calls as [|[bt b] calls IH]; intros self bar_type Hok.
  - simpl. destruct (Dict.get bar_type (_bars self)) as [d|] eqn:Hd.
    + rewrite decide_False by (intros [_ ?]; done). simpl.
      destruct (proj2 Hok _ _ Hd) as [Hmax Hlen]. destruct d as [m l].
      unfold Deque.to_list in *. simpl in *. subst m.
      by rewrite take_ge by done.
    + by rewrite decide_True.
  - simpl. rewrite IH by by apply handle_bar_cache_ok.
    rewrite handle_bar_bars, handle_bar_capacity, dict_get_set
      by apply Hok.
    destruct (decide (bt = bar_type)) as [->|Hne].
    + rewrite (decide_True (P := bar_type = bar_type)) by done.
      rewrite !decide_False by (intros [? ?]; done). do 2 f_equal.
      unfold deque_with_bar, Deque.to_list. simpl.
      rewrite reverse_cons, <-!app_assoc. simpl.
      destruct (Dict.get bar_type (_bars self)) as [d0|] eqn:Hd0; simpl.
      * destruct (proj2 Hok _ _ Hd0) as [-> _]. by apply take_app_take.
      * by apply take_app_take.
    + rewrite (decide_False (P := bar_type = bt)) by done.
      done.
Qed.

(** C5. Whatever bars are delivered, and for every bar type, the cache
    holds at most [bar_capacity] bars, the newest first: the deque of a bar
    type is the bars delivered for it, newest first, followed by those it
    held before, cut at the capacity; with capacity 3 and an empty cache,
    after b1, b2, b3, b4 [bars] returns b4, b3, b2 and [last_bar] returns
    b4. The [on_bar] hook is assumed to leave the cache and the capacity
    alone. *)
Theorem bar_cache_bounded_newest_first
    (calls : list (BarType.t * Bar.t)) (self : TradeStrategy I)
    (bar_type : BarType.t) (b1 b2 b3 b4 : Bar.t) :
  bar_cache_ok self →
  let self' := deliver calls self in
  let expected :=
    take (Z.to_nat (bar_capacity self))
      (reverse (bars_of bar_type calls)
         ++ default [] (Deque.to_list <$> Dict.get bar_type (_bars self))) in
  bar_cache_ok self'
  ∧ (∀ d, Dict.get bar_type (_bars self') = Some d →
       Deque.to_list d = expected
       ∧ (length (Deque.to_list d) ≤ Z.to_nat (bar_capacity self))%nat)
  ∧ (bars_of bar_type calls ≠ [] →
       bars bar_type self' = Ok expected self'
       ∧ (0 < bar_capacity self →
          last_bar bar_type self'
          = from_option (λ b, Ok b self')
              (Raise (IndexError "deque index out of range") self')
              (last (bars_of bar_type calls))))
  ∧ (bar_capacity self = 3 → _bars self = Dict.empty →
     calls = [(bar_type, b1); (bar_type, b2); (bar_type, b3); (bar_type, b4)] →
     bars bar_type self' = Ok [b4; b3; b2] self'
     ∧ last_bar bar_type self' = Ok b4 self').
Proof.
  intros Hok self' expected.
  pose proof (deliver_bars calls self bar_type Hok) as Hget.
  fold self' in Hget. fold expected in Hget.
  assert (bars_of bar_type calls ≠ [] →
          Dict.get bar_type (_bars self')
          = Some {| Deque.maxlen := Z.to_nat (bar_capacity self);
                    Deque.elements := expected |}) as Hsome.
  { intros Hne. rewrite Hget. by rewrite decide_False by (intros [? ?]; done). }
  assert (bars_of bar_type calls ≠ [] →
          bars bar_type self' = Ok expected self') as Hbars.
  { intros Hne. unfold bars, Precondition_is_in. run.
    assert (Dict.mem bar_type (_bars self') = true) as ->.
    { apply dict_mem_true. rewrite Hsome by done. by eexists. }
    simpl. by rewrite Hsome. }
  assert (bars_of bar_type calls ≠ [] → 0 < bar_capacity self →
          last_bar bar_type self'
          = from_option (λ b, Ok b self')
              (Raise (IndexError "deque index out of range") self')
              (last (bars_of bar_type calls))) as Hlast.
  { intros Hne Hcap. unfold last_bar, Precondition_is_in. run.
    assert (Dict.mem bar_type (_bars self') = true) as ->.
    { apply dict_mem_true. rewrite Hsome by done. by eexists. }
    simpl. rewrite Hsome by done. simpl. unfold Deque.to_list. simpl.
    unfold expected.
    destruct (Z.to_nat (bar_capacity self)) as [|n] eqn:Hn; [lia|].
    destruct (bars_of bar_type calls) as [|b0 bs _] using rev_ind; [done|].
    rewrite reverse_app, last_snoc. simpl. done. }
  split_and!.
  - by apply deliver_cache_ok.
  - intros d Hd. rewrite Hget in Hd. case_decide; [done|].
    injection Hd as <-. unfold Deque.to_list. simpl. split; [done|].
    unfold expected. rewrite length_take. lia.
  - intros Hne. split; [by apply Hbars|]. by apply Hlast.
  - intros Hcap Hempty ->.
    assert (bars_of bar_type
              [(bar_type, b1); (bar_type, b2); (bar_type, b3); (bar_type, b4)]
            = [b1; b2; b3; b4]) as Hof.
    { unfold bars_of. simpl. by rewrite !decide_True by done. }
    split.
    + rewrite Hbars by by rewrite Hof. unfold expected.
      rewrite Hof, Hcap, Hempty. done.
    + rewrite Hlast; [by rewrite Hof| by rewrite Hof | lia].
Qed.

End bar_cache.

(** *** Indicators *)

Lemma all_initialized_ok (l : list IndicatorRef) (self : TradeStrategy I) :
  Forall (λ r, r < length (heap self))%nat l →
  all_initialized l self
  = Ok (forallb (λ r, from_option initialized true (heap self !! r)) l) self.
Proof.
  induction l as [|r l IH]; intros Hl; simpl; [done|].
  apply Forall_cons in Hl as [Hr Hl].
  apply lookup_lt_is_Some in Hr as [i Hi].
  unfold deref. run. rewrite Hi. simpl.
  destruct (initialized i); simpl; [by apply IH|done].
Qed.

Lemma all_lists_initialized_ok (ls : list (list IndicatorRef))
    (self : TradeStrategy I) :
  Forall (Forall (λ r, r < length (heap self))%nat) ls →
  all_lists_initialized ls self
  = Ok (forallb (forallb (λ r, from_option initialized true (heap self !! r)))
          ls) self.
Proof.
  induction ls as [|l ls IH]; intros Hls; simpl; [done|].
  apply Forall_cons in Hls as [Hl Hls].
  run. rewrite all_initialized_ok by done.
  destruct (forallb _ l); simpl; [by apply IH|done].
Qed.

(** C10. [indicators_initialized_all] returns true exactly when every
    indicator registered for any bar type reports initialized; it returns
    true when none is registered, as on a strategy just constructed. For a
    bar type without indicators the precondition of
    [indicators_initialized] fails, but the caller does not see it: the
    [ValueError] is dropped at the boundary of the method, which returns
    false, while [indicators], whose result is an object, raises it. *)
Theorem indicators_initialized_all_iff (self : TradeStrategy I)
    (bar_type : BarType.t) :
  heap_ok self →
  (∃ b, indicators_initialized_all self = Ok b self
        ∧ (b = true ↔
           ∀ bt l r i, (bt, l) ∈ Dict.items (_indicators self) → r ∈ l →
             heap self !! r = Some i → initialized i = true))
  ∧ (_indicators self = Dict.empty →
     indicators_initialized_all self = Ok true self)
  ∧ (∀ class_name tag f1 f2 f3 capacity clock guid,
       indicators_initialized_all
         (initial (I := I) class_name tag f1 f2 f3 capacity clock guid)
       = Ok true (initial class_name tag f1 f2 f3 capacity clock guid))
  ∧ (Dict.mem bar_type (_indicators self) = false →
     indicators_initialized bar_type self
     = Ok false (dropped (ValueError "bar_type") self)
     ∧ indicators bar_type self = Raise (ValueError "bar_type") self).
Proof.
  intros Hok. split_and!.
  - eexists. split.
    + unfold indicators_initialized_all. apply unraisable_ok. run.
      by apply all_lists_initialized_ok.
    + rewrite forallb_forall. unfold Dict.values, Dict.items. split.
      * intros Hall bt l r i Hin Hr Hi.
        assert (l ∈ (_indicators self).*2) as Hl.
        { apply list_elem_of_fmap. by exists (bt, l). }
        apply list_elem_of_In in Hl. specialize (Hall l Hl).
        rewrite forallb_forall in Hall.
        apply list_elem_of_In in Hr. specialize (Hall r Hr).
        by rewrite Hi in Hall.
      * intros Hall l Hl. apply list_elem_of_In in Hl.
        apply list_elem_of_fmap in Hl as [[bt l'] [-> Hin]]. simpl in *.
        apply forallb_forall. intros r Hr. apply list_elem_of_In in Hr.
        destruct (heap self !! r) as [i|] eqn:Hi; simpl; [|done]. eauto.
  - intros Hempty. unfold indicators_initialized_all. apply unraisable_ok.
    run. by rewrite Hempty.
  - done.
  - intros Hmem. split.
    + unfold indicators_initialized. apply unraisable_raise.
      unfold Precondition_is_in. run. by rewrite Hmem.
    + unfold indicators, Precondition_is_in. run. by rewrite Hmem.
Qed.

(** *** Reset *)

Lemma for_each_reset_indicator (l : list IndicatorRef)
    (self : TradeStrategy I) :
  Forall (λ r, r < length (heap self))%nat l →
  for_each l reset_indicator self
  = Ok tt (set_heap (reset_all l (heap self)) self).
Proof.
  revert self. induction l as [|r l IH]; intros self Hl.
  - simpl. run. by destruct self.
  - apply Forall_cons in Hl as [Hr Hl].
    apply lookup_lt_is_Some in Hr as [i Hi].
    simpl. unfold reset_indicator, deref, store. run. rewrite Hi. run.
    rewrite IH; simpl.
    + by rewrite (alter_insert_lookup _ _ _ _ Hi).
    + by rewrite length_insert.
Qed.

Lemma reset_all_length (l : list IndicatorRef) (h : list I) :
  length (reset_all l h) = length h.
Proof.
  revert h. induction l as [|r l IH]; intros h; [done|].
  unfold reset_all in *. simpl. by rewrite IH, length_alter.
Qed.

Lemma reset_all_app (l1 l2 : list IndicatorRef) (h : list I) :
  reset_all (l1 ++ l2) h = reset_all l2 (reset_all l1 h).
Proof. unfold reset_all. by rewrite foldl_app. Qed.

Lemma for_each_reset_lists (ls : list (list IndicatorRef))
    (self : TradeStrategy I) :
  Forall (Forall (λ r, r < length (heap self))%nat) ls →
  for_each ls (λ l, for_each l reset_indicator) self
  = Ok tt (set_heap (reset_all (concat ls) (heap self)) self).
Proof.
  revert self. induction ls as [|l ls IH]; intros self Hls.
  - simpl. run. by destruct self.
  - apply Forall_cons in Hls as [Hl Hls].
    simpl. run. rewrite for_each_reset_indicator by done.
    rewrite IH; simpl.
    + by rewrite reset_all_app.
    + rewrite reset_all_length. done.
Qed.

Lemma reset_all_lookup (l : list IndicatorRef) : ∀ (h : list I) r,
  reset_all l h !! r
  = Nat.iter (length (filter (λ r', r' = r) l)) indicator_reset <$> h !! r.
Proof.
  induction l as [|r0 l IH] using rev_ind; intros h r.
  - simpl. by destruct (h !! r).
  - rewrite reset_all_app.
    change (reset_all [r0] (reset_all l h))
      with (alter indicator_reset r0 (reset_all l h)).
    rewrite list_lookup_alter, IH, filter_app, length_app.
    case_decide; simplify_eq.
    + rewrite filter_cons_True by done. simpl.
      destruct (h !! r); simpl; [|done]. f_equal.
      by rewrite Nat.add_1_r.
    + rewrite filter_cons_False by done. simpl. by rewrite Nat.add_0_r.
Qed.

Lemma keeps_reset_indicator {V} (view : TradeStrategy I → V) r :
  (∀ v self, view (set_heap v self) = view self) →
  keeps view (reset_indicator r).
Proof.
  intros Hview. unfold reset_indicator, deref, store, get_self.
  apply keeps_bind.
  - apply keeps_bind; [apply keeps_gets|]. intros self.
    destruct (heap self !! _); [apply keeps_ret|apply keeps_raise].
  - intros i. apply keeps_modify. intros. apply Hview.
Qed.

(** [reset] up to the call of the hook. *)
Lemma reset_cleared `{UserHooks I} (self : TradeStrategy I) :
  heap_ok self →
  is_running self = false →
  reset self
  = (guarded on_reset ;; log_info [Lit "Reset."])
      (set_heap (reset_all (concat (Dict.values (_indicators self))) (heap self))
         (set_bars Dict.empty
            (set_ticks Dict.empty
               (set_position_id_generator
                  (IdentifierGenerator.reset (position_id_generator self))
                  (set_order_factory (OrderFactory.reset (order_factory self))
                     (logged (LogInfo [Lit "Resetting..."]) self)))))).
Proof.
  intros Hok Hrun. unfold reset, unraisable. run. rewrite Hrun. simpl.
  rewrite for_each_reset_lists by done. simpl. unfold logged.
  rewrite guarded_eq. by destruct (on_reset _) as [[] ?|? ?|?].
Qed.

(** [reset] keeps every view that reads neither the caches, the indicator
    objects, the two generators nor the trace, when [on_reset] keeps it. *)
Lemma keeps_reset `{UserHooks I} {V} (view : TradeStrategy I → V) :
  (∀ v self, view (set_trace v self) = view self) →
  (∀ v self, view (set_heap v self) = view self) →
  (∀ v self, view (set_ticks v self) = view self) →
  (∀ v self, view (set_bars v self) = view self) →
  (∀ v self, view (set_order_factory v self) = view self) →
  (∀ v self, view (set_position_id_generator v self) = view self) →
  keeps view on_reset → keeps view reset.
Proof.
  intros Htrace Hheap Hticks Hbars Hfactory Hgenerator Hhook.
  unfold reset, get_self, log_error, log_info.
  apply keeps_unraisable; [done|].
  apply keeps_bind; [apply keeps_gets|]. intros self.
  destruct (is_running self); [by apply keeps_emit|].
  repeat (apply keeps_bind; [|intros ?]);
    try (by apply keeps_emit); try (by apply keeps_modify);
    try apply keeps_gets.
  - apply keeps_for_each. intros l. apply keeps_for_each. intros r.
    by apply keeps_reset_indicator.
  - by apply keeps_guarded.
Qed.

(** C7. A running strategy refuses [reset]: an error is logged, nothing
    else changes and [on_reset] is not called, whatever it is. Otherwise
    [reset] empties the tick cache and the bar cache, resets every
    registered indicator, the order factory and the position identifier
    generator, and then calls [on_reset] on the state so cleared: when the
    hook returns, [reset] logs its last line from the state the hook left,
    and when it raises, the exception is logged first, from the state in
    which it was raised. *)
Theorem reset_refuses_or_clears (hooks : UserHooks I)
    (self : TradeStrategy I) :
  heap_ok self →
  let refused :=
    set_trace
      (trace self
         ++ [Logged (LogError
               [Lit "Cannot reset (cannot reset a running strategy)."])])
      self in
  let registered := concat (Dict.values (_indicators self)) in
  let cleared :=
    set_heap (reset_all registered (heap self))
      (set_bars Dict.empty
         (set_ticks Dict.empty
            (set_position_id_generator
               (IdentifierGenerator.reset (position_id_generator self))
               (set_order_factory (OrderFactory.reset (order_factory self))
                  (set_trace
                     (trace self ++ [Logged (LogInfo [Lit "Resetting..."])])
                     self))))) in
  (is_running self = true → reset self = Ok tt refused)
  ∧ (is_running self = false →
     (∀ s', on_reset cleared = Ok tt s' →
        reset self = Ok tt (logged (LogInfo [Lit "Reset."]) s'))
     ∧ (∀ e s', on_reset cleared = Raise e s' →
          reset self
          = Ok tt (logged (LogInfo [Lit "Reset."])
                     (logged (LogException e) s'))))
  ∧ _ticks cleared = Dict.empty
  ∧ _bars cleared = Dict.empty
  ∧ (∀ r, r ∈ registered →
       ∃ i k, heap self !! r = Some i
              ∧ heap cleared !! r = Some (Nat.iter (S k) indicator_reset i))
  ∧ (∀ r, r ∉ registered → heap cleared !! r = heap self !! r)
  ∧ IdentifierGenerator.counter (OrderFactory.generator (order_factory cleared))
    = 0%nat
  ∧ IdentifierGenerator.counter (position_id_generator cleared) = 0%nat.
Proof.
  intros Hok refused registered cleared. split_and!; try done.
  - intros Hrun. unfold reset, unraisable. run. by rewrite Hrun.
  - intros Hrun. pose proof (reset_cleared self Hok Hrun) as Hreset.
    change (reset self = (guarded on_reset ;; log_info [Lit "Reset."]) cleared)
      in Hreset.
    rewrite Hreset. unfold mbind, M_bind. split.
    + intros s' Hhook. by rewrite (guarded_ok _ _ _ Hhook).
    + intros e s' Hhook. by rewrite (guarded_raise _ _ _ _ Hhook).
  - intros r Hr. simpl. rewrite reset_all_lookup.
    assert (r < length (heap self))%nat as Hlt.
    { unfold heap_ok in Hok. unfold registered in Hr.
      apply list_elem_of_In, in_concat in Hr as (l & Hl & Hrl).
      apply list_elem_of_In in Hl, Hrl.
      rewrite Forall_forall in Hok. specialize (Hok l Hl).
      rewrite Forall_forall in Hok. by apply Hok. }
    apply lookup_lt_is_Some in Hlt as [i Hi]. rewrite Hi. simpl.
    destruct (length (filter (λ r', r' = r) registered)) as [|k] eqn:Hk.
    + apply length_zero_iff_nil in Hk.
      assert (r ∈ filter (λ r', r' = r) registered) as Hin
        by by apply list_elem_of_filter.
      rewrite Hk in Hin. by apply elem_of_nil in Hin.
    + by exists i, k.
  - intros r Hr. simpl. rewrite reset_all_lookup.
    assert (filter (λ r', r' = r) registered = []) as ->.
    { induction registered as [|r0 l IH]; [done|].
      apply not_elem_of_cons in Hr as [? ?].
      rewrite filter_cons_False by done. by apply IH. }
    simpl. by destruct (heap self !! r).
Qed.

(** C9. [reset] leaves the three order registers, the parent to children
    map and the modify-order buffer as they were, and with them everything
    but the tick cache, the bar cache, the indicator objects, the order
    factory, the position identifier generator and the log; what the
    [on_reset] hook does is the user's, and is assumed to keep as much. *)
Theorem reset_keeps_ledger (hooks : UserHooks I) (self : TradeStrategy I) :
  keeps outside_reset on_reset →
  let self' := state_of (reset self) in
  _entry_orders self' = _entry_orders self
  ∧ _stop_loss_orders self' = _stop_loss_orders self
  ∧ _take_profit_orders self' = _take_profit_orders self
  ∧ _atomic_order_ids self' = _atomic_order_ids self
  ∧ _modify_order_buffer self' = _modify_order_buffer self
  ∧ outside_reset self' = outside_reset self.
Proof.
  intros Hhook self'.
  assert (outside_reset self' = outside_reset self) as Heq
    by by apply (keeps_reset outside_reset).
  split_and!; try done; unfold outside_reset, ledger in Heq; by simplify_eq.
Qed.

End EngineFacts.

(** ** The order ledger *)

Section LedgerFacts.
Context {I : Type} `{Indicator I} `{OrderSideEnum}.

Local Abbreviation Method := (M (TradeStrategy I)).

Lemma _remove_from_registered_orders_eq order_id (self : TradeStrategy I) :
  _remove_from_registered_orders order_id self
  = Ok tt (remove_registered order_id self).
Proof.
  unfold _remove_from_registered_orders, remove_registered. run.
  by repeat (case_match; simpl).
Qed.

Lemma for_each_remove children : ∀ self : TradeStrategy I,
  for_each children _remove_from_registered_orders self
  = Ok tt (foldl (λ s child, remove_registered child s) self children).
Proof.
  induction children as [|c children IH]; intros self; simpl; [done|].
  run. rewrite _remove_from_registered_orders_eq. apply IH.
Qed.

Lemma _remove_atomic_child_orders_eq order_id (self : TradeStrategy I) :
  _remove_atomic_child_orders order_id self
  = Ok tt (remove_children order_id self).
Proof.
  unfold _remove_atomic_child_orders, remove_children. run.
  destruct (Dict.get order_id (_atomic_order_ids self)) as [children|];
    [|done].
  run. rewrite for_each_remove. simpl. f_equal.
  assert (∀ s : TradeStrategy I,
    _atomic_order_ids (foldl (λ s child, remove_registered child s) s children)
    = _atomic_order_ids s) as ->; [|done].
  induction children as [|c children IH]; intros s; simpl; [done|].
  rewrite IH. unfold remove_registered. by repeat case_match.
Qed.

(** Removal only removes. *)
Lemma remove_registered_mem order_id order_id' (self : TradeStrategy I) :
  let self' := remove_registered order_id self in
  (Dict.mem order_id' (_entry_orders self) = false →
   Dict.mem order_id' (_entry_orders self') = false)
  ∧ (Dict.mem order_id' (_stop_loss_orders self) = false →
     Dict.mem order_id' (_stop_loss_orders self') = false)
  ∧ (Dict.mem order_id' (_take_profit_orders self) = false →
     Dict.mem order_id' (_take_profit_orders self') = false).
Proof.
  unfold remove_registered.
  repeat case_match; simpl; split_and!; auto using dict_mem_del_false.
Qed.

Lemma remove_registered_absent order_id order_id' (self : TradeStrategy I) :
  absent order_id' self → absent order_id' (remove_registered order_id self).
Proof.
  intros (?&?&?).
  destruct (remove_registered_mem order_id order_id' self) as (?&?&?).
  split_and!; auto.
Qed.




Lemma absent_registers order_id (self self' : TradeStrategy I) :
  registers self' = registers self → absent order_id self →
  absent order_id self'.
Proof. unfold registers, absent. intros [= -> -> ->]. done. Qed.

Lemma in_at_most_one_registers order_id (self self' : TradeStrategy I) :
  registers self' = registers self → in_at_most_one order_id self →
  in_at_most_one order_id self'.
Proof. unfold registers, in_at_most_one. intros [= -> -> ->]. done. Qed.

(** *** The pieces of [handle_event] *)

Lemma handle_event_rejected `{UserHooks I} order_id (self : TradeStrategy I) :
  handle_event (OrderRejected order_id) self
  = (log_warning [Fmt (ObjEvent (OrderRejected order_id))] ;;
     flatten_on_reject order_id ;;
     modify (remove_children order_id) ;;
     modify (remove_registered order_id) ;;
     call_on_event (OrderRejected order_id)) self.
Proof.
  unfold handle_event, call_on_event, flatten_on_reject. run.
  destruct (_ && _); simpl.
  - destruct (get_position_for_order _ _) as [position s1| |]; simpl;
      [|done..].
    destruct (attribute_of position _ s1) as [entered s2| |]; simpl;
      [|done..].
    destruct entered; simpl.
    + destruct (attribute_of position _ s2) as [pid s3| |]; simpl; [|done..].
      destruct (flatten_position pid s3) as [[] s4| |]; simpl; [|done..].
      by rewrite _remove_atomic_child_orders_eq,
        _remove_from_registered_orders_eq.
    + by rewrite _remove_atomic_child_orders_eq,
        _remove_from_registered_orders_eq.
  - by rewrite _remove_atomic_child_orders_eq,
      _remove_from_registered_orders_eq.
Qed.

Lemma handle_event_cascade `{UserHooks I} event order_id
    (self : TradeStrategy I) :
  event ∈ [OrderCancelled order_id; OrderExpired order_id] →
  handle_event event self
  = call_on_event event
      (remove_registered order_id
         (remove_children order_id
            (set_trace (trace self ++ [Logged (LogInfo [Fmt (ObjEvent event)])])
               self))).
Proof.
  intros Hev. apply elem_of_cons in Hev as [->|Hev];
    [|apply list_elem_of_singleton in Hev as ->];
    unfold handle_event, call_on_event; run;
    by rewrite _remove_atomic_child_orders_eq,
      _remove_from_registered_orders_eq.
Qed.

Lemma handle_event_filled `{UserHooks I} order_id (self : TradeStrategy I) :
  handle_event (OrderFilled order_id) self
  = call_on_event (OrderFilled order_id)
      (remove_registered order_id
         (set_atomic_order_ids (Dict.del order_id (_atomic_order_ids self))
            (set_trace
               (trace self
                  ++ [Logged (LogInfo [Fmt (ObjEvent (OrderFilled order_id))])])
               self))).
Proof.
  unfold handle_event, call_on_event. run.
  destruct (Dict.mem order_id (_atomic_order_ids self)) eqn:Hmem; simpl.
  - by rewrite _remove_from_registered_orders_eq.
  - rewrite _remove_from_registered_orders_eq. simpl.
    apply dict_mem_false in Hmem. rewrite dict_del_absent by done.
    by destruct self.
Qed.

(** *** Views kept by the commands *)

Section keeps_commands.
Context {V : Type} (view : TradeStrategy I → V).
Hypothesis view_trace : ∀ v self, view (set_trace v self) = view self.
Hypothesis view_guid : ∀ v self, view (set_guid_factory v self) = view self.
Hypothesis view_factory :
  ∀ v self, view (set_order_factory v self) = view self.

Lemma keeps_portfolio : keeps view portfolio.
Proof.
  unfold portfolio, get_self. apply keeps_bind; [apply keeps_gets|].
  intros self. destruct (_portfolio self); [apply keeps_ret|apply keeps_crash].
Qed.

Lemma keeps_guid_generate : keeps view guid_generate.
Proof.
  unfold guid_generate, get_self. apply keeps_bind; [apply keeps_gets|].
  intros self. apply keeps_bind; [|intros; apply keeps_ret].
  by apply keeps_modify.
Qed.

Lemma keeps_submit_order order position_id :
  keeps view (submit_order order position_id).
Proof.
  unfold submit_order, get_self, log_error, log_info, time_now.
  apply keeps_bind; [apply keeps_gets|]. intros self.
  destruct (negb _); [by apply keeps_emit|].
  apply keeps_bind; [by apply keeps_emit|]. intros _.
  apply keeps_bind; [apply keeps_guid_generate|]. intros g.
  apply keeps_bind; [apply keeps_gets|]. intros now.
  by apply keeps_execute_command.
Qed.

Lemma keeps_flatten_position position_id :
  keeps view (flatten_position position_id).
Proof.
  unfold flatten_position, get_self, log_error, log_warning, log_info.
  apply keeps_unraisable; [done|].
  apply keeps_bind; [apply keeps_gets|]. intros self.
  destruct (negb _); [by apply keeps_emit|].
  apply keeps_bind.
  { unfold get_position. apply keeps_bind; [apply keeps_portfolio|].
    intros p. destruct (Dict.get _ _); [apply keeps_ret|apply keeps_raise]. }
  intros position. destruct (Position.is_flat position);
    [by apply keeps_emit|].
  apply keeps_bind.
  { unfold get_flatten_side. apply keeps_unraisable; [done|].
    destruct (Position.market_position position);
      first [apply keeps_ret|apply keeps_raise]. }
  intros side. apply keeps_bind.
  { unfold order_factory_market, get_self.
    apply keeps_bind; [apply keeps_gets|]. intros s.
    destruct (OrderFactory.market _ _ _ _ _ _) as [order factory].
    apply keeps_bind; [by apply keeps_modify|]. intros; apply keeps_ret. }
  intros order. apply keeps_bind; [by apply keeps_emit|]. intros _.
  apply keeps_submit_order.
Qed.

Lemma keeps_flatten_on_reject order_id :
  keeps view (flatten_on_reject order_id).
Proof.
  unfold flatten_on_reject, get_self.
  apply keeps_bind; [apply keeps_gets|]. intros self.
  apply keeps_when. apply keeps_bind.
  { unfold get_position_for_order. apply keeps_bind; [apply keeps_portfolio|].
    intros; apply keeps_ret. }
  intros position. apply keeps_bind.
  { unfold attribute_of. destruct position; [apply keeps_ret|apply keeps_crash]. }
  intros entered. apply keeps_when. apply keeps_bind.
  { unfold attribute_of. destruct position; [apply keeps_ret|apply keeps_crash]. }
  intros. apply keeps_flatten_position.
Qed.

Lemma keeps_call_on_event `{UserHooks I} event :
  keeps view (on_event event) → keeps view (call_on_event event).
Proof.
  intros. unfold call_on_event, get_self.
  apply keeps_bind; [apply keeps_gets|]. intros self.
  apply keeps_when. by apply keeps_guarded.
Qed.

End keeps_commands.

Lemma bind_ok {A B} (m : Method A) (f : A → Method B) self b self' :
  (m ≫= f) self = Ok b self' →
  ∃ a s1, m self = Ok a s1 ∧ f a s1 = Ok b self'.
Proof.
  unfold mbind, M_bind. destruct (m self) as [a s1| |]; [|done..]. eauto.
Qed.

Lemma keeps_ok {A V} (view : TradeStrategy I → V) (m : Method A) self a self' :
  keeps view m → m self = Ok a self' → view self' = view self.
Proof. intros Hk Hm. specialize (Hk self). by rewrite Hm in Hk. Qed.

Lemma returns_call_on_event `{UserHooks I} event (self : TradeStrategy I) :
  ∃ self', call_on_event event self = Ok tt self'.
Proof.
  unfold call_on_event. run. destruct (is_running self); simpl; [|eauto].
  apply guarded_returns, on_event_comes_back.
Qed.








(** *** The commands sent *)

Lemma sent_log (self : TradeStrategy I) (c : LogCall) :
  commands_of (trace self ++ [Logged c]) = sent self.
Proof.
  unfold sent, commands_of. rewrite omap_app. simpl. by rewrite app_nil_r.
Qed.

Lemma keeps_sent_call_on_event `{UserHooks I} event :
  keeps sent (on_event event) → keeps sent (call_on_event event).
Proof.
  intros Hhook. unfold call_on_event, get_self.
  apply keeps_bind; [apply keeps_gets|]. intros self.
  apply keeps_when. unfold guarded.
  apply keeps_try_except; [done|]. intros e s.
  unfold log_exception, emit, modify. simpl. apply sent_log.
Qed.

Lemma absent_get order_id (self : TradeStrategy I) :
  absent order_id self ↔
  Dict.get order_id (_entry_orders self) = None
  ∧ Dict.get order_id (_stop_loss_orders self) = None
  ∧ Dict.get order_id (_take_profit_orders self) = None.
Proof. unfold absent. by rewrite !dict_mem_false. Qed.

Lemma submit_atomic_order_eq atomic_order take_profit position_id
    (self : TradeStrategy I) client :
  AtomicOrder.take_profit atomic_order = Some take_profit →
  is_exec_client_registered self = true →
  _exec_client self = Some client →
  submit_atomic_order atomic_order position_id self
  = Ok tt
      (set_trace
         (trace self
            ++ [Logged (LogInfo [Lit "Submitting ";
                                 Fmt (ObjAtomicOrder atomic_order);
                                 Lit " for "; Fmt (ObjId position_id)]);
                Executed (SubmitAtomicOrder (trader_id self) (id self)
                            position_id atomic_order (_guid_factory self)
                            (Clock.time_now (clock self)))])
         (set_guid_factory (S (_guid_factory self))
            (set_atomic_order_ids
               (Dict.set (Order.id (AtomicOrder.entry atomic_order))
                  [Order.id (AtomicOrder.stop_loss atomic_order);
                   Order.id take_profit] (_atomic_order_ids self))
               (set_take_profit_orders
                  (Dict.set (Order.id take_profit) take_profit
                     (_take_profit_orders self))
                  (set_stop_loss_orders
                     (Dict.set (Order.id (AtomicOrder.stop_loss atomic_order))
                        (AtomicOrder.stop_loss atomic_order)
                        (_stop_loss_orders self))
                     (set_entry_orders
                        (Dict.set (Order.id (AtomicOrder.entry atomic_order))
                           (AtomicOrder.entry atomic_order)
                           (_entry_orders self)) self)))))).
Proof.
  intros Htp Hreg Hclient.
  unfold submit_atomic_order, register_entry_order, register_stop_loss_order,
    register_take_profit_order, execute_command, exec_client.
  run. rewrite Hreg, Htp. run. rewrite Hclient. run.
  by rewrite <-app_assoc.
Qed.

(** *** The rejection cascade *)

Lemma remove_registered_entry order_id (self : TradeStrategy I) :
  Dict.mem order_id (_entry_orders self) = true →
  remove_registered order_id self
  = set_entry_orders (Dict.del order_id (_entry_orders self)) self.
Proof. unfold remove_registered. by intros ->. Qed.

Lemma remove_registered_stop_loss order_id (self : TradeStrategy I) :
  Dict.mem order_id (_entry_orders self) = false →
  Dict.mem order_id (_stop_loss_orders self) = true →
  remove_registered order_id self
  = set_stop_loss_orders (Dict.del order_id (_stop_loss_orders self)) self.
Proof. unfold remove_registered. by intros -> ->. Qed.

Lemma remove_registered_take_profit order_id (self : TradeStrategy I) :
  Dict.mem order_id (_entry_orders self) = false →
  Dict.mem order_id (_stop_loss_orders self) = false →
  Dict.mem order_id (_take_profit_orders self) = true →
  remove_registered order_id self
  = set_take_profit_orders (Dict.del order_id (_take_profit_orders self)) self.
Proof. unfold remove_registered. by intros -> -> ->. Qed.

(** The cascade on the registers of one atomic order. *)
Lemma cascade_registers (s : TradeStrategy I) O1 O2 O3 e sl tp E S T :
  _entry_orders s = Dict.set O1 e E →
  _stop_loss_orders s = Dict.set O2 sl S →
  _take_profit_orders s = Dict.set O3 tp T →
  _atomic_order_ids s = [(O1, [O2; O3])] →
  O1 ≠ O2 → O1 ≠ O3 → O2 ≠ O3 →
  Dict.get O1 E = None → Dict.get O2 E = None → Dict.get O3 E = None →
  Dict.get O2 S = None → Dict.get O3 S = None → Dict.get O3 T = None →
  let s' := remove_registered O1 (remove_children O1 s) in
  registers s' = (E, S, T) ∧ _atomic_order_ids s' = Dict.empty
  ∧ trace s' = trace s.
Proof.
  intros HE HS HT HA H12 H13 H23 H1E H2E H3E H2S H3S H3T.
  unfold remove_children. rewrite HA. simpl.
  rewrite !decide_True by done. simpl.
  rewrite (remove_registered_stop_loss O2); rewrite ?HE, ?HS;
    [|by apply dict_mem_set_ne|by apply dict_mem_set_eq].
  rewrite dict_del_set_absent by done.
  rewrite (remove_registered_take_profit O3); simpl; rewrite ?HE, ?HT;
    [|by apply dict_mem_set_ne|by apply dict_mem_false|by apply dict_mem_set_eq].
  rewrite dict_del_set_absent by done.
  rewrite (remove_registered_entry O1); simpl; rewrite ?HE;
    [|by apply dict_mem_set_eq].
  by rewrite dict_del_set_absent by done.
Qed.

Lemma trace_remove_registered order_id (self : TradeStrategy I) :
  trace (remove_registered order_id self) = trace self.
Proof. unfold remove_registered. by repeat case_match. Qed.

Lemma trace_remove_children order_id (self : TradeStrategy I) :
  trace (remove_children order_id self) = trace self.
Proof.
  unfold remove_children.
  destruct (Dict.get order_id (_atomic_order_ids self)) as [children|];
    [|done].
  simpl. revert self.
  induction children as [|c children IH]; intros self; simpl; [done|].
  by rewrite IH, trace_remove_registered.
Qed.

(** The rejection of a registered stop-loss under [flatten_on_sl_reject]:
    the position of the order, when entered and not flat, is closed by a
    market order. *)
Lemma rejected_stop_loss_flattens (hooks : UserHooks I) (order_id : OrderId)
    (self : TradeStrategy I) client p position held :
  Dict.mem order_id (_stop_loss_orders self) = true →
  flatten_on_sl_reject self = true →
  is_exec_client_registered self = true →
  _exec_client self = Some client →
  _portfolio self = Some p →
  Dict.get order_id (Portfolio.position_for_order p) = Some position →
  Position.is_entered position = true →
  Dict.get (Position.id position) (Portfolio.positions p) = Some held →
  Position.is_flat held = false →
  keeps sent (on_event (OrderRejected order_id)) →
  ∃ self',
    handle_event (OrderRejected order_id) self = Ok tt self'
    ∧ sent self'
      = sent self
          ++ [SubmitOrder (trader_id self) (id self) (Position.id position)
                (OrderFactory.market (Clock.time_now (clock self))
                   (Position.symbol held)
                   (closing_side (Position.market_position held))
                   (Position.quantity held) "EXIT" (order_factory self)).1
                (_guid_factory self) (Clock.time_now (clock self))].
Proof.
  intros Hmem Hflag Hreg Hclient Hp Hpos Hent Hheld Hflat Hhook.
  rewrite handle_event_rejected.
  unfold flatten_on_reject, get_position_for_order, flatten_position,
    get_position, portfolio, order_factory_market, submit_order,
    execute_command, exec_client.
  run.
  assert (Position.market_position held ≠ FLAT) as Hmp.
  { unfold Position.is_flat in Hflat. by apply bool_decide_eq_false in Hflat. }
  unfold get_flatten_side.
  repeat (progress (rewrite ?Hmem, ?Hflag, ?Hp, ?Hpos, ?Hent, ?Hreg, ?Hheld,
                      ?Hflat, ?Hclient; simpl)).
  destruct (Position.market_position held); [done| |]; simpl;
    repeat (progress (rewrite ?Hreg, ?Hclient; simpl));
    match goal with |- ∃ self', call_on_event _ ?s = _ ∧ _ =>
      destruct (returns_call_on_event (OrderRejected order_id) s) as [s' Hs'];
      exists s'; split; [exact Hs'|];
      rewrite (keeps_ok sent _ _ _ _
                 (keeps_sent_call_on_event _ Hhook) Hs')
    end;
    unfold sent; rewrite trace_remove_registered, trace_remove_children;
    simpl; unfold commands_of; rewrite !omap_app; simpl;
    by rewrite !app_nil_r.
Qed.

(** C1 (as amended). An atomic order with entry O1, stop-loss O2 and
    take-profit O3, three identifiers not registered before, is submitted
    against a position on a strategy with a registered execution client and
    an empty parent to children map. The rejection of O1 then removes O1, O2
    and O3 from the three registers and leaves the map empty, and it sends
    no flatten order, whatever [flatten_on_sl_reject] and the portfolio say:
    the only command sent is the atomic submission. The flatten is for a
    rejected order of the stop-loss register: the rejection of O2, under
    [flatten_on_sl_reject] and with an entered position that is not flat,
    submits the market order that closes it. The [on_event] hook is assumed
    to leave the ledger alone and to send nothing. *)
Theorem atomic_rejection_cascade (hooks : UserHooks I)
    (atomic_order : AtomicOrder.t) (take_profit : Order.t)
    (position_id : PositionId) (self : TradeStrategy I)
    (client : ExecutionClient.t) :
  let entry := AtomicOrder.entry atomic_order in
  let stop_loss := AtomicOrder.stop_loss atomic_order in
  let rejected := OrderRejected (Order.id entry) in
  AtomicOrder.take_profit atomic_order = Some take_profit →
  is_exec_client_registered self = true →
  _exec_client self = Some client →
  NoDup [Order.id entry; Order.id stop_loss; Order.id take_profit] →
  absent (Order.id entry) self →
  absent (Order.id stop_loss) self →
  absent (Order.id take_profit) self →
  _atomic_order_ids self = Dict.empty →
  keeps ledger (on_event rejected) →
  keeps sent (on_event rejected) →
  ∃ s1 s2,
    submit_atomic_order atomic_order position_id self = Ok tt s1
    ∧ Dict.get (Order.id entry) (_entry_orders s1) = Some entry
    ∧ Dict.get (Order.id stop_loss) (_stop_loss_orders s1) = Some stop_loss
    ∧ Dict.get (Order.id take_profit) (_take_profit_orders s1)
      = Some take_profit
    ∧ _atomic_order_ids s1
      = [(Order.id entry, [Order.id stop_loss; Order.id take_profit])]
    ∧ handle_event rejected s1 = Ok tt s2
    ∧ absent (Order.id entry) s2
    ∧ absent (Order.id stop_loss) s2
    ∧ absent (Order.id take_profit) s2
    ∧ _atomic_order_ids s2 = Dict.empty
    ∧ sent s2
      = sent self
          ++ [SubmitAtomicOrder (trader_id self) (id self) position_id
                atomic_order (_guid_factory self)
                (Clock.time_now (clock self))]
    ∧ (∀ p position held,
         flatten_on_sl_reject self = true →
         _portfolio self = Some p →
         Dict.get (Order.id stop_loss) (Portfolio.position_for_order p)
         = Some position →
         Position.is_entered position = true →
         Dict.get (Position.id position) (Portfolio.positions p) = Some held →
         Position.is_flat held = false →
         keeps sent (on_event (OrderRejected (Order.id stop_loss))) →
         ∃ s2',
           handle_event (OrderRejected (Order.id stop_loss)) s1 = Ok tt s2'
           ∧ sent s2'
             = sent s1
                 ++ [SubmitOrder (trader_id self) (id self)
                       (Position.id position)
                       (OrderFactory.market (Clock.time_now (clock self))
                          (Position.symbol held)
                          (closing_side (Position.market_position held))
                          (Position.quantity held) "EXIT"
                          (order_factory self)).1
                       (S (_guid_factory self))
                       (Clock.time_now (clock self))]).
Proof.
  intros entry stop_loss rejected Htp Hreg Hclient Hnodup
    HO1 HO2 HO3 Hatomic Hledger Hsent.
  apply absent_get in HO1 as (HO1e & HO1s & HO1t).
  apply absent_get in HO2 as (HO2e & HO2s & HO2t).
  apply absent_get in HO3 as (HO3e & HO3s & HO3t).
  apply NoDup_cons in Hnodup as [Hn1 Hnodup].
  apply NoDup_cons in Hnodup as [Hn2 _].
  apply not_elem_of_cons in Hn1 as [Hn12 Hn13].
  apply not_elem_of_cons in Hn13 as [Hn13 _].
  apply not_elem_of_cons in Hn2 as [Hn23 _].
  rewrite (submit_atomic_order_eq _ _ _ _ _ Htp Hreg Hclient).
  fold entry stop_loss. rewrite Hatomic.
  match goal with |- ∃ s1 s2, Ok tt ?s = Ok tt s1 ∧ _ => set (s1 := s) end.
  set (s1' :=
         set_trace
           (trace s1
              ++ [Logged (LogWarning [Fmt (ObjEvent rejected)])]) s1).
  destruct (cascade_registers s1' (Order.id entry) (Order.id stop_loss)
              (Order.id take_profit) entry stop_loss take_profit
              (_entry_orders self) (_stop_loss_orders self)
              (_take_profit_orders self))
    as (Hregs & Hat & Htr); try done.
  set (s3 := remove_registered (Order.id entry)
               (remove_children (Order.id entry) s1')) in *.
  assert (handle_event rejected s1 = call_on_event rejected s3) as Hev.
  { unfold rejected. rewrite handle_event_rejected.
    unfold flatten_on_reject. run.
    assert (Dict.mem (Order.id entry)
              (Dict.set (Order.id stop_loss) stop_loss (_stop_loss_orders self))
            = false) as -> by by apply dict_mem_set_ne.
    done. }
  destruct (returns_call_on_event rejected s3) as [s2 Hs2].
  assert (ledger s2 = ledger s3) as Hl2.
  { eapply (keeps_ok ledger); [|exact Hs2].
    by apply keeps_call_on_event. }
  assert (sent s2 = sent s3) as Hc2.
  { eapply (keeps_ok sent); [|exact Hs2].
    by apply keeps_sent_call_on_event. }
  unfold ledger in Hl2. injection Hl2 as HlE HlS HlT HlA HlM.
  assert (registers s2 = registers self) as Hr2.
  { unfold registers in *. by rewrite HlE, HlS, HlT. }
  assert (∀ order_id,
    Dict.get order_id (_entry_orders self) = None →
    Dict.get order_id (_stop_loss_orders self) = None →
    Dict.get order_id (_take_profit_orders self) = None →
    absent order_id s2) as Habsent.
  { intros order_id ???. eapply absent_registers; [exact Hr2|].
    by apply absent_get. }
  assert (_atomic_order_ids s2 = Dict.empty) as Hat2 by by rewrite HlA.
  exists s1, s2. rewrite Hev.
  split_and!; auto; try (simpl; by rewrite ?dict_get_set_eq).
  - rewrite Hc2. unfold sent. rewrite Htr. simpl.
    unfold commands_of. rewrite !omap_app. simpl. by rewrite app_nil_r.
  - intros p position held Hflag Hp Hpos Hent Hheld Hflat Hhook.
    by apply (rejected_stop_loss_flattens hooks (Order.id stop_loss) s1
                client p position held); simpl;
      rewrite ?dict_mem_set_eq.
Qed.

(** *** The modify-order buffer *)

(** C2. With a registered execution client, [modify_order] builds the
    command and looks at the buffer: over an entry already buffered for the
    order it writes the new command, logs a warning and sends nothing;
    otherwise it inserts the command and sends it. On [OrderModified] or
    [OrderCancelReject] for an order with a buffered command, the command is
    sent again exactly when its price differs from the price of the order
    held by the execution client, and the entry is removed either way; the
    hook is then called as for any event. *)
Theorem modify_order_buffers_and_drains (hooks : UserHooks I)
    (order : Order.t) (new_price : Price) (self : TradeStrategy I)
    (client : ExecutionClient.t) (event : Event) (order_id : OrderId)
    (buffered : ModifyOrder.t) (current : Order.t) :
  is_exec_client_registered self = true →
  _exec_client self = Some client →
  let command :=
    {| ModifyOrder.trader_id := trader_id self;
       ModifyOrder.strategy_id := id self;
       ModifyOrder.order_id := Order.id order;
       ModifyOrder.modified_price := new_price;
       ModifyOrder.command_id := _guid_factory self;
       ModifyOrder.command_timestamp := Clock.time_now (clock self) |} in
  let pending := Dict.mem (Order.id order) (_modify_order_buffer self) in
  let after_modify :=
    set_trace
      (trace self
         ++ (if pending then
               [Logged (LogWarning [Lit "Buffering ModifyOrder command for ";
                                    Fmt (ObjOrder order);
                                    Lit " with new price ";
                                    Fmt (ObjPrice new_price)])]
             else
               [Logged (LogInfo [Lit "Modifying "; Fmt (ObjOrder order);
                                 Lit " with new price ";
                                 Fmt (ObjPrice new_price)]);
                Executed (ModifyOrderCmd command)]))
      (set_modify_order_buffer
         (Dict.set (Order.id order) command (_modify_order_buffer self))
         (set_guid_factory (S (_guid_factory self)) self)) in
  let differs :=
    bool_decide (Some (ModifyOrder.modified_price buffered)
                 ≠ Order.price current) in
  let drained :=
    set_modify_order_buffer (Dict.del order_id (_modify_order_buffer self))
      (set_trace
         (trace self
            ++ [Logged (match event with
                        | OrderModified _ => LogInfo [Fmt (ObjEvent event)]
                        | _ => LogWarning [Fmt (ObjEvent event)]
                        end)]
            ++ (if differs then
                  [Logged (LogInfo
                     [Lit "Modifying ";
                      Fmt (ObjId (ModifyOrder.order_id buffered));
                      Lit " with price ";
                      Fmt (ObjPrice (ModifyOrder.modified_price buffered))]);
                   Executed (ModifyOrderCmd buffered)]
                else []))
         self) in
  modify_order order new_price self = Ok tt after_modify
  ∧ Dict.get (Order.id order) (_modify_order_buffer after_modify)
    = Some command
  ∧ sent after_modify
    = sent self ++ (if pending then [] else [ModifyOrderCmd command])
  ∧ (event ∈ [OrderModified order_id; OrderCancelReject order_id] →
     Dict.get order_id (_modify_order_buffer self) = Some buffered →
     Dict.get order_id (ExecutionClient.orders client) = Some current →
     handle_event event self
     = (if is_running self then guarded (on_event event) drained
        else Ok tt drained)
     ∧ Dict.mem order_id (_modify_order_buffer drained) = false
     ∧ sent drained
       = sent self ++ (if differs then [ModifyOrderCmd buffered] else [])).
Proof.
  intros Hreg Hclient command pending after_modify differs drained.
  split_and!.
  - unfold modify_order, execute_command, exec_client. run.
    rewrite Hreg. simpl. fold pending. fold command.
    unfold after_modify. destruct pending; simpl; [done|].
    rewrite Hclient. simpl. by rewrite <-app_assoc.
  - simpl. by rewrite dict_get_set_eq.
  - unfold sent, after_modify, commands_of. simpl. rewrite omap_app.
    destruct pending; simpl; by rewrite ?app_nil_r.
  - intros Hev Hbuf Hcur.
    assert (Dict.mem order_id (_modify_order_buffer self) = true) as Hmem.
    { apply dict_mem_true. by eexists. }
    split_and!.
    + unfold drained.
      apply elem_of_cons in Hev as [->|Hev];
        [|apply list_elem_of_singleton in Hev as ->];
        unfold handle_event, _process_modify_order_buffer, get_order,
          execute_command, exec_client; run;
        rewrite Hmem; simpl; rewrite Hbuf; simpl; rewrite Hclient; simpl;
        rewrite Hcur; simpl; fold differs;
        (destruct differs; simpl; rewrite ?Hclient; simpl;
         rewrite <-?app_assoc; simpl;
         destruct (is_running self); by destruct self).
    + simpl. apply dict_mem_del_eq.
    + unfold sent, drained, commands_of. simpl. rewrite !omap_app. simpl.
      destruct differs; simpl; by rewrite ?app_nil_r.
Qed.

End LedgerFacts.

(** ** Stopping *)

Section StopFacts.
Context {I : Type} `{Indicator I} `{OrderSideEnum}.

Local Abbreviation Method := (M (TradeStrategy I)).

Lemma for_each_log {A} (l : list A) (f : A → LogCall) (self : TradeStrategy I) :
  for_each l (λ x, emit (Logged (f x))) self
  = Ok tt (set_trace (trace self ++ ((λ x, Logged (f x)) <$> l)) self).
Proof.
  revert self. induction l as [|x l IH]; intros self; simpl.
  - run. rewrite app_nil_r. by destruct self.
  - run. rewrite IH. simpl. by rewrite <-app_assoc.
Qed.

Lemma for_each_log_nested {A B} (l : list (A * list B)) (f : B → LogCall)
    (self : TradeStrategy I) :
  for_each l (λ '(_, children),
    for_each children (λ x, emit (Logged (f x)))) self
  = Ok tt (set_trace
             (trace self ++ ((λ x, Logged (f x)) <$> concat l.*2)) self).
Proof.
  revert self. induction l as [|[a children] l IH]; intros self; simpl.
  - run. rewrite app_nil_r. by destruct self.
  - unfold mbind, M_bind. rewrite for_each_log, IH. simpl.
    by rewrite fmap_app, <-app_assoc.
Qed.

Lemma for_each_log_pair {A B} (l : list (A * B)) (f : A → B → LogCall)
    (self : TradeStrategy I) :
  for_each l (λ '(a, b), emit (Logged (f a b))) self
  = Ok tt (set_trace (trace self ++ ((λ '(a, b), Logged (f a b)) <$> l)) self).
Proof.
  revert self. induction l as [|[a b] l IH]; intros self; simpl.
  - run. rewrite app_nil_r. by destruct self.
  - run. rewrite IH. simpl. by rewrite <-app_assoc.
Qed.

Lemma warn_residuals_eq (self : TradeStrategy I) :
  warn_residuals self
  = Ok tt (set_trace (trace self ++ residual_warnings self) self).
Proof.
  unfold warn_residuals, residual_warnings, log_warning.
  unfold mbind, M_bind, get_self, gets. simpl.
  rewrite (for_each_log _
    (λ order, LogWarning [Lit "Residual entry "; Fmt (ObjOrder order)])).
  simpl.
  rewrite (for_each_log _
    (λ order, LogWarning [Lit "Residual stop-loss "; Fmt (ObjOrder order)])).
  simpl.
  rewrite (for_each_log _
    (λ order, LogWarning [Lit "Residual take-profit "; Fmt (ObjOrder order)])).
  simpl.
  rewrite (for_each_log_nested _
    (λ child, LogWarning [Lit "Residual child order "; Fmt (ObjId child)])).
  simpl.
  rewrite (for_each_log_pair _
    (λ order_id command,
       LogWarning [Lit "Residual buffered "; Fmt (ObjModifyOrder command);
                   Lit " command for "; Fmt (ObjId order_id); Lit "."])).
  simpl. by rewrite <-!app_assoc.
Qed.

Lemma cancel_loop (orders : list (OrderId * Order.t)) :
  ∀ (self : TradeStrategy I) client trader strategy reason,
  _exec_client self = Some client → reason ≠ "" →
  let commands :=
    cancel_commands trader strategy reason (Clock.time_now (clock self))
      (_guid_factory self) orders in
  for_each orders (cancel_one trader strategy (Some reason)) self
  = Ok tt (set_trace (trace self ++ (Executed <$> commands))
             (set_guid_factory (_guid_factory self + length commands) self)).
Proof.
  induction orders as [|[order_id order] orders IH];
    intros self client trader strategy reason Hclient Hreason; simpl.
  - run. rewrite app_nil_r, Nat.add_0_r. by destruct self.
  - set (loop := for_each orders (cancel_one trader strategy (Some reason))).
    unfold cancel_one.
    destruct (Order.is_active order); simpl.
    + unfold ValidString, execute_command, exec_client. run.
      rewrite decide_False by done. simpl. rewrite Hclient. simpl.
      subst loop. erewrite IH by done. simpl. rewrite <-app_assoc. simpl.
      f_equal. state_eq; lia.
    + run. subst loop. by erewrite IH.
Qed.

Lemma flatten_loop (positions : list (PositionId * Position.t)) :
  ∀ (self : TradeStrategy I) client,
  _exec_client self = Some client →
  is_exec_client_registered self = true →
  let result :=
    flatten_effects (trader_id self) (id self) (Clock.time_now (clock self))
      (order_factory self) (_guid_factory self) positions in
  for_each positions flatten_one self
  = Ok tt (set_trace (trace self ++ result.1.1)
             (set_guid_factory result.2
                (set_order_factory result.1.2 self))).
Proof.
  induction positions as [|[position_id position] positions IH];
    intros self client Hclient Hreg; simpl.
  - run. rewrite app_nil_r. by destruct self.
  - set (loop := for_each positions flatten_one).
    unfold flatten_one.
    destruct (Position.is_flat position) eqn:Hflat; simpl.
    + run. subst loop. erewrite IH by done. simpl.
      destruct (flatten_effects _ _ _ _ _ positions) as [[effects f'] g'].
      simpl. by rewrite <-app_assoc.
    + unfold Position.is_flat in Hflat. apply bool_decide_eq_false in Hflat.
      unfold get_flatten_side, order_factory_market, submit_order,
        execute_command, exec_client.
      destruct (Position.market_position position) eqn:Hmp; [done| |];
        run; rewrite Hreg; simpl; rewrite Hclient; simpl;
        subst loop; (erewrite IH by done); simpl;
        destruct (flatten_effects _ _ _ _ _ positions) as [[effects f'] g'];
        simpl; rewrite <-!app_assoc; simpl; done.
Qed.

Lemma flatten_effects_commands trader strategy now positions :
  ∀ factory guid,
  Forall2 (exit_order_for trader strategy now)
    (filter (λ entry, Position.is_flat entry.2 = false) positions)
    (commands_of
       (flatten_effects trader strategy now factory guid positions).1.1).
Proof.
  induction positions as [|[position_id position] positions IH];
    intros factory guid; simpl; [constructor|].
  destruct (Position.is_flat position) eqn:Hflat.
  - rewrite filter_cons_False by (simpl; by rewrite Hflat).
    specialize (IH factory guid).
    destruct (flatten_effects _ _ _ _ _ positions) as [[effects f'] g'].
    done.
  - rewrite filter_cons_True by done.
    specialize (IH (OrderFactory.market now (Position.symbol position)
                      (closing_side (Position.market_position position))
                      (Position.quantity position) "EXIT" factory).2
                  (S guid)).
    unfold OrderFactory.market in *. simpl in *.
    destruct (flatten_effects _ _ _ _ _ positions) as [[effects f'] g'].
    simpl in *. constructor; [|done]. by eexists _, _.
Qed.

Lemma cancel_commands_spec trader strategy reason now orders : ∀ guid,
  Forall2 (cancel_for trader strategy reason now)
    (filter (λ entry, Order.is_active entry.2 = true) orders)
    (cancel_commands trader strategy reason now guid orders).
Proof.
  induction orders as [|[order_id order] orders IH]; intros guid; simpl;
    [constructor|].
  destruct (Order.is_active order) eqn:Hactive.
  - rewrite filter_cons_True by done. constructor; [by eexists|]. apply IH.
  - rewrite filter_cons_False by (simpl; by rewrite Hactive). apply IH.
Qed.

Lemma flatten_all_positions_eq (self : TradeStrategy I) client p :
  is_exec_client_registered self = true →
  _exec_client self = Some client →
  _portfolio self = Some p →
  let result :=
    if decide (Dict.len (Portfolio.positions_active p) = 0%nat) then
      ([Logged (LogWarning
          [Lit "Did not flatten all positions (no active positions to flatten)."])],
       order_factory self, _guid_factory self)
    else
      flatten_effects (trader_id self) (id self) (Clock.time_now (clock self))
        (order_factory self) (_guid_factory self)
        (Dict.items (Portfolio.positions_active p)) in
  flatten_all_positions self
  = Ok tt (set_trace (trace self ++ result.1.1)
             (set_guid_factory result.2
                (set_order_factory result.1.2 self))).
Proof.
  intros Hreg Hclient Hp. unfold flatten_all_positions, portfolio.
  unfold mbind at 1, M_bind at 1, get_self, gets. rewrite Hreg. simpl.
  unfold mbind at 1, M_bind at 1. unfold mbind at 1, M_bind at 1.
  rewrite Hp. simpl. unfold mret, M_ret.
  case_decide.
  - run. by destruct self.
  - by rewrite <-(flatten_loop _ self client).
Qed.

Lemma cancel_all_orders_eq (self : TradeStrategy I) client reason :
  is_exec_client_registered self = true →
  _exec_client self = Some client →
  reason ≠ "" →
  let commands :=
    cancel_commands (trader_id self) (id self) reason
      (Clock.time_now (clock self)) (_guid_factory self)
      (Dict.items (ExecutionClient.strategy_orders client)) in
  cancel_all_orders (Some reason) self
  = Ok tt (set_trace (trace self ++ (Executed <$> commands))
             (set_guid_factory (_guid_factory self + length commands) self)).
Proof.
  intros Hreg Hclient Hreason. unfold cancel_all_orders, exec_client.
  apply unraisable_ok.
  unfold mbind at 1, M_bind at 1, get_self, gets. rewrite Hreg. simpl.
  unfold mbind at 1, M_bind at 1. unfold mbind at 1, M_bind at 1.
  rewrite Hclient. simpl. unfold mret, M_ret.
  by rewrite <-(cancel_loop _ self client).
Qed.

(** [stop] up to the call of the hook, on a strategy registered with an
    execution client. *)
Lemma stop_stopped `{UserHooks I} (self : TradeStrategy I)
    (client : ExecutionClient.t) (p : Portfolio.t) :
  is_exec_client_registered self = true →
  _exec_client self = Some client →
  _portfolio self = Some p →
  let now := Clock.time_now (clock self) in
  let flattened := stop_flatten self p in
  let cancels :=
    if cancel_all_orders_on_stop self then
      cancel_commands (trader_id self) (id self) "STOPPING STRATEGY" now
        flattened.2 (Dict.items (ExecutionClient.strategy_orders client))
    else [] in
  let stopped :=
    set_is_running false
      (set_trace
         (trace self
            ++ [Logged (LogInfo [Lit "Stopping..."]);
                ClockCancelAllTimeAlerts; ClockCancelAllTimers]
            ++ flattened.1.1
            ++ (Executed <$> cancels)
            ++ residual_warnings self)
         (set_guid_factory (flattened.2 + length cancels)
            (set_order_factory flattened.1.2 self))) in
  stop self = (guarded on_stop ;; log_info [Lit "Stopped."]) stopped.
Proof.
  intros Hreg Hclient Hp now flattened cancels stopped.
  assert (∀ s s' : TradeStrategy I, s = s' →
    match guarded on_stop s with
    | Ok _ s1 =>
        Ok tt (set_trace (trace s1 ++ [Logged (LogInfo [Lit "Stopped."])]) s1)
    | Raise e s1 => Raise e s1
    | Crash s1 => Crash s1
    end
    = match guarded on_stop s' with
      | Ok _ s1 =>
          Ok tt
            (set_trace (trace s1 ++ [Logged (LogInfo [Lit "Stopped."])]) s1)
      | Raise e s1 => Raise e s1
      | Crash s1 => Crash s1
      end) as Hend.
  { by intros s s' ->. }
  unfold stopped, cancels, flattened, now, stop_flatten.
  unfold stop, is_flat, portfolio.
  unfold mbind, M_bind, mret, M_ret, gets, modify, when, get_self, emit,
    log_info. simpl.
  destruct (flatten_on_stop self) eqn:Hfs; simpl;
    [rewrite Hp; simpl;
     destruct (Portfolio.strategy_flat p) eqn:Hsf; simpl;
     [|rewrite (flatten_all_positions_eq _ client p) by done; simpl]|];
    (destruct (cancel_all_orders_on_stop self) eqn:Hc; simpl;
     [rewrite (cancel_all_orders_eq _ client) by done; simpl|]);
    rewrite warn_residuals_eq; simpl; apply Hend;
    unfold residual_warnings; state_eq;
    rewrite <-?app_assoc; simpl; rewrite ?app_nil_r, ?Nat.add_0_r;
    try done.
Qed.

(** X26. On a strategy registered with an execution client and its
    portfolio, [stop] cancels the time alerts and the timers of the clock;
    under [flatten_on_stop], when the strategy is not flat, it submits a
    market order closing every active position that is not flat; under
    [cancel_all_orders_on_stop] it cancels every active order of the
    strategy; it sets [is_running] to false and warns of every residual
    entry, stop-loss, take-profit, atomic child and buffered modify. Then
    [on_stop] is called on the stopped state, whose trace holds all of this
    in that order: when the hook returns, [stop] logs its last line from the
    state the hook left, and when it raises, the exception is logged
    first. *)
Theorem stop_sequence (hooks : UserHooks I) (self : TradeStrategy I)
    (client : ExecutionClient.t) (p : Portfolio.t) :
  is_exec_client_registered self = true →
  _exec_client self = Some client →
  _portfolio self = Some p →
  let now := Clock.time_now (clock self) in
  let flattened := stop_flatten self p in
  let cancels :=
    if cancel_all_orders_on_stop self then
      cancel_commands (trader_id self) (id self) "STOPPING STRATEGY" now
        flattened.2 (Dict.items (ExecutionClient.strategy_orders client))
    else [] in
  let stopped :=
    set_is_running false
      (set_trace
         (trace self
            ++ [Logged (LogInfo [Lit "Stopping..."]);
                ClockCancelAllTimeAlerts; ClockCancelAllTimers]
            ++ flattened.1.1
            ++ (Executed <$> cancels)
            ++ residual_warnings self)
         (set_guid_factory (flattened.2 + length cancels)
            (set_order_factory flattened.1.2 self))) in
  (∀ s', on_stop stopped = Ok tt s' →
     stop self = Ok tt (logged (LogInfo [Lit "Stopped."]) s'))
  ∧ (∀ e s', on_stop stopped = Raise e s' →
       stop self
       = Ok tt (logged (LogInfo [Lit "Stopped."]) (logged (LogException e) s')))
  ∧ is_running stopped = false
  ∧ ledger stopped = ledger self
  ∧ (flatten_on_stop self && negb (Portfolio.strategy_flat p) = true →
     Forall2 (exit_order_for (trader_id self) (id self) now)
       (filter (λ entry, Position.is_flat entry.2 = false)
          (Dict.items (Portfolio.positions_active p)))
       (commands_of flattened.1.1))
  ∧ (flatten_on_stop self && negb (Portfolio.strategy_flat p) = false →
     flattened.1.1 = [])
  ∧ (cancel_all_orders_on_stop self = true →
     Forall2 (cancel_for (trader_id self) (id self) "STOPPING STRATEGY" now)
       (filter (λ entry, Order.is_active entry.2 = true)
          (Dict.items (ExecutionClient.strategy_orders client)))
       cancels)
  ∧ (cancel_all_orders_on_stop self = false → cancels = []).
Proof.
  intros Hreg Hclient Hp now flattened cancels stopped.
  pose proof (stop_stopped self client p Hreg Hclient Hp) as Hstop.
  cbv zeta in Hstop. fold now flattened in Hstop. fold cancels in Hstop.
  fold stopped in Hstop.
  split_and!.
  - intros s' Hhook. rewrite Hstop. unfold mbind, M_bind.
    by rewrite (guarded_ok _ _ _ Hhook).
  - intros e s' Hhook. rewrite Hstop. unfold mbind, M_bind.
    by rewrite (guarded_raise _ _ _ _ Hhook).
  - done.
  - done.
  - intros Hfl. unfold flattened, stop_flatten. rewrite Hfl.
    case_decide as Hlen.
    + simpl. apply length_zero_iff_nil in Hlen. unfold Dict.items.
      unfold Dict.len in *. rewrite Hlen. constructor.
    + apply flatten_effects_commands.
  - intros Hfl. unfold flattened, stop_flatten. by rewrite Hfl.
  - intros Hc. unfold cancels. rewrite Hc. apply cancel_commands_spec.
  - intros Hc. unfold cancels. by rewrite Hc.
Qed.

(** C3. [stop] asks the portfolio whether the strategy is flat before it
    flattens, cancels, clears [is_running], warns and calls [on_stop], and
    it asks without looking at the registration, which its callees
    [flatten_all_positions] and [cancel_all_orders] do look at. On a
    strategy that flattens on stop and has no portfolio, the call does not
    come back from that read: the alerts and timers of the clock were
    cancelled, and nothing of what follows was done; [is_running] keeps its
    value. *)
Theorem stop_needs_portfolio_to_flatten (hooks : UserHooks I)
    (self : TradeStrategy I) :
  flatten_on_stop self = true →
  _portfolio self = None →
  stop self
  = Crash (set_trace
             (trace self
                ++ [Logged (LogInfo [Lit "Stopping..."]);
                    ClockCancelAllTimeAlerts; ClockCancelAllTimers])
             self)
  ∧ is_running (state_of (stop self)) = is_running self
  ∧ sent (state_of (stop self)) = sent self.
Proof.
  intros Hflag Hp.
  assert (stop self
          = Crash (set_trace
                     (trace self
                        ++ [Logged (LogInfo [Lit "Stopping..."]);
                            ClockCancelAllTimeAlerts; ClockCancelAllTimers])
                     self)) as Hstop.
  { unfold stop, is_flat, portfolio. run. rewrite Hflag. simpl.
    rewrite Hp. simpl. by rewrite <-!app_assoc. }
  rewrite Hstop. split_and!; [done|done|]. simpl. unfold sent. simpl.
  unfold commands_of. rewrite omap_app. simpl. by rewrite app_nil_r.
Qed.

End StopFacts.

(** * Further properties of the engine *)

(** ** Lifecycle *)

Section Lifecycle.
Context {I : Type} `{Indicator I} `{OrderSideEnum}.

Local Abbreviation Method := (M (TradeStrategy I)).

Lemma keeps_warn_residuals {V} (view : TradeStrategy I → V) :
  (∀ v self, view (set_trace v self) = view self) →
  keeps view warn_residuals.
Proof.
  intros Hview. unfold warn_residuals, get_self, log_warning.
  apply keeps_bind; [apply keeps_gets|]. intros self.
  repeat (apply keeps_bind; [|intros ?]);
    apply keeps_for_each; intros ?; try (by apply keeps_emit).
  - destruct x as [order_id children]. apply keeps_for_each. intros ?.
    by apply keeps_emit.
  - destruct x as [order_id command]. by apply keeps_emit.
Qed.

(** Once [stop] has passed the flatten and the cancellations, the flag is
    cleared and nothing but the hook can set it again. *)
Lemma stop_clears_is_running `{UserHooks I} (self s' : TradeStrategy I) :
  keeps is_running on_stop →
  stop self = Ok tt s' →
  is_running s' = false.
Proof.
  intros Hhook Hstop. unfold stop in Hstop.
  apply bind_ok in Hstop as ([] & s1 & _ & Hstop).
  apply bind_ok in Hstop as ([] & s2 & _ & Hstop).
  apply bind_ok in Hstop as ([] & s3 & _ & Hstop).
  apply bind_ok in Hstop as (self3 & s4 & _ & Hstop).
  apply bind_ok in Hstop as ([] & s5 & _ & Hstop).
  apply bind_ok in Hstop as (self5 & s6 & _ & Hstop).
  apply bind_ok in Hstop as ([] & s7 & _ & Hstop).
  apply bind_ok in Hstop as ([] & s8 & Hflag & Hstop).
  injection Hflag as <-.
  transitivity (is_running (set_is_running false s7)); [|done].
  eapply (keeps_ok is_running); [|exact Hstop].
  apply keeps_bind; [by apply keeps_warn_residuals|]. intros _.
  apply keeps_bind; [by apply keeps_guarded|]. intros _.
  by apply keeps_emit.
Qed.

(** X1. No failure of a user hook escapes [start], [handle_tick],
    [dispose] or [reset]: each of them returns whatever the hook does, and
    an exception raised by [on_start] or [on_tick] is in the log, from the
    state in which the hook raised it. *)
Theorem hook_failures_are_logged (hooks : UserHooks I) (tick : Tick.t)
    (self : TradeStrategy I) :
  let started :=
    set_is_running true (logged (LogInfo [Lit "Starting..."]) self) in
  let cached :=
    set_ticks (Dict.set (Tick.symbol tick) tick (_ticks self)) self in
  (∃ s', start self = Ok tt s')
  ∧ (∀ e s1, on_start started = Raise e s1 →
       start self
       = Ok tt (logged (LogInfo [Lit "Running..."])
                  (logged (LogException e) s1)))
  ∧ (∃ s', handle_tick tick self = Ok tt s')
  ∧ (∀ e s1, is_running self = true → on_tick tick cached = Raise e s1 →
       handle_tick tick self = Ok tt (logged (LogException e) s1))
  ∧ (∃ s', dispose self = Ok tt s')
  ∧ (heap_ok self → ∃ s', reset self = Ok tt s').
Proof.
  intros started cached.
  assert (start self
    = match on_start started with
      | Ok _ s1 => Ok tt (logged (LogInfo [Lit "Running..."]) s1)
      | Raise e s1 =>
          Ok tt (logged (LogInfo [Lit "Running..."])
                   (logged (LogException e) s1))
      | Crash s1 => Crash s1
      end) as Hstart.
  { unfold start, started, logged. run. unfold guarded, try_except.
    by destruct (on_start _) as [[] s1|e s1|s1]. }
  assert (handle_tick tick self
    = if is_running self then guarded (on_tick tick) cached
      else Ok tt cached) as Htick.
  { unfold handle_tick. run. by destruct (is_running self). }
  split_and!.
  - rewrite Hstart. pose proof (on_start_comes_back started) as Hback.
    destruct (on_start started) as [[] s1|e s1|s1]; eauto.
    by destruct (Hback s1).
  - intros e s1 Hraise. by rewrite Hstart, Hraise.
  - rewrite Htick. destruct (is_running self); [|eauto].
    apply guarded_returns, on_tick_comes_back.
  - intros e s1 Hrun Hraise. by rewrite Htick, Hrun, guarded_eq, Hraise.
  - unfold dispose, try_except. run.
    pose proof (on_dispose_comes_back
                  (set_trace
                     (trace self ++ [Logged (LogInfo [Lit "Disposing..."])])
                     self)) as Hback.
    destruct (on_dispose _) as [[] s1|e s1|s1]; simpl; eauto.
    by destruct (Hback s1).
  - intros Hok.
    destruct (is_running self) eqn:Hrun.
    + unfold reset. run. rewrite Hrun. simpl. eauto.
    + rewrite (reset_cleared self Hok Hrun). unfold mbind, M_bind.
      match goal with |- ∃ s', match guarded _ ?s with _ => _ end = _ =>
        destruct (guarded_returns on_reset s on_reset_comes_back) as [s1 ->]
      end.
      simpl. eauto.
Qed.

(** X2. The running flag gates [reset] and the hooks. After [start], with
    an [on_start] that leaves the flag alone, [reset] is refused: an error
    is logged and nothing else changes. After a [stop] that returned, with
    an [on_stop] that leaves the flag alone, the flag is false, and a tick
    is cached without a call of [on_tick]. *)
Theorem running_flag_gates (hooks : UserHooks I) (tick : Tick.t)
    (self : TradeStrategy I) :
  (keeps is_running on_start →
   is_running (state_of (start self)) = true
   ∧ reset (state_of (start self))
     = Ok tt (logged
                (LogError [Lit "Cannot reset (cannot reset a running strategy)."])
                (state_of (start self))))
  ∧ (keeps is_running on_stop →
     ∀ s', stop self = Ok tt s' →
       is_running s' = false
       ∧ handle_tick tick s'
         = Ok tt (set_ticks (Dict.set (Tick.symbol tick) tick (_ticks s')) s')).
Proof.
  split.
  - intros Hhook.
    assert (is_running (state_of (start self)) = true) as Hrun.
    { unfold start.
      assert (keeps is_running
                (guarded on_start ;; log_info [Lit "Running..."]
                   : Method unit)) as Hk.
      { apply keeps_bind; [by apply keeps_guarded|]. intros _.
        by apply keeps_emit. }
      run. apply (Hk (set_is_running true _)). }
    split; [done|]. unfold reset. run. by rewrite Hrun.
  - intros Hhook s' Hstop.
    assert (is_running s' = false) as Hrun
      by by apply (stop_clears_is_running self).
    split; [done|]. unfold handle_tick. run. by rewrite Hrun.
Qed.

End Lifecycle.

(** ** Commands *)

Section Commands.
Context {I : Type} `{Indicator I} `{OrderSideEnum}.

Local Abbreviation Method := (M (TradeStrategy I)).

Lemma submit_order_eq order position_id (self : TradeStrategy I) client :
  is_exec_client_registered self = true →
  _exec_client self = Some client →
  submit_order order position_id self
  = Ok tt
      (set_trace
         (trace self
            ++ [Logged (LogInfo [Lit "Submitting "; Fmt (ObjOrder order);
                                 Lit " with "; Fmt (ObjId position_id)]);
                Executed (SubmitOrder (trader_id self) (id self) position_id
                            order (_guid_factory self)
                            (Clock.time_now (clock self)))])
         (set_guid_factory (S (_guid_factory self)) self)).
Proof.
  intros Hreg Hclient. unfold submit_order, execute_command, exec_client.
  run. rewrite Hreg. simpl. rewrite Hclient. simpl.
  by rewrite <-app_assoc.
Qed.

(** X3. Without a registered execution client the command methods are
    suppressed: each logs its error and changes nothing else, so that no
    command is sent and no GUID is used. [submit_entry_order] is suppressed
    only after it has registered the order. *)
Theorem commands_suppressed_without_client (order : Order.t)
    (position_id : PositionId) (atomic_order : AtomicOrder.t)
    (new_price : Price) (cancel_reason : option string)
    (self : TradeStrategy I) :
  is_exec_client_registered self = false →
  let refused (what : string) :=
    Ok tt
      (logged
         (LogError
            [Lit ("Cannot " +:+ what +:+ " (execution client not registered).")])
         self) in
  submit_order order position_id self = refused "submit order"
  ∧ submit_atomic_order atomic_order position_id self
    = refused "submit atomic order"
  ∧ modify_order order new_price self = refused "modify order"
  ∧ cancel_order order cancel_reason self = refused "cancel order"
  ∧ cancel_all_orders cancel_reason self = refused "cancel all orders"
  ∧ flatten_position position_id self = refused "flatten position"
  ∧ flatten_all_positions self = refused "flatten all positions"
  ∧ submit_entry_order order position_id self
    = Ok tt
        (logged
           (LogError
              [Lit "Cannot submit order (execution client not registered)."])
           (set_entry_orders
              (Dict.set (Order.id order) order (_entry_orders self)) self)).
Proof.
  intros Hreg refused. unfold refused, logged.
  split_and!.
  - unfold submit_order. run. by rewrite Hreg.
  - unfold submit_atomic_order. run. by rewrite Hreg.
  - unfold modify_order. run. by rewrite Hreg.
  - unfold cancel_order. run. by rewrite Hreg.
  - unfold cancel_all_orders. run. by rewrite Hreg.
  - unfold flatten_position. run. by rewrite Hreg.
  - unfold flatten_all_positions. run. by rewrite Hreg.
  - unfold submit_entry_order, register_entry_order, submit_order. run.
    by rewrite Hreg.
Qed.

Lemma for_each_submit_order (orders : list (Order.t * PositionId)) :
  ∀ (self : TradeStrategy I) client,
  is_exec_client_registered self = true →
  _exec_client self = Some client →
  ∃ s',
    for_each orders (λ '(order, position_id), submit_order order position_id)
      self = Ok tt s'
    ∧ sent s'
      = sent self
          ++ imap (λ i '(order, position_id),
                     SubmitOrder (trader_id self) (id self) position_id order
                       (_guid_factory self + i)%nat
                       (Clock.time_now (clock self)))
               orders
    ∧ _guid_factory s' = (_guid_factory self + length orders)%nat.
Proof.
  induction orders as [|[order position_id] orders IH];
    intros self client Hreg Hclient.
  - exists self. simpl. rewrite app_nil_r, Nat.add_0_r. done.
  - simpl. unfold mbind, M_bind.
    rewrite (submit_order_eq _ _ _ client) by done.
    match goal with |- ∃ s', for_each _ _ ?s = _ ∧ _ =>
      destruct (IH s client) as (s' & Hrun & Hsent & Hguid); [done..|] end.
    exists s'. split; [done|]. split.
    + rewrite Hsent. unfold sent, commands_of. simpl.
      rewrite omap_app, <-app_assoc. simpl. rewrite Nat.add_0_r.
      do 2 f_equal. apply imap_ext. intros i [o p] _. simpl.
      do 2 f_equal. lia.
    + rewrite Hguid. simpl. lia.
Qed.

(** X4. With a registered execution client, orders submitted one after
    the other are sent one command each, in that order, under consecutive
    command identifiers from the GUID factory and with the time of the
    clock; nothing of the strategy changes but the log and the GUID
    factory: the registers, the caches and the order factory are as they
    were. *)
Theorem submitted_orders_have_consecutive_ids
    (orders : list (Order.t * PositionId)) (self : TradeStrategy I)
    (client : ExecutionClient.t) :
  is_exec_client_registered self = true →
  _exec_client self = Some client →
  ∃ s',
    for_each orders (λ '(order, position_id), submit_order order position_id)
      self = Ok tt s'
    ∧ sent s'
      = sent self
          ++ imap (λ i '(order, position_id),
                     SubmitOrder (trader_id self) (id self) position_id order
                       (_guid_factory self + i)%nat
                       (Clock.time_now (clock self)))
               orders
    ∧ _guid_factory s' = (_guid_factory self + length orders)%nat
    ∧ outside_commands s' = outside_commands self.
Proof.
  intros Hreg Hclient.
  destruct (for_each_submit_order orders self client Hreg Hclient)
    as (s' & Hrun & Hsent & Hguid).
  exists s'. split_and!; try done.
  eapply (keeps_ok outside_commands); [|exact Hrun].
  apply keeps_for_each. intros [order position_id].
  by apply keeps_submit_order.
Qed.

(** The state after the flatten of a position that is not flat. *)
Lemma flatten_position_eq position_id (self : TradeStrategy I) client p
    position :
  is_exec_client_registered self = true →
  _exec_client self = Some client →
  _portfolio self = Some p →
  Dict.get position_id (Portfolio.positions p) = Some position →
  Position.is_flat position = false →
  let made :=
    OrderFactory.market (Clock.time_now (clock self))
      (Position.symbol position)
      (closing_side (Position.market_position position))
      (Position.quantity position) "EXIT" (order_factory self) in
  flatten_position position_id self
  = Ok tt
      (set_trace
         (trace self
            ++ [Logged (LogInfo [Lit "Flattening "; Fmt (ObjPosition position)]);
                Logged (LogInfo [Lit "Submitting "; Fmt (ObjOrder made.1);
                                 Lit " with "; Fmt (ObjId position_id)]);
                Executed (SubmitOrder (trader_id self) (id self) position_id
                            made.1 (_guid_factory self)
                            (Clock.time_now (clock self)))])
         (set_guid_factory (S (_guid_factory self))
            (set_order_factory made.2 self))).
Proof.
  intros Hreg Hclient Hp Hpos Hflat made.
  assert (Position.market_position position ≠ FLAT) as Hmp.
  { unfold Position.is_flat in Hflat. by apply bool_decide_eq_false in Hflat. }
  unfold flatten_position, get_position, portfolio, get_flatten_side,
    order_factory_market, submit_order, execute_command, exec_client.
  run. rewrite Hreg. simpl. rewrite Hp. simpl. rewrite Hpos. simpl.
  rewrite Hflat. simpl. unfold made.
  destruct (Position.market_position position); [done| |]; simpl;
    rewrite Hreg; simpl; rewrite Hclient; simpl;
    by rewrite <-!app_assoc.
Qed.

(** X5. [flatten_position], with the execution client and its portfolio
    registered: for an identifier the portfolio does not know the lookup
    raises a [ValueError], which the method drops: it returns, and nothing
    changed but for the error written to stderr; a position that is already
    flat gets a warning and no order; a LONG position is closed by a SELL
    and a SHORT
    one by a BUY, in one market order labelled EXIT for the symbol and the
    whole quantity of the position, under the next order identifier of the
    factory and sent under the next GUID; the ledger is not touched. *)
Theorem flatten_position_closes_position (position_id : PositionId)
    (self : TradeStrategy I) (client : ExecutionClient.t) (p : Portfolio.t) :
  is_exec_client_registered self = true →
  _exec_client self = Some client →
  _portfolio self = Some p →
  match Dict.get position_id (Portfolio.positions p) with
  | None =>
      ∃ msg,
        get_position position_id self = Raise (ValueError msg) self
        ∧ flatten_position position_id self
          = Ok tt (dropped (ValueError msg) self)
  | Some position =>
      if Position.is_flat position then
        flatten_position position_id self
        = Ok tt
            (logged
               (LogWarning [Lit "Cannot flatten position (the position ";
                            Fmt (ObjId position_id);
                            Lit " was already FLAT)."])
               self)
      else
        ∃ order s',
          flatten_position position_id self = Ok tt s'
          ∧ sent s'
            = sent self
                ++ [SubmitOrder (trader_id self) (id self) position_id order
                      (_guid_factory self) (Clock.time_now (clock self))]
          ∧ Order.side order
            = match Position.market_position position with
              | LONG => SELL
              | _ => BUY
              end
          ∧ Order.type order = MARKET
          ∧ Order.symbol order = Position.symbol position
          ∧ Order.quantity order = Position.quantity position
          ∧ Order.label order = "EXIT"
          ∧ Order.id order
            = IdentifierGenerator.identifier
                (OrderFactory.generator (order_factory self))
                (Clock.time_now (clock self))
                (S (IdentifierGenerator.counter
                      (OrderFactory.generator (order_factory self))))
          ∧ IdentifierGenerator.counter
              (OrderFactory.generator (order_factory s'))
            = S (IdentifierGenerator.counter
                   (OrderFactory.generator (order_factory self)))
          ∧ _guid_factory s' = S (_guid_factory self)
          ∧ ledger s' = ledger self
  end.
Proof.
  intros Hreg Hclient Hp.
  destruct (Dict.get position_id (Portfolio.positions p)) as [position|]
    eqn:Hpos.
  - destruct (Position.is_flat position) eqn:Hflat.
    + unfold flatten_position, get_position, portfolio. run.
      rewrite Hreg. simpl. rewrite Hp. simpl. rewrite Hpos. simpl.
      by rewrite Hflat.
    + eexists _, _. split.
      { by apply (flatten_position_eq _ _ client p position). }
      split_and!.
      * unfold sent, commands_of. simpl. rewrite omap_app. done.
      * unfold closing_side. by destruct (Position.market_position position).
      * reflexivity.
      * reflexivity.
      * reflexivity.
      * reflexivity.
      * unfold OrderFactory.market, OrderIdGenerator.generate,
          IdentifierGenerator._generate. simpl. by rewrite Nat.add_1_r.
      * unfold OrderFactory.market, OrderIdGenerator.generate,
          IdentifierGenerator._generate. simpl. by rewrite Nat.add_1_r.
      * reflexivity.
      * reflexivity.
  - exists "position not found". split.
    + unfold get_position, portfolio. run. rewrite Hp. simpl. by rewrite Hpos.
    + unfold flatten_position, get_position, portfolio. run.
      rewrite Hreg. simpl. rewrite Hp. simpl. by rewrite Hpos.
Qed.

End Commands.

(** ** The ledger under events *)

Section LedgerInvariants.
Context {I : Type} `{Indicator I} `{OrderSideEnum}.

Local Abbreviation Method := (M (TradeStrategy I)).

Lemma ledger_within_refl (self : TradeStrategy I) : ledger_within self self.
Proof. intros x. split_and!; auto. Qed.

Lemma ledger_within_trans (s1 s2 s3 : TradeStrategy I) :
  ledger_within s1 s2 → ledger_within s2 s3 → ledger_within s1 s3.
Proof.
  intros H12 H23 x. destruct (H12 x) as (?&?&?&?&?).
  destruct (H23 x) as (?&?&?&?&?). split_and!; auto.
Qed.

Lemma ledger_within_eq (s1 s2 : TradeStrategy I) :
  ledger s1 = ledger s2 → ledger_within s1 s2.
Proof.
  unfold ledger. intros [= HE HS HT HA HM] x.
  rewrite HE, HS, HT, HA, HM. split_and!; auto.
Qed.

Lemma shrinks_keeps {A} (m : Method A) :
  keeps ledger m → shrinks_ledger m.
Proof. intros Hk self. apply ledger_within_eq, Hk. Qed.

Lemma shrinks_bind {A B} (m : Method A) (f : A → Method B) :
  shrinks_ledger m → (∀ a, shrinks_ledger (f a)) → shrinks_ledger (m ≫= f).
Proof.
  intros Hm Hf self. unfold mbind, M_bind. specialize (Hm self).
  destruct (m self) as [a s1|e s1|s1]; simpl in *; [|done..].
  eapply ledger_within_trans; [apply Hf|done].
Qed.

Lemma shrinks_unraisable {A} (zero : A) (body : Method A) :
  shrinks_ledger body → shrinks_ledger (unraisable zero body).
Proof.
  intros Hb self. unfold unraisable. specialize (Hb self).
  destruct (body self) as [a s1|e s1|s1]; simpl in *; done.
Qed.

Lemma shrinks_when (c : bool) (m : Method unit) :
  shrinks_ledger m → shrinks_ledger (when c m).
Proof. destruct c; [done|]. intros _ self. apply ledger_within_refl. Qed.

Lemma shrinks_modify (f : TradeStrategy I → TradeStrategy I) :
  (∀ self, ledger_within (f self) self) → shrinks_ledger (modify f).
Proof. intros Hf self. apply Hf. Qed.

Lemma dict_mem_del_true {K V} `{EqDecision K} (k k' : K) (d : Dict.t K V) :
  Dict.mem k' (Dict.del k d) = true → Dict.mem k' d = true.
Proof.
  intros Hdel. destruct (Dict.mem k' d) eqn:Hmem; [done|].
  by rewrite (dict_mem_del_false k) in Hdel.
Qed.

Lemma remove_registered_within order_id (self : TradeStrategy I) :
  ledger_within (remove_registered order_id self) self.
Proof.
  intros x. unfold remove_registered.
  repeat case_match; simpl; split_and!; eauto using dict_mem_del_true.
Qed.

Lemma atomic_order_ids_remove_all children : ∀ s : TradeStrategy I,
  _atomic_order_ids (foldl (λ s child, remove_registered child s) s children)
  = _atomic_order_ids s.
Proof.
  induction children as [|c children IH]; intros s; simpl; [done|].
  rewrite IH. unfold remove_registered. by repeat case_match.
Qed.

Lemma remove_children_within order_id (self : TradeStrategy I) :
  ledger_within (remove_children order_id self) self.
Proof.
  unfold remove_children.
  destruct (Dict.get order_id (_atomic_order_ids self)) as [children|];
    [|apply ledger_within_refl].
  apply (ledger_within_trans _
           (foldl (λ s child, remove_registered child s) self children)).
  { intros x. simpl. rewrite atomic_order_ids_remove_all.
    split_and!; eauto using dict_mem_del_true. }
  generalize self. induction children as [|c children IH]; intros s; simpl.
  - apply ledger_within_refl.
  - eapply ledger_within_trans; [apply IH|]. apply remove_registered_within.
Qed.

Lemma shrinks_process_modify_order_buffer order_id :
  shrinks_ledger (_process_modify_order_buffer order_id : Method unit).
Proof.
  unfold _process_modify_order_buffer, get_self.
  apply shrinks_unraisable.
  apply shrinks_bind; [apply shrinks_keeps, keeps_gets|]. intros self.
  destruct (Dict.get order_id (_modify_order_buffer self));
    [|apply shrinks_keeps, keeps_raise].
  apply shrinks_bind.
  { apply shrinks_keeps. unfold get_order, exec_client, get_self.
    apply keeps_bind.
    - apply keeps_bind; [apply keeps_gets|]. intros s.
      destruct (_exec_client s); [apply keeps_ret|apply keeps_crash].
    - intros client. destruct (Dict.get _ _);
        [apply keeps_ret|apply keeps_raise]. }
  intros order. apply shrinks_bind.
  { apply shrinks_when, shrinks_keeps. unfold log_info.
    apply keeps_bind; [by apply keeps_emit|]. intros _.
    by apply keeps_execute_command. }
  intros _. apply shrinks_modify. intros s x. simpl.
  split_and!; eauto using dict_mem_del_true.
Qed.

Lemma shrinks_handle_event `{UserHooks I} (event : Event) :
  keeps ledger (on_event event) → shrinks_ledger (handle_event event).
Proof.
  intros Hhook.
  assert (shrinks_ledger (call_on_event event)) as Hcall.
  { apply shrinks_keeps. by apply keeps_call_on_event. }
  assert (∀ c : LogCall,
    shrinks_ledger (emit (Logged c) : Method unit)) as Hlog.
  { intros c. apply shrinks_keeps. by apply keeps_emit. }
  assert (∀ order_id,
    shrinks_ledger (modify (remove_children order_id) : Method unit))
    as Hchildren.
  { intros. apply shrinks_modify. intros. apply remove_children_within. }
  assert (∀ order_id,
    shrinks_ledger (modify (remove_registered order_id) : Method unit))
    as Hremove.
  { intros. apply shrinks_modify. intros. apply remove_registered_within. }
  intros self. destruct event as [x|x|x|x|x|x|x| |x|x].
  - rewrite handle_event_rejected. revert self.
    apply shrinks_bind; [apply Hlog|]. intros _.
    apply shrinks_bind; [by apply shrinks_keeps, keeps_flatten_on_reject|].
    intros _. apply shrinks_bind; [apply Hchildren|]. intros _.
    apply shrinks_bind; [apply Hremove|]. intros _. apply Hcall.
  - rewrite (handle_event_cascade _ x) by (left; done).
    eapply ledger_within_trans; [apply Hcall|].
    eapply ledger_within_trans; [apply remove_registered_within|].
    eapply ledger_within_trans; [apply remove_children_within|].
    by apply ledger_within_eq.
  - rewrite handle_event_filled.
    eapply ledger_within_trans; [apply Hcall|].
    eapply ledger_within_trans; [apply remove_registered_within|].
    intros y. simpl. split_and!; eauto using dict_mem_del_true.
  - revert self. unfold handle_event. fold (call_on_event (I := I)
      (OrderPartiallyFilled x)).
    apply shrinks_bind; [apply Hlog|]. intros _. apply Hcall.
  - revert self. unfold handle_event. fold (call_on_event (I := I)
      (OrderCancelReject x)).
    apply shrinks_bind; [|intros _; apply Hcall].
    apply shrinks_bind; [apply Hlog|]. intros _.
    apply shrinks_bind; [apply shrinks_keeps, keeps_gets|]. intros s.
    apply shrinks_when, shrinks_process_modify_order_buffer.
  - revert self. unfold handle_event. fold (call_on_event (I := I)
      (OrderModified x)).
    apply shrinks_bind; [|intros _; apply Hcall].
    apply shrinks_bind; [apply Hlog|]. intros _.
    apply shrinks_bind; [apply shrinks_keeps, keeps_gets|]. intros s.
    apply shrinks_when, shrinks_process_modify_order_buffer.
  - rewrite (handle_event_cascade _ x) by (right; left; done).
    eapply ledger_within_trans; [apply Hcall|].
    eapply ledger_within_trans; [apply remove_registered_within|].
    eapply ledger_within_trans; [apply remove_children_within|].
    by apply ledger_within_eq.
  - revert self. unfold handle_event. fold (call_on_event (I := I)
      AccountEvent).
    apply shrinks_bind; [apply Hlog|]. intros _. apply Hcall.
  - revert self. unfold handle_event. fold (call_on_event (I := I)
      (PositionEvent x)).
    apply shrinks_bind; [apply Hlog|]. intros _. apply Hcall.
  - revert self. unfold handle_event. fold (call_on_event (I := I)
      (TimeEvent x)).
    apply shrinks_bind; [apply Hlog|]. intros _. apply Hcall.
Qed.

Lemma within_at_most_one order_id (self' self : TradeStrategy I) :
  ledger_within self' self → in_at_most_one order_id self →
  in_at_most_one order_id self'.
Proof.
  intros Hin [HE HS]. destruct (Hin order_id) as (HE' & HS' & HT' & _).
  split.
  - intros HmE. destruct HE as [HnS HnT]; [auto|].
    split.
    + destruct (Dict.mem order_id (_stop_loss_orders self')); [|done].
      rewrite HS' in HnS; done.
    + destruct (Dict.mem order_id (_take_profit_orders self')); [|done].
      rewrite HT' in HnT; done.
  - intros HmS. specialize (HS (HS' HmS)).
    destruct (Dict.mem order_id (_take_profit_orders self')); [|done].
    rewrite HT' in HS; done.
Qed.

(** X6. [handle_event] adds nothing to the ledger, whatever the event: an
    order identifier found afterwards in a register, in the parent to
    children map or in the modify-order buffer was there before, also when
    the call fails. In particular, registers in which every identifier
    appears at most once stay so. The [on_event] hook is assumed to leave
    the ledger alone. *)
Theorem handle_event_adds_nothing_to_ledger (hooks : UserHooks I)
    (event : Event) (self : TradeStrategy I) :
  keeps ledger (on_event event) →
  ledger_within (state_of (handle_event event self)) self
  ∧ (registers_disjoint self →
     registers_disjoint (state_of (handle_event event self))).
Proof.
  intros Hhook.
  assert (ledger_within (state_of (handle_event event self)) self) as Hin
    by by apply shrinks_handle_event.
  split; [done|]. intros Hdis x. by apply (within_at_most_one x _ self).
Qed.

Lemma dict_mem_set {K V} `{EqDecision K} (k k' : K) (v : V) (d : Dict.t K V) :
  Dict.mem k' (Dict.set k v d) = bool_decide (k' = k) || Dict.mem k' d.
Proof.
  destruct (decide (k' = k)) as [->|Hne].
  - by rewrite dict_mem_set_eq, bool_decide_eq_true_2.
  - rewrite bool_decide_eq_false_2 by done. simpl.
    unfold Dict.mem. by rewrite dict_get_set_ne.
Qed.

(** The registers after [submit_atomic_order]. *)
Lemma submit_atomic_order_registers atomic_order position_id
    (self : TradeStrategy I) :
  registers (state_of (submit_atomic_order atomic_order position_id self))
  = if is_exec_client_registered self then
      (Dict.set (Order.id (AtomicOrder.entry atomic_order))
         (AtomicOrder.entry atomic_order) (_entry_orders self),
       Dict.set (Order.id (AtomicOrder.stop_loss atomic_order))
         (AtomicOrder.stop_loss atomic_order) (_stop_loss_orders self),
       match AtomicOrder.take_profit atomic_order with
       | Some take_profit =>
           Dict.set (Order.id take_profit) take_profit
             (_take_profit_orders self)
       | None => _take_profit_orders self
       end)
    else registers self.
Proof.
  unfold submit_atomic_order, register_entry_order, register_stop_loss_order,
    register_take_profit_order, execute_command, exec_client.
  run. destruct (is_exec_client_registered self); simpl; [|done].
  destruct (AtomicOrder.take_profit atomic_order); simpl;
    by destruct (_exec_client self).
Qed.

(** X7. Registers in which every order identifier appears at most once
    stay so under [submit_atomic_order], when the identifiers of the entry,
    the stop-loss and the take-profit (if any) are pairwise distinct and the
    entry and the stop-loss are in no register yet, and the take-profit in
    none but its own; they stay so under [submit_entry_order] for an order
    that is in neither the stop-loss nor the take-profit register. *)
Theorem submissions_keep_registers_disjoint (atomic_order : AtomicOrder.t)
    (order : Order.t) (position_id : PositionId) (self : TradeStrategy I) :
  registers_disjoint self →
  let entry := AtomicOrder.entry atomic_order in
  let stop_loss := AtomicOrder.stop_loss atomic_order in
  let take_profit := AtomicOrder.take_profit atomic_order in
  (NoDup (Order.id entry :: Order.id stop_loss
            :: from_option (λ o, [Order.id o]) [] take_profit) →
   Dict.mem (Order.id entry) (_stop_loss_orders self) = false →
   Dict.mem (Order.id entry) (_take_profit_orders self) = false →
   Dict.mem (Order.id stop_loss) (_entry_orders self) = false →
   Dict.mem (Order.id stop_loss) (_take_profit_orders self) = false →
   (∀ o, take_profit = Some o →
      Dict.mem (Order.id o) (_entry_orders self) = false
      ∧ Dict.mem (Order.id o) (_stop_loss_orders self) = false) →
   registers_disjoint
     (state_of (submit_atomic_order atomic_order position_id self)))
  ∧ (Dict.mem (Order.id order) (_stop_loss_orders self) = false →
     Dict.mem (Order.id order) (_take_profit_orders self) = false →
     registers_disjoint
       (state_of (submit_entry_order order position_id self))).
Proof.
  intros Hdis entry stop_loss take_profit. split.
  - intros Hnodup HeS HeT HsE HsT Htp x.
    pose proof (submit_atomic_order_registers atomic_order position_id self)
      as Hregs.
    destruct (is_exec_client_registered self);
      [|by apply (in_at_most_one_registers x self)].
    fold entry stop_loss take_profit in Hregs.
    unfold registers in Hregs. injection Hregs as HE HS HT.
    apply NoDup_cons in Hnodup as [Hn1 Hnodup].
    apply NoDup_cons in Hnodup as [Hn2 _].
    apply not_elem_of_cons in Hn1 as [Hes Het].
    destruct (Hdis x) as [HxE HxS].
    unfold in_at_most_one. rewrite HE, HS, HT, !dict_mem_set.
    assert (Dict.mem x
              match take_profit with
              | Some o => Dict.set (Order.id o) o (_take_profit_orders self)
              | None => _take_profit_orders self
              end
            = from_option (λ o, bool_decide (x = Order.id o)) false take_profit
              || Dict.mem x (_take_profit_orders self)) as ->.
    { destruct take_profit; [apply dict_mem_set|done]. }
    destruct take_profit as [o|]; simpl in *.
    + destruct (Htp o eq_refl) as [HoE HoS].
      apply not_elem_of_cons in Het as [Heo _].
      apply not_elem_of_cons in Hn2 as [Hso _].
      repeat (case_bool_decide; simplify_eq; simpl); try done;
        split; intros; split_and?;
        repeat match goal with
        | H : Dict.mem _ _ = true → _ |- _ => destruct H; [done|]
        end; congruence.
    + repeat (case_bool_decide; simplify_eq; simpl); try done;
        split; intros; split_and?;
        repeat match goal with
        | H : Dict.mem _ _ = true → _ |- _ => destruct H; [done|]
        end; congruence.
  - intros HoS HoT x.
    assert (registers (state_of (submit_entry_order order position_id self))
            = (Dict.set (Order.id order) order (_entry_orders self),
               _stop_loss_orders self, _take_profit_orders self)) as Hregs.
    { unfold submit_entry_order, register_entry_order, submit_order,
        execute_command, exec_client. run.
      destruct (is_exec_client_registered self); simpl; [|done].
      by destruct (_exec_client self). }
    unfold registers in Hregs. injection Hregs as HE HS HT.
    destruct (Hdis x) as [HxE HxS].
    unfold in_at_most_one. rewrite HE, HS, HT, dict_mem_set.
    case_bool_decide; simplify_eq; simpl; [|done].
    split; [done|]. intros. congruence.
Qed.

End LedgerInvariants.

(** ** Events on the parent of an atomic order *)

Section AtomicEvents.
Context {I : Type} `{Indicator I} `{OrderSideEnum}.

Local Abbreviation Method := (M (TradeStrategy I)).

(** The ledger after the submission of an atomic order with a take-profit
    on a strategy whose parent to children map is empty. *)
Lemma submitted_atomic_order atomic_order take_profit position_id
    (self : TradeStrategy I) client :
  AtomicOrder.take_profit atomic_order = Some take_profit →
  is_exec_client_registered self = true →
  _exec_client self = Some client →
  _atomic_order_ids self = Dict.empty →
  let entry := AtomicOrder.entry atomic_order in
  let stop_loss := AtomicOrder.stop_loss atomic_order in
  ∃ s1,
    submit_atomic_order atomic_order position_id self = Ok tt s1
    ∧ _entry_orders s1 = Dict.set (Order.id entry) entry (_entry_orders self)
    ∧ _stop_loss_orders s1
      = Dict.set (Order.id stop_loss) stop_loss (_stop_loss_orders self)
    ∧ _take_profit_orders s1
      = Dict.set (Order.id take_profit) take_profit (_take_profit_orders self)
    ∧ _atomic_order_ids s1
      = [(Order.id entry, [Order.id stop_loss; Order.id take_profit])]
    ∧ _modify_order_buffer s1 = _modify_order_buffer self.
Proof.
  intros Htp Hreg Hclient Hatomic entry stop_loss.
  rewrite (submit_atomic_order_eq _ _ _ _ _ Htp Hreg Hclient).
  eexists. split; [done|]. simpl. by rewrite Hatomic.
Qed.

(** X8. An atomic order with entry, stop-loss and take-profit, three
    identifiers not registered before, was submitted on a strategy with a
    registered execution client and an empty parent to children map. The
    cancellation or the expiry of the entry then removes the three orders
    from the registers and empties the map, as its rejection does. The
    [on_event] hook is assumed to leave the ledger alone. *)
Theorem atomic_cancel_or_expiry_cascades (hooks : UserHooks I)
    (atomic_order : AtomicOrder.t) (take_profit : Order.t)
    (position_id : PositionId) (event : Event) (self : TradeStrategy I)
    (client : ExecutionClient.t) :
  let entry := AtomicOrder.entry atomic_order in
  let stop_loss := AtomicOrder.stop_loss atomic_order in
  AtomicOrder.take_profit atomic_order = Some take_profit →
  is_exec_client_registered self = true →
  _exec_client self = Some client →
  NoDup [Order.id entry; Order.id stop_loss; Order.id take_profit] →
  absent (Order.id entry) self →
  absent (Order.id stop_loss) self →
  absent (Order.id take_profit) self →
  _atomic_order_ids self = Dict.empty →
  event ∈ [OrderCancelled (Order.id entry); OrderExpired (Order.id entry)] →
  keeps ledger (on_event event) →
  ∃ s1 s2,
    submit_atomic_order atomic_order position_id self = Ok tt s1
    ∧ handle_event event s1 = Ok tt s2
    ∧ absent (Order.id entry) s2
    ∧ absent (Order.id stop_loss) s2
    ∧ absent (Order.id take_profit) s2
    ∧ registers s2 = registers self
    ∧ _atomic_order_ids s2 = Dict.empty.
Proof.
  intros entry stop_loss Htp Hreg Hclient Hnodup HO1 HO2 HO3 Hatomic Hev
    Hhook.
  pose proof HO1 as HO1'. pose proof HO2 as HO2'. pose proof HO3 as HO3'.
  apply absent_get in HO1 as (HO1e & HO1s & HO1t).
  apply absent_get in HO2 as (HO2e & HO2s & HO2t).
  apply absent_get in HO3 as (HO3e & HO3s & HO3t).
  apply NoDup_cons in Hnodup as [Hn1 Hnodup].
  apply NoDup_cons in Hnodup as [Hn2 _].
  apply not_elem_of_cons in Hn1 as [Hn12 Hn13].
  apply not_elem_of_cons in Hn13 as [Hn13 _].
  apply not_elem_of_cons in Hn2 as [Hn23 _].
  destruct (submitted_atomic_order atomic_order take_profit position_id self
              client Htp Hreg Hclient Hatomic)
    as (s1 & Hsubmit & HE & HS & HT & HA & _).
  fold entry stop_loss in HE, HS, HA. exists s1.
  rewrite (handle_event_cascade _ (Order.id entry)) by done.
  set (s1' := set_trace _ s1).
  destruct (cascade_registers s1' (Order.id entry) (Order.id stop_loss)
              (Order.id take_profit) entry stop_loss take_profit
              (_entry_orders self) (_stop_loss_orders self)
              (_take_profit_orders self))
    as (Hregs & Hat & _); try done.
  set (s3 := remove_registered _ (remove_children _ s1')) in *.
  destruct (returns_call_on_event event s3) as [s2 Hs2].
  assert (ledger s2 = ledger s3) as Hl2.
  { eapply (keeps_ok ledger); [|exact Hs2]. by apply keeps_call_on_event. }
  unfold ledger in Hl2. injection Hl2 as HlE HlS HlT HlA HlM.
  assert (registers s2 = registers self) as Hr2.
  { unfold registers in *. by rewrite HlE, HlS, HlT. }
  exists s2. split_and!; try done.
  - by apply (absent_registers _ self).
  - by apply (absent_registers _ self).
  - by apply (absent_registers _ self).
  - by rewrite HlA.
Qed.

(** X9. In the same situation the fill of the entry removes the entry
    only: the stop-loss and the take-profit stay in their registers, with
    their orders, and the entry of the parent in the parent to children map
    is dropped, so that no later event on the parent reaches them. The
    [on_event] hook is assumed to leave the ledger alone. *)
Theorem atomic_fill_keeps_children (hooks : UserHooks I)
    (atomic_order : AtomicOrder.t) (take_profit : Order.t)
    (position_id : PositionId) (self : TradeStrategy I)
    (client : ExecutionClient.t) :
  let entry := AtomicOrder.entry atomic_order in
  let stop_loss := AtomicOrder.stop_loss atomic_order in
  AtomicOrder.take_profit atomic_order = Some take_profit →
  is_exec_client_registered self = true →
  _exec_client self = Some client →
  absent (Order.id entry) self →
  _atomic_order_ids self = Dict.empty →
  keeps ledger (on_event (OrderFilled (Order.id entry))) →
  ∃ s1 s2,
    submit_atomic_order atomic_order position_id self = Ok tt s1
    ∧ handle_event (OrderFilled (Order.id entry)) s1 = Ok tt s2
    ∧ Dict.mem (Order.id entry) (_entry_orders s2) = false
    ∧ Dict.get (Order.id stop_loss) (_stop_loss_orders s2) = Some stop_loss
    ∧ Dict.get (Order.id take_profit) (_take_profit_orders s2)
      = Some take_profit
    ∧ _atomic_order_ids s2 = Dict.empty.
Proof.
  intros entry stop_loss Htp Hreg Hclient HO1 Hatomic Hhook.
  apply absent_get in HO1 as (HO1e & HO1s & HO1t).
  destruct (submitted_atomic_order atomic_order take_profit position_id self
              client Htp Hreg Hclient Hatomic)
    as (s1 & Hsubmit & HE & HS & HT & HA & _).
  fold entry stop_loss in HE, HS, HA. exists s1.
  rewrite handle_event_filled.
  set (s1' := set_atomic_order_ids _ (set_trace _ s1)).
  assert (remove_registered (Order.id entry) s1'
          = set_entry_orders (_entry_orders self) s1') as Hrm.
  { rewrite remove_registered_entry; simpl; rewrite HE;
      [|by apply dict_mem_set_eq].
    by rewrite dict_del_set_absent. }
  rewrite Hrm.
  match goal with |- ∃ s2, _ ∧ call_on_event _ ?s = _ ∧ _ =>
    set (s3 := s) end.
  destruct (returns_call_on_event (OrderFilled (Order.id entry)) s3)
    as [s2 Hs2].
  assert (ledger s2 = ledger s3) as Hl2.
  { eapply (keeps_ok ledger); [|exact Hs2]. by apply keeps_call_on_event. }
  unfold ledger in Hl2. injection Hl2 as HlE HlS HlT HlA HlM.
  exists s2. split_and!; try done.
  - rewrite HlE. simpl. by apply dict_mem_false.
  - rewrite HlS. simpl. by rewrite HS, dict_get_set_eq.
  - rewrite HlT. simpl. by rewrite HT, dict_get_set_eq.
  - rewrite HlA. simpl. rewrite HA. simpl. by rewrite decide_True.
Qed.

End AtomicEvents.

(** ** The rejection of a stop-loss *)

Section StopLossRejection.
Context {I : Type} `{Indicator I} `{OrderSideEnum}.

Local Abbreviation Method := (M (TradeStrategy I)).

(** What [handle_event] does after the flatten step of a rejection. *)
Lemma rejected_after_flatten `{UserHooks I} order_id
    (self s1 : TradeStrategy I) :
  keeps sent (on_event (OrderRejected order_id)) →
  flatten_on_reject order_id
    (logged (LogWarning [Fmt (ObjEvent (OrderRejected order_id))]) self)
  = Ok tt s1 →
  ∃ s', handle_event (OrderRejected order_id) self = Ok tt s'
        ∧ sent s' = sent s1.
Proof.
  intros Hhook Hflat. rewrite handle_event_rejected.
  unfold mbind, M_bind at 1. unfold log_warning, emit, modify.
  unfold logged in Hflat. unfold mbind, M_bind. rewrite Hflat. simpl.
  match goal with |- ∃ s', call_on_event _ ?s = _ ∧ _ =>
    destruct (returns_call_on_event (OrderRejected order_id) s) as [s' Hs'];
    exists s'; split; [exact Hs'|];
    rewrite (keeps_ok sent _ _ _ _ (keeps_sent_call_on_event _ Hhook) Hs')
  end.
  unfold sent. by rewrite trace_remove_registered, trace_remove_children.
Qed.

Lemma sent_dropped ex (self : TradeStrategy I) :
  sent (dropped ex self) = sent self.
Proof.
  unfold sent, dropped, commands_of. simpl. rewrite omap_app. simpl.
  by rewrite app_nil_r.
Qed.

(** X10. The rejection of an order, with execution client and portfolio
    registered and a position known for the order. A market order closing
    that position is sent exactly when the order is in the stop-loss
    register, [flatten_on_sl_reject] is set, the position is entered and
    the position held under its identifier is not flat; in every other case
    nothing is sent and [handle_event] returns all the same. So it is when
    the flatten is due and the portfolio holds no position under that
    identifier: the error of the lookup does not leave [flatten_position].
    The [on_event] hook is assumed to send nothing. *)
Theorem stop_loss_rejection_flattens (hooks : UserHooks I)
    (order_id : OrderId) (self : TradeStrategy I)
    (client : ExecutionClient.t) (p : Portfolio.t) (position : Position.t) :
  is_exec_client_registered self = true →
  _exec_client self = Some client →
  _portfolio self = Some p →
  Dict.get order_id (Portfolio.position_for_order p) = Some position →
  keeps sent (on_event (OrderRejected order_id)) →
  let due :=
    Dict.mem order_id (_stop_loss_orders self) && flatten_on_sl_reject self
    && Position.is_entered position in
  match Dict.get (Position.id position) (Portfolio.positions p) with
  | Some held =>
      ∃ s', handle_event (OrderRejected order_id) self = Ok tt s'
            ∧ sent s'
              = sent self
                  ++ (if due && negb (Position.is_flat held) then
                        [SubmitOrder (trader_id self) (id self)
                           (Position.id position)
                           (OrderFactory.market (Clock.time_now (clock self))
                              (Position.symbol held)
                              (closing_side (Position.market_position held))
                              (Position.quantity held) "EXIT"
                              (order_factory self)).1
                           (_guid_factory self) (Clock.time_now (clock self))]
                      else [])
  | None =>
      ∃ s', handle_event (OrderRejected order_id) self = Ok tt s'
            ∧ sent s' = sent self
  end.
Proof.
  intros Hreg Hclient Hp Hpos Hhook due.
  set (s0 := logged (LogWarning [Fmt (ObjEvent (OrderRejected order_id))])
               self).
  assert (sent s0 = sent self) as Hs0 by apply sent_log.
  assert (due = false → flatten_on_reject order_id s0 = Ok tt s0) as Hnot.
  { unfold due, flatten_on_reject, get_position_for_order, portfolio,
      attribute_of.
    intros Hdue. run.
    destruct (Dict.mem order_id (_stop_loss_orders self)
              && flatten_on_sl_reject self); simpl in *; [|done].
    rewrite Hp. simpl. rewrite Hpos. simpl.
    by destruct (Position.is_entered position). }
  assert (due = true →
          flatten_on_reject order_id s0
          = flatten_position (Position.id position) s0) as Hdue.
  { unfold due, flatten_on_reject, get_position_for_order, portfolio,
      attribute_of.
    intros Hdue. run.
    apply andb_prop in Hdue as [-> Hentered]. simpl.
    rewrite Hp. simpl. rewrite Hpos. simpl. by rewrite Hentered. }
  destruct (Dict.get (Position.id position) (Portfolio.positions p))
    as [held|] eqn:Hheld.
  - destruct due eqn:Hd; simpl.
    + specialize (Hdue eq_refl).
      destruct (Position.is_flat held) eqn:Hflat; simpl.
      * assert (flatten_position (Position.id position) s0
                = Ok tt
                    (logged
                       (LogWarning
                          [Lit "Cannot flatten position (the position ";
                           Fmt (ObjId (Position.id position));
                           Lit " was already FLAT)."]) s0)) as Heq.
        { unfold flatten_position, get_position, portfolio.
          run. rewrite Hreg. simpl. rewrite Hp. simpl. rewrite Hheld. simpl.
          by rewrite Hflat. }
        rewrite <-Hdue in Heq.
        destruct (rejected_after_flatten order_id self _ Hhook Heq)
          as (s' & Hs' & Hsent).
        exists s'. split; [done|]. rewrite Hsent, app_nil_r.
        unfold sent, commands_of. simpl. rewrite !omap_app. simpl.
        by rewrite !app_nil_r.
      * pose proof (flatten_position_eq (Position.id position) s0 client p
                      held Hreg Hclient Hp Hheld Hflat) as Heq.
        simpl in Heq. rewrite <-Hdue in Heq.
        destruct (rejected_after_flatten order_id self _ Hhook Heq)
          as (s' & Hs' & Hsent).
        exists s'. split; [done|]. rewrite Hsent.
        unfold sent, commands_of. simpl. rewrite !omap_app. simpl.
        by rewrite !app_nil_r.
    + destruct (rejected_after_flatten order_id self s0 Hhook (Hnot eq_refl))
        as (s' & Hs' & Hsent).
      exists s'. split; [done|]. by rewrite Hsent, Hs0, app_nil_r.
  - destruct due eqn:Hd.
    + specialize (Hdue eq_refl).
      assert (flatten_position (Position.id position) s0
              = Ok tt (dropped (ValueError "position not found") s0)) as Heq.
      { unfold flatten_position, get_position, portfolio.
        run. rewrite Hreg. simpl. rewrite Hp. simpl. by rewrite Hheld. }
      rewrite <-Hdue in Heq.
      destruct (rejected_after_flatten order_id self _ Hhook Heq)
        as (s' & Hs' & Hsent).
      exists s'. split; [done|]. by rewrite Hsent, sent_dropped, Hs0.
    + destruct (rejected_after_flatten order_id self s0 Hhook (Hnot eq_refl))
        as (s' & Hs' & Hsent).
      exists s'. split; [done|]. by rewrite Hsent, Hs0.
Qed.

End StopLossRejection.

(** ** Coalesced modifications *)

Section ModifyTwice.
Context {I : Type} `{Indicator I} `{OrderSideEnum}.

Local Abbreviation Method := (M (TradeStrategy I)).

Lemma modify_order_eq order new_price (self : TradeStrategy I) client :
  is_exec_client_registered self = true →
  _exec_client self = Some client →
  let command :=
    {| ModifyOrder.trader_id := trader_id self;
       ModifyOrder.strategy_id := id self;
       ModifyOrder.order_id := Order.id order;
       ModifyOrder.modified_price := new_price;
       ModifyOrder.command_id := _guid_factory self;
       ModifyOrder.command_timestamp := Clock.time_now (clock self) |} in
  modify_order order new_price self
  = Ok tt
      (set_trace
         (trace self
            ++ (if Dict.mem (Order.id order) (_modify_order_buffer self) then
                  [Logged (LogWarning [Lit "Buffering ModifyOrder command for ";
                                       Fmt (ObjOrder order);
                                       Lit " with new price ";
                                       Fmt (ObjPrice new_price)])]
                else
                  [Logged (LogInfo [Lit "Modifying "; Fmt (ObjOrder order);
                                    Lit " with new price ";
                                    Fmt (ObjPrice new_price)]);
                   Executed (ModifyOrderCmd command)]))
         (set_modify_order_buffer
            (Dict.set (Order.id order) command (_modify_order_buffer self))
            (set_guid_factory (S (_guid_factory self)) self))).
Proof.
  intros Hreg Hclient command.
  unfold modify_order, execute_command, exec_client. run.
  rewrite Hreg. simpl. fold command.
  destruct (Dict.mem _ _); simpl; [done|].
  rewrite Hclient. simpl. by rewrite <-app_assoc.
Qed.

Lemma handle_event_modified `{UserHooks I} order_id
    (self : TradeStrategy I) client buffered current :
  _exec_client self = Some client →
  Dict.get order_id (_modify_order_buffer self) = Some buffered →
  Dict.get order_id (ExecutionClient.orders client) = Some current →
  handle_event (OrderModified order_id) self
  = call_on_event (OrderModified order_id)
      (set_modify_order_buffer (Dict.del order_id (_modify_order_buffer self))
         (set_trace
            (trace self
               ++ [Logged (LogInfo [Fmt (ObjEvent (OrderModified order_id))])]
               ++ (if bool_decide (Some (ModifyOrder.modified_price buffered)
                                   ≠ Order.price current) then
                     [Logged (LogInfo
                        [Lit "Modifying ";
                         Fmt (ObjId (ModifyOrder.order_id buffered));
                         Lit " with price ";
                         Fmt (ObjPrice (ModifyOrder.modified_price buffered))]);
                      Executed (ModifyOrderCmd buffered)]
                   else []))
            self)).
Proof.
  intros Hclient Hbuf Hcur.
  assert (Dict.mem order_id (_modify_order_buffer self) = true) as Hmem.
  { apply dict_mem_true. by eexists. }
  unfold handle_event, call_on_event, _process_modify_order_buffer,
    get_order, execute_command, exec_client. run.
  rewrite Hmem. simpl. rewrite Hbuf. simpl. rewrite Hclient. simpl.
  rewrite Hcur. simpl.
  destruct (bool_decide _); simpl; rewrite ?Hclient; simpl;
    rewrite <-?app_assoc; simpl; rewrite ?app_nil_r; done.
Qed.

(** X11. Two modifications of an order in a row, none pending before and
    the execution client registered: only the first command is sent, the
    second replaces it in the buffer under the next GUID and a warning is
    logged. When the modification is then acknowledged, the buffered second
    command is sent exactly when its price differs from the price of the
    order on the execution client, and the buffer holds nothing for the
    order afterwards. The [on_event] hook is assumed to send nothing and to
    leave the buffer alone. *)
Theorem modify_twice_then_acknowledge (hooks : UserHooks I)
    (order current : Order.t) (p1 p2 : Price) (self : TradeStrategy I)
    (client : ExecutionClient.t) :
  is_exec_client_registered self = true →
  _exec_client self = Some client →
  Dict.mem (Order.id order) (_modify_order_buffer self) = false →
  Dict.get (Order.id order) (ExecutionClient.orders client) = Some current →
  keeps sent (on_event (OrderModified (Order.id order))) →
  keeps _modify_order_buffer (on_event (OrderModified (Order.id order))) →
  let command price guid :=
    {| ModifyOrder.trader_id := trader_id self;
       ModifyOrder.strategy_id := id self;
       ModifyOrder.order_id := Order.id order;
       ModifyOrder.modified_price := price;
       ModifyOrder.command_id := guid;
       ModifyOrder.command_timestamp := Clock.time_now (clock self) |} in
  ∃ s2 s3,
    (modify_order order p1 ;; modify_order order p2) self = Ok tt s2
    ∧ sent s2 = sent self ++ [ModifyOrderCmd (command p1 (_guid_factory self))]
    ∧ Dict.get (Order.id order) (_modify_order_buffer s2)
      = Some (command p2 (S (_guid_factory self)))
    ∧ handle_event (OrderModified (Order.id order)) s2 = Ok tt s3
    ∧ sent s3
      = sent s2
          ++ (if bool_decide (Some p2 ≠ Order.price current) then
                [ModifyOrderCmd (command p2 (S (_guid_factory self)))]
              else [])
    ∧ Dict.mem (Order.id order) (_modify_order_buffer s3) = false.
Proof.
  intros Hreg Hclient Hfresh Hcur Hsent Hbuffer command.
  pose proof (modify_order_eq order p1 self client Hreg Hclient) as H1.
  simpl in H1. rewrite Hfresh in H1.
  match type of H1 with _ = Ok tt ?s => set (s1 := s) in * end.
  pose proof (modify_order_eq order p2 s1 client Hreg Hclient) as H2.
  simpl in H2. rewrite dict_mem_set_eq, dict_set_set in H2.
  match type of H2 with _ = Ok tt ?s => set (s2 := s) in * end.
  assert (Dict.get (Order.id order) (_modify_order_buffer s2)
          = Some (command p2 (S (_guid_factory self)))) as Hget.
  { simpl. by rewrite dict_get_set_eq. }
  pose proof (handle_event_modified (Order.id order) s2 client _ current
                Hclient Hget Hcur) as Hev.
  match type of Hev with _ = call_on_event _ ?s => set (s3 := s) in * end.
  destruct (returns_call_on_event (OrderModified (Order.id order)) s3)
    as [s4 Hs4].
  exists s2, s4. split_and!.
  - unfold mbind, M_bind. by rewrite H1.
  - unfold sent, commands_of. simpl. rewrite !omap_app. simpl.
    by rewrite app_nil_r.
  - done.
  - by rewrite Hev.
  - rewrite (keeps_ok sent _ _ _ _ (keeps_sent_call_on_event _ Hsent) Hs4).
    unfold sent, commands_of. simpl. rewrite !omap_app. simpl.
    destruct (bool_decide _); simpl; by rewrite ?app_nil_r.
  - rewrite (keeps_ok _modify_order_buffer _ _ _ _
               (keeps_call_on_event _modify_order_buffer (λ _ _, eq_refl) _
                  Hbuffer) Hs4).
    simpl. apply dict_mem_del_eq.
Qed.

End ModifyTwice.

(** ** The caches *)

Section Caches.
Context {I : Type} `{Indicator I} `{OrderSideEnum}.

Local Abbreviation Method := (M (TradeStrategy I)).

Lemma handle_tick_ticks `{UserHooks I} tick (self : TradeStrategy I) :
  keeps _ticks (on_tick tick) →
  _ticks (state_of (handle_tick tick self))
  = Dict.set (Tick.symbol tick) tick (_ticks self).
Proof.
  intros Hhook. unfold handle_tick. run.
  destruct (is_running self); simpl; [|done].
  by rewrite (keeps_guarded _ticks (λ _ _, eq_refl) _ Hhook).
Qed.

Lemma deliver_ticks_snoc `{UserHooks I} ticks tick (self : TradeStrategy I) :
  deliver_ticks (ticks ++ [tick]) self
  = state_of (handle_tick tick (deliver_ticks ticks self)).
Proof. unfold deliver_ticks. by rewrite foldl_app. Qed.

Lemma deliver_ticks_get `{UserHooks I} ticks symbol (self : TradeStrategy I) :
  (∀ tick, keeps _ticks (on_tick tick)) →
  Dict.get symbol (_ticks (deliver_ticks ticks self))
  = from_option Some (Dict.get symbol (_ticks self)) (last_of symbol ticks).
Proof.
  intros Hhook. induction ticks as [|tick ticks IH] using rev_ind; [done|].
  rewrite deliver_ticks_snoc, handle_tick_ticks, dict_get_set, IH by done.
  unfold last_of. rewrite filter_app.
  case_decide as Hsym.
  - rewrite filter_cons_True, filter_nil by done. by rewrite last_snoc.
  - rewrite filter_cons_False, filter_nil by done. by rewrite app_nil_r.
Qed.

(** X12. After any sequence of ticks, the tick cached for a symbol is the
    last delivered tick of that symbol, or the one cached before when none
    was delivered; [last_tick] returns it, and fails its precondition for a
    symbol that never had a tick. The [on_tick] hook is assumed to leave
    the tick cache alone. *)
Theorem last_tick_is_latest (hooks : UserHooks I) (ticks : list Tick.t)
    (symbol : Symbol) (self : TradeStrategy I) :
  (∀ tick, keeps _ticks (on_tick tick)) →
  let self' := deliver_ticks ticks self in
  let latest :=
    from_option Some (Dict.get symbol (_ticks self)) (last_of symbol ticks) in
  Dict.get symbol (_ticks self') = latest
  ∧ last_tick symbol self'
    = match latest with
      | Some tick => Ok tick self'
      | None => Raise (ValueError "symbol") self'
      end.
Proof.
  intros Hhook self' latest.
  assert (Dict.get symbol (_ticks self') = latest) as Hget
    by by apply deliver_ticks_get.
  split; [done|]. unfold last_tick, Precondition_is_in. run.
  unfold Dict.mem. rewrite Hget.
  by destruct latest.
Qed.

(** X13. [bar] reads the cache of [bars]: for a bar type with a cache,
    [bar] at an index that is not negative returns the bar of [bars] at that
    index, the newest at index 0, and fails with an [IndexError] past the
    end; a negative index is refused with a [ValueError], and so is a bar
    type without cache, by [bar], [bars] and [last_bar] alike; [last_bar] is
    [bar] at index 0. The index is a C integer. *)
Theorem bar_indexes_bars (bar_type : BarType.t) (index : Z)
    (self : TradeStrategy I) :
  c_int index →
  (Dict.mem bar_type (_bars self) = false →
   bars bar_type self = Raise (ValueError "bar_type") self
   ∧ bar bar_type index self = Raise (ValueError "bar_type") self
   ∧ last_bar bar_type self = Raise (ValueError "bar_type") self)
  ∧ (Dict.mem bar_type (_bars self) = true →
     ∃ l, bars bar_type self = Ok l self
          ∧ (index < 0 →
             bar bar_type index self = Raise (ValueError "index") self)
          ∧ (0 ≤ index →
             bar bar_type index self
             = match l !! Z.to_nat index with
               | Some b => Ok b self
               | None => Raise (IndexError "deque index out of range") self
               end))
  ∧ last_bar bar_type self = bar bar_type 0 self.
Proof.
  intros _. split_and!.
  - intros Hmem. unfold bars, bar, last_bar, Precondition_is_in. run.
    by rewrite Hmem.
  - intros Hmem. pose proof Hmem as Hget.
    apply dict_mem_true in Hget as [d Hd]. exists (Deque.to_list d).
    unfold bars, bar, Precondition_is_in, Precondition_not_negative. run.
    rewrite Hmem. simpl. rewrite Hd. split_and!; [done| |].
    + intros Hneg. destruct (Z.leb_spec 0 index); [lia|done].
    + intros Hpos. destruct (Z.leb_spec 0 index); [|lia]. simpl.
      by destruct (_ !! _).
  - unfold bar, last_bar, Precondition_is_in, Precondition_not_negative. run.
    by destruct (Dict.mem bar_type (_bars self)).
Qed.

(** The maps of the indicators, the heap and the capacity: what a bar may
    change of them is the heap, by the updaters of its bar type. *)
Lemma handle_bar_heap `{UserHooks I} bar_type bar (self : TradeStrategy I) :
  keeps (λ s, (heap s, _indicators s, _indicator_updaters s, bar_capacity s))
    (on_bar bar_type bar) →
  0 ≤ bar_capacity self →
  indicators_aligned self →
  let self' := state_of (handle_bar bar_type bar self) in
  heap self'
  = (if Dict.mem bar_type (_indicators self) then
       feed bar (default [] (Dict.get bar_type (_indicator_updaters self)))
         (heap self)
     else heap self)
  ∧ _indicators self' = _indicators self
  ∧ _indicator_updaters self' = _indicator_updaters self
  ∧ bar_capacity self' = bar_capacity self.
Proof.
  intros Hhook Hcap Hal self'. unfold self'.
  set (view := λ s : TradeStrategy I,
         (heap s, _indicators s, _indicator_updaters s, bar_capacity s)).
  rewrite handle_bar_fed; [|done|].
  2:{ intros Hmem. destruct (Hal bar_type) as [Hmap Hrefs].
      apply dict_mem_true in Hmem as [l Hl]. rewrite Hl in Hmap, Hrefs.
      destruct (Dict.get bar_type (_indicator_updaters self)) as [us|];
        [|done].
      simpl in *. injection Hmap as <-. exists us. split; [done|].
      by apply Forall_fmap in Hrefs. }
  cbv zeta. match goal with |- context [guarded _ ?s] => set (fed := s) end.
  assert (view (state_of (if is_running self
                          then guarded (on_bar bar_type bar) fed
                          else Ok tt fed)) = view fed) as Hview.
  { destruct (is_running self); [|done].
    exact (keeps_guarded view (λ _ _, eq_refl) _ Hhook fed). }
  unfold view in Hview. by injection Hview as -> -> -> ->.
Qed.

Lemma indicators_aligned_heap (self self' : TradeStrategy I) :
  indicators_aligned self →
  _indicators self' = _indicators self →
  _indicator_updaters self' = _indicator_updaters self →
  length (heap self') = length (heap self) →
  indicators_aligned self'.
Proof.
  intros Hal Hi Hu Hlen bar_type. rewrite Hi, Hu, Hlen. apply Hal.
Qed.

Lemma feed_lookup_other (bar : Bar.t) (us : list (IndicatorUpdater.t I))
    (r : IndicatorRef) : ∀ h : list I,
  (∀ u, u ∈ us → IndicatorUpdater.indicator u ≠ r) →
  feed bar us h !! r = h !! r.
Proof.
  unfold feed. induction us as [|u us IH]; intros h Hne; simpl; [done|].
  rewrite IH by (intros; apply Hne; by right).
  apply list_lookup_alter_ne. apply Hne. by left.
Qed.

Lemma deliver_heap `{UserHooks I} calls : ∀ self : TradeStrategy I,
  (∀ bar_type bar,
     keeps (λ s, (heap s, _indicators s, _indicator_updaters s,
                  bar_capacity s))
       (on_bar bar_type bar)) →
  0 ≤ bar_capacity self →
  indicators_aligned self →
  heap (deliver calls self) = feed_all self calls (heap self).
Proof.
  induction calls as [|[bt b] calls IH]; intros self Hhook Hcap Hal;
    [done|].
  simpl.
  destruct (handle_bar_heap bt b self (Hhook bt b) Hcap Hal)
    as (Hheap & Hi & Hu & Hc).
  rewrite IH; [|done|by rewrite Hc|].
  - rewrite Hheap. unfold feed_all. rewrite Hi, Hu. done.
  - apply (indicators_aligned_heap self); [done..|].
    rewrite Hheap. destruct (Dict.mem _ _); [|done]. apply feed_length.
Qed.

(** X14. Every delivered bar is fed once to each updater registered for
    its bar type, in the order of registration, and to no other: the heap
    of indicators after the deliveries is the heap before with these
    updates applied in the order of delivery, whether the strategy runs or
    not. An indicator bound to none of the delivered bar types is as it
    was. The updaters are bound to the registered indicators, these are in
    the heap, and the [on_bar] hook is assumed to leave them alone. *)
Theorem delivered_bars_feed_indicators (hooks : UserHooks I)
    (calls : list (BarType.t * Bar.t)) (self : TradeStrategy I) :
  (∀ bar_type bar,
     keeps (λ s, (heap s, _indicators s, _indicator_updaters s,
                  bar_capacity s))
       (on_bar bar_type bar)) →
  0 ≤ bar_capacity self →
  indicators_aligned self →
  heap (deliver calls self) = feed_all self calls (heap self)
  ∧ length (heap (deliver calls self)) = length (heap self)
  ∧ (∀ r,
       (∀ bar_type us u,
          bar_type ∈ calls.*1 →
          Dict.get bar_type (_indicator_updaters self) = Some us →
          u ∈ us → IndicatorUpdater.indicator u ≠ r) →
       heap (deliver calls self) !! r = heap self !! r).
Proof.
  intros Hhook Hcap Hal.
  rewrite (deliver_heap calls self Hhook Hcap Hal).
  split; [done|]. split.
  - unfold feed_all. generalize (heap self).
    induction calls as [|[bt b] calls IH]; intros h; simpl; [done|].
    rewrite IH. destruct (Dict.mem _ _); [|done]. apply feed_length.
  - intros r Hother. unfold feed_all. generalize (heap self).
    induction calls as [|[bt b] calls IH]; intros h; simpl; [done|].
    rewrite IH.
    + destruct (Dict.mem bt (_indicators self)); [|done].
      apply feed_lookup_other. intros u Hu.
      destruct (Dict.get bt (_indicator_updaters self)) as [us|] eqn:Hus;
        [|by apply elem_of_nil in Hu].
      apply (Hother bt us u); [by left|done..].
    + intros bt' us u Hbt'. apply Hother. by right.
Qed.

(** X15. After a [reset] that was not refused the caches are empty:
    [bars], [last_bar] and [last_tick] fail their precondition for every bar
    type and symbol until new data arrives, while the registered indicators
    stay registered. The [on_reset] hook is assumed to leave the caches and
    the registrations alone. *)
Theorem reset_empties_caches (hooks : UserHooks I) (bar_type : BarType.t)
    (symbol : Symbol) (self : TradeStrategy I) :
  is_running self = false →
  heap_ok self →
  keeps (λ s, (_bars s, _ticks s, _indicators s, _indicator_updaters s))
    on_reset →
  ∃ s',
    reset self = Ok tt s'
    ∧ bars bar_type s' = Raise (ValueError "bar_type") s'
    ∧ last_bar bar_type s' = Raise (ValueError "bar_type") s'
    ∧ last_tick symbol s' = Raise (ValueError "symbol") s'
    ∧ _indicators s' = _indicators self
    ∧ _indicator_updaters s' = _indicator_updaters self.
Proof.
  intros Hrun Hok Hhook.
  set (view := λ s : TradeStrategy I,
         (_bars s, _ticks s, _indicators s, _indicator_updaters s)).
  rewrite reset_cleared by done.
  match goal with |- context [_ ?s = Ok tt _] => set (s0 := s) end.
  destruct (guarded_returns on_reset s0 on_reset_comes_back) as [s1 Hs1].
  unfold mbind, M_bind. rewrite Hs1.
  assert (view s1 = view s0) as Hkept.
  { eapply (keeps_ok view); [|exact Hs1]. by apply keeps_guarded. }
  unfold view in Hkept. simpl in Hkept. injection Hkept as Hb Ht Hi Hu.
  eexists. split; [done|].
  unfold bars, last_bar, last_tick, Precondition_is_in. run.
  by rewrite Hb, Ht.
Qed.

End Caches.

(** ** The registration of indicators *)

Section Indicators.
Context {I : Type} `{Indicator I} `{OrderSideEnum}.

Local Abbreviation Method := (M (TradeStrategy I)).

Lemma register_indicator_eq bar_type r f (self : TradeStrategy I) :
  register_indicator bar_type r f self
  = Ok tt
      (set_indicator_updaters
         (Dict.set bar_type
            (default [] (Dict.get bar_type (_indicator_updaters self))
               ++ [{| IndicatorUpdater.indicator := r;
                      IndicatorUpdater.update_method := f |}])
            (_indicator_updaters self))
         (set_indicators
            (Dict.set bar_type
               (default [] (Dict.get bar_type (_indicators self)) ++ [r])
               (_indicators self))
            self)).
Proof.
  unfold register_indicator. run.
  destruct (Dict.mem bar_type (_indicators self)) eqn:Hi; simpl.
  - apply dict_mem_true in Hi as [l Hl]. rewrite Hl. simpl.
    destruct (Dict.mem bar_type (_indicator_updaters self)) eqn:Hu; simpl.
    + apply dict_mem_true in Hu as [us Hus]. rewrite Hus. done.
    + rewrite dict_get_set_eq. simpl. apply dict_mem_false in Hu.
      rewrite Hu. simpl. by rewrite dict_set_set.
  - rewrite dict_get_set_eq. simpl. apply dict_mem_false in Hi.
    rewrite Hi. simpl. rewrite dict_set_set.
    destruct (Dict.mem bar_type (_indicator_updaters self)) eqn:Hu; simpl.
    + apply dict_mem_true in Hu as [us Hus]. rewrite Hus. done.
    + rewrite dict_get_set_eq. simpl. apply dict_mem_false in Hu.
      rewrite Hu. simpl. by rewrite dict_set_set.
Qed.

Lemma indicators_aligned_empty (self : TradeStrategy I) :
  _indicators self = Dict.empty →
  _indicator_updaters self = Dict.empty →
  indicators_aligned self.
Proof. intros Hi Hu bt. rewrite Hi, Hu. simpl. split; [done|constructor]. Qed.

Lemma register_indicator_aligned bar_type r f (self : TradeStrategy I) :
  indicators_aligned self →
  (r < length (heap self))%nat →
  indicators_aligned (state_of (register_indicator bar_type r f self)).
Proof.
  intros Hal Hr. rewrite register_indicator_eq. simpl.
  destruct (Hal bar_type) as [Hmap Hrefs].
  assert (IndicatorUpdater.indicator
            <$> default [] (Dict.get bar_type (_indicator_updaters self))
          = default [] (Dict.get bar_type (_indicators self))) as Hbefore.
  { rewrite <-Hmap.
    by destruct (Dict.get bar_type (_indicator_updaters self)). }
  intros bt. simpl. rewrite !dict_get_set.
  case_decide as Hbt.
  - subst bt. simpl. rewrite fmap_app, Hbefore. split; [done|].
    apply Forall_app. split; [done|]. by constructor.
  - apply Hal.
Qed.

(** X16. [register_indicator] always returns. The indicator goes last in
    the list of its bar type, as [indicators] then shows, and an updater
    bound to it goes last among the updaters of the bar type; the lists of
    the other bar types are as they were, and no indicator is registered
    twice over by the engine: a second registration adds a second entry.
    The two maps stay aligned: each updater is bound to the indicator at
    the same place, which is what [handle_bar] relies on. *)
Theorem register_indicator_appends (bar_type : BarType.t) (r : IndicatorRef)
    (f : Bar.t → I → I) (self : TradeStrategy I) :
  indicators_aligned self →
  (r < length (heap self))%nat →
  let before := default [] (Dict.get bar_type (_indicators self)) in
  ∃ s',
    register_indicator bar_type r f self = Ok tt s'
    ∧ indicators bar_type s' = Ok (before ++ [r]) s'
    ∧ (∃ us, Dict.get bar_type (_indicator_updaters s') = Some us
             ∧ length us = S (length before)
             ∧ last us = Some {| IndicatorUpdater.indicator := r;
                                 IndicatorUpdater.update_method := f |})
    ∧ (∀ bt, bt ≠ bar_type →
         Dict.get bt (_indicators s') = Dict.get bt (_indicators self)
         ∧ Dict.get bt (_indicator_updaters s')
           = Dict.get bt (_indicator_updaters self))
    ∧ heap s' = heap self
    ∧ indicators_aligned s'.
Proof.
  intros Hal Hr before. rewrite register_indicator_eq.
  eexists. split; [done|]. simpl.
  destruct (Hal bar_type) as [Hmap Hrefs]. fold before in Hrefs.
  assert (IndicatorUpdater.indicator
            <$> default [] (Dict.get bar_type (_indicator_updaters self))
          = before) as Hbefore.
  { unfold before. rewrite <-Hmap.
    by destruct (Dict.get bar_type (_indicator_updaters self)). }
  split_and!.
  - unfold indicators, Precondition_is_in. run.
    by rewrite dict_mem_set_eq, dict_get_set_eq.
  - eexists. split; [by rewrite dict_get_set_eq|]. split.
    + rewrite length_app, <-Hbefore, length_fmap. simpl. lia.
    + by rewrite last_snoc.
  - intros bt Hne. by rewrite !dict_get_set_ne.
  - done.
  - pose proof (register_indicator_aligned bar_type r f self Hal Hr) as Hal'.
    by rewrite register_indicator_eq in Hal'.
Qed.

Lemma dict_get_items {K V} `{EqDecision K} (k : K) (v : V) (d : Dict.t K V) :
  Dict.get k d = Some v → (k, v) ∈ Dict.items d.
Proof.
  unfold Dict.items. induction d as [|[k0 v0] d IH]; simpl; [done|].
  case_decide.
  - intros [= ->]. subst. by left.
  - intros. right. by apply IH.
Qed.

(** X17. [indicators_initialized] for a bar type with registered
    indicators returns true exactly when each of them reports initialized,
    and it does whenever [indicators_initialized_all] returns true;
    [indicators] returns the list of the bar type. For a bar type without
    one [indicators] fails its precondition with a [ValueError], while
    [indicators_initialized], whose result is a C truth value, drops the
    same error and answers false. *)
Theorem indicators_initialized_per_bar_type (bar_type : BarType.t)
    (self : TradeStrategy I) :
  heap_ok self →
  match Dict.get bar_type (_indicators self) with
  | Some l =>
      indicators bar_type self = Ok l self
      ∧ ∃ b,
          indicators_initialized bar_type self = Ok b self
          ∧ (b = true ↔
             ∀ r i, r ∈ l → heap self !! r = Some i → initialized i = true)
          ∧ (indicators_initialized_all self = Ok true self → b = true)
  | None =>
      indicators bar_type self = Raise (ValueError "bar_type") self
      ∧ indicators_initialized bar_type self
        = Ok false (dropped (ValueError "bar_type") self)
  end.
Proof.
  intros Hok.
  destruct (Dict.get bar_type (_indicators self)) as [l|] eqn:Hl.
  - assert (Dict.mem bar_type (_indicators self) = true) as Hmem.
    { apply dict_mem_true. by eexists. }
    assert ((bar_type, l) ∈ Dict.items (_indicators self)) as Hin
      by by apply dict_get_items.
    assert (l ∈ Dict.values (_indicators self)) as Hval.
    { unfold Dict.values. apply list_elem_of_fmap. by exists (bar_type, l). }
    assert (Forall (λ r, r < length (heap self))%nat l) as Hrefs.
    { unfold heap_ok in Hok. rewrite Forall_forall in Hok. by apply Hok. }
    split.
    { unfold indicators, Precondition_is_in. run. by rewrite Hmem, Hl. }
    eexists. split_and!.
    + unfold indicators_initialized, Precondition_is_in. run.
      rewrite Hmem. simpl. rewrite Hl.
      by rewrite all_initialized_ok.
    + rewrite forallb_forall. split.
      * intros Hall r i Hr Hi. apply list_elem_of_In in Hr.
        specialize (Hall r Hr). by rewrite Hi in Hall.
      * intros Hall r Hr. apply list_elem_of_In in Hr.
        destruct (heap self !! r) as [i|] eqn:Hi; simpl; [|done]. eauto.
    + unfold indicators_initialized_all. run.
      rewrite all_lists_initialized_ok by done. intros [= Hall].
      rewrite forallb_forall in Hall. apply Hall.
      by apply list_elem_of_In.
  - assert (Dict.mem bar_type (_indicators self) = false) as Hmem
      by by apply dict_mem_false.
    unfold indicators, indicators_initialized, Precondition_is_in. run.
    by rewrite Hmem.
Qed.

End Indicators.

(** ** Identifiers across generators and resets *)

Module IdentifierGeneratorMore.
Import IdentifierGenerator.

Lemma generate_all_generator times : ∀ g,
  (generate_all times g).2 = with_counter (counter g + length times) g.
Proof.
  induction times as [|t times IH]; intros g; simpl.
  - rewrite Nat.add_0_r. by destruct g.
  - specialize (IH (with_counter (counter g + 1) g)).
    destruct (generate_all times _) as [xs g'']. simpl in *. rewrite IH.
    unfold with_counter. simpl. f_equal. lia.
Qed.

(** X18. An order identifier is never a position identifier: the
    generators built by [OrderIdGenerator] and [PositionIdGenerator] carry
    the prefixes O and P, [_generate] and [reset] keep the prefix, and two
    identifiers under these prefixes differ whatever the tags, the clock
    readings and the counters are. *)
Theorem order_and_position_identifiers_differ :
  (∀ trader strategy,
     prefix (OrderIdGenerator.new trader strategy) = "O"
     ∧ prefix (PositionIdGenerator.new trader strategy) = "P")
  ∧ (∀ g now,
       prefix (_generate now g).2 = prefix g
       ∧ prefix (reset g) = prefix g)
  ∧ (∀ orders positions now now',
       prefix orders = "O" → prefix positions = "P" →
       (OrderIdGenerator.generate now orders).1
       ≠ (PositionIdGenerator.generate now' positions).1).
Proof.
  split_and!; [done|done|].
  intros orders positions now now' HO HP.
  unfold OrderIdGenerator.generate, PositionIdGenerator.generate, _generate,
    identifier. simpl. rewrite HO, HP.
  rewrite !IdentifierGeneratorFacts.append_cons. by intros [=].
Qed.

(** X19. Identifiers are distinct between two resets only: after any run
    of calls, [reset] makes the next identifier the one with counter 1, so
    that a generator started at zero gives its first identifier again when
    the clock reads the same as it did then. *)
Theorem reset_restarts_identifiers (g : t) (now : datetime)
    (times : list datetime) :
  let run := generate_all (now :: times) g in
  (_generate now (reset run.2)).1 = identifier g now 1
  ∧ (counter g = 0%nat →
     run.1 !! 0%nat = Some (_generate now (reset run.2)).1).
Proof.
  intros run. unfold run. rewrite generate_all_generator.
  split; [done|]. intros Hzero.
  rewrite (IdentifierGeneratorFacts.generate_all_lookup _ _ 0%nat now)
    by done.
  by rewrite Hzero.
Qed.

End IdentifierGeneratorMore.

(** ** Construction and the backtest methods *)

Section Construction.
Context {I : Type} `{Indicator I} `{OrderSideEnum}.

Local Abbreviation Method := (M (TradeStrategy I)).

(** X20. The constructor refuses a bar capacity that is not positive with
    a [ValueError]. A strategy it returns is named after its class and tag,
    is not running and has no execution client; its capacity is positive,
    its caches, registers, maps and buffer are empty and it sent nothing,
    so that it meets the conditions under which the engine is described:
    cache, heap, indicator maps and registers are well formed. The
    capacity is a C integer. *)
Theorem constructed_strategy_is_well_formed (class_name tag : string)
    (f1 f2 f3 : bool) (capacity : Z) (clock : Clock.t) (guid : GUID) :
  c_int capacity →
  (capacity ≤ 0 →
   ∃ msg, TradeStrategy_init (I := I) class_name tag f1 f2 f3 capacity clock
            guid = inl (ValueError msg))
  ∧ (∀ self : TradeStrategy I,
       TradeStrategy_init class_name tag f1 f2 f3 capacity clock guid
       = inr self →
       0 < bar_capacity self
       ∧ id self = class_name +:+ "-" +:+ tag
       ∧ is_running self = false
       ∧ is_exec_client_registered self = false
       ∧ ledger self
         = (Dict.empty, Dict.empty, Dict.empty, Dict.empty, Dict.empty)
       ∧ (_ticks self, _bars self) = (Dict.empty, Dict.empty)
       ∧ sent self = []
       ∧ bar_cache_ok self
       ∧ heap_ok self
       ∧ indicators_aligned self
       ∧ registers_disjoint self).
Proof.
  intros _. unfold TradeStrategy_init. split.
  - intros Hcap. case_decide; [by eexists|].
    rewrite (proj2 (Z.ltb_ge _ _)) by done. by eexists.
  - intros self. case_decide; [done|].
    destruct (Z.ltb_spec 0 capacity); simpl; [|done].
    intros [= <-]. simpl. split_and!; try done.
    + split; simpl; [lia|done].
    + constructor.
Qed.

(** X21. [register_trader_id] changes the trader identifier and the tag
    of the strategy, but neither the order factory nor the position
    identifier generator, which keep the tag they were built with: the next
    position identifier is formed as before. [change_clock] then builds
    both anew from the current tags, with their counters at zero: the next
    position identifier carries the new tag, the time of the new clock and
    the counter 1, however many were generated before. The ledger, the
    GUID factory and the commands sent are not touched. *)
Theorem change_clock_rebuilds_generators (trader : TraderId) (tag : string)
    (new_clock : Clock.t) (self : TradeStrategy I) :
  let s1 := state_of (register_trader_id trader tag self) in
  let s2 := state_of (change_clock new_clock s1) in
  register_trader_id trader tag self = Ok tt s1
  ∧ change_clock new_clock s1 = Ok tt s2
  ∧ (trader_id s1, id_tag_trader s1) = (trader, tag)
  ∧ (order_factory s1, position_id_generator s1)
    = (order_factory self, position_id_generator self)
  ∧ value_of (generate_position_id s1) = value_of (generate_position_id self)
  ∧ (order_factory s2, position_id_generator s2)
    = (OrderFactory.new tag (id_tag_strategy self),
       PositionIdGenerator.new tag (id_tag_strategy self))
  ∧ value_of (generate_position_id s2)
    = Some ("P-" +:+ IdentifierGenerator._get_datetime_tag
                       (Clock.time_now new_clock)
              +:+ "-" +:+ tag +:+ "-" +:+ id_tag_strategy self +:+ "-1")
  ∧ (ledger s2, _guid_factory s2, sent s2)
    = (ledger self, _guid_factory self, sent self).
Proof.
  intros s1 s2. split_and!; try done.
Qed.

End Construction.

(** ** Stopping without an execution client *)

Section StopUnregistered.
Context {I : Type} `{Indicator I} `{OrderSideEnum}.

Local Abbreviation Method := (M (TradeStrategy I)).


Lemma commands_of_app (a b : list Effect) :
  commands_of (a ++ b) = commands_of a ++ commands_of b.
Proof. apply omap_app. Qed.




End StopUnregistered.

(** ** What events send *)

Section EventCommands.
Context {I : Type} `{Indicator I} `{OrderSideEnum}.

Local Abbreviation Method := (M (TradeStrategy I)).

Lemma sent_remove_registered order_id (self : TradeStrategy I) :
  sent (remove_registered order_id self) = sent self.
Proof. unfold sent. by rewrite trace_remove_registered. Qed.

Lemma sent_remove_children order_id (self : TradeStrategy I) :
  sent (remove_children order_id self) = sent self.
Proof. unfold sent. by rewrite trace_remove_children. Qed.

Lemma call_on_event_sent `{UserHooks I} event (self : TradeStrategy I) :
  keeps sent (on_event event) →
  ∃ s', call_on_event event self = Ok tt s' ∧ sent s' = sent self.
Proof.
  intros Hhook. destruct (returns_call_on_event event self) as [s' Hs'].
  exists s'. split; [done|].
  by rewrite (keeps_ok sent _ _ _ _ (keeps_sent_call_on_event _ Hhook) Hs').
Qed.

(** X23. Only two things make [handle_event] send a command: the
    rejection of an order, and the acknowledgement or the refusal of a
    modification for an order with a buffered command. For every other
    event, fills, cancellations and expiries included, it returns and
    nothing is sent. The [on_event] hook is assumed to send nothing. *)
Theorem other_events_send_nothing (hooks : UserHooks I) (event : Event)
    (self : TradeStrategy I) :
  keeps sent (on_event event) →
  match event with
  | OrderRejected _ => True
  | OrderModified order_id | OrderCancelReject order_id =>
      Dict.mem order_id (_modify_order_buffer self) = false →
      ∃ s', handle_event event self = Ok tt s' ∧ sent s' = sent self
  | _ => ∃ s', handle_event event self = Ok tt s' ∧ sent s' = sent self
  end.
Proof.
  intros Hhook.
  assert (∀ (c : LogCall) (f : TradeStrategy I → TradeStrategy I),
    (∀ s, sent (f s) = sent s) →
    ∃ s', call_on_event event (f (logged c self)) = Ok tt s'
          ∧ sent s' = sent self) as Hcall.
  { intros c f Hf.
    destruct (call_on_event_sent event (f (logged c self)) Hhook)
      as (s' & Hs' & Hsent).
    exists s'. split; [done|]. rewrite Hsent, Hf. apply sent_log. }
  destruct event as [x|x|x|x|x|x|x| |x|x]; [done|..].
  - rewrite (handle_event_cascade _ x) by (left; done).
    apply (Hcall _ (λ s, remove_registered x (remove_children x s))).
    intros s. by rewrite sent_remove_registered, sent_remove_children.
  - rewrite handle_event_filled.
    apply (Hcall _ (λ s, remove_registered x
                           (set_atomic_order_ids
                              (Dict.del x (_atomic_order_ids self)) s))).
    intros s. by rewrite sent_remove_registered.
  - apply (Hcall (LogWarning [Fmt (ObjEvent (OrderPartiallyFilled x))])
             (λ s, s)). done.
  - intros Hmem. unfold handle_event. run. rewrite Hmem. simpl.
    apply (Hcall (LogWarning [Fmt (ObjEvent (OrderCancelReject x))])
             (λ s, s)). done.
  - intros Hmem. unfold handle_event. run. rewrite Hmem. simpl.
    apply (Hcall (LogInfo [Fmt (ObjEvent (OrderModified x))]) (λ s, s)).
    done.
  - rewrite (handle_event_cascade _ x) by (right; left; done).
    apply (Hcall _ (λ s, remove_registered x (remove_children x s))).
    intros s. by rewrite sent_remove_registered, sent_remove_children.
  - apply (Hcall (LogInfo [Fmt (ObjEvent AccountEvent)]) (λ s, s)). done.
  - apply (Hcall (LogInfo [Fmt (ObjEvent (PositionEvent x))]) (λ s, s)).
    done.
  - apply (Hcall (LogInfo [Fmt (ObjEvent (TimeEvent x))]) (λ s, s)). done.
Qed.

(** X24. The acknowledgement or the refusal of a modification for an
    order that has a buffered command but is not known to the execution
    client: the error of the lookup does not leave
    [_process_modify_order_buffer], which returns nothing. The command stays
    in the buffer, nothing is sent, [handle_event] returns, and on a running
    strategy [on_event] is called as for any other event, a failure of the
    hook going to the log. *)
Theorem drain_keeps_command_for_unknown_order (hooks : UserHooks I)
    (event : Event) (order_id : OrderId) (self : TradeStrategy I)
    (client : ExecutionClient.t) :
  event ∈ [OrderModified order_id; OrderCancelReject order_id] →
  _exec_client self = Some client →
  Dict.mem order_id (_modify_order_buffer self) = true →
  Dict.get order_id (ExecutionClient.orders client) = None →
  let s0 :=
    dropped (ValueError "order not found")
      (logged
         match event with
         | OrderCancelReject _ => LogWarning [Fmt (ObjEvent event)]
         | _ => LogInfo [Fmt (ObjEvent event)]
         end self) in
  _modify_order_buffer s0 = _modify_order_buffer self
  ∧ sent s0 = sent self
  ∧ (is_running self = false → handle_event event self = Ok tt s0)
  ∧ (is_running self = true →
     (∀ s', on_event event s0 = Ok tt s' →
        handle_event event self = Ok tt s')
     ∧ (∀ e s', on_event event s0 = Raise e s' →
          handle_event event self = Ok tt (logged (LogException e) s'))).
Proof.
  intros Hev Hclient Hmem Hunknown s0.
  pose proof Hmem as Hget. apply dict_mem_true in Hget as [buffered Hget].
  assert (handle_event event self = call_on_event event s0) as Heq.
  { apply elem_of_cons in Hev as [->|Hev];
      [|apply list_elem_of_singleton in Hev as ->];
      unfold handle_event, _process_modify_order_buffer, get_order,
        exec_client; run;
      rewrite Hmem; simpl; rewrite Hget; simpl; rewrite Hclient; simpl;
      by rewrite Hunknown. }
  split; [done|]. split.
  { unfold s0. rewrite sent_dropped. apply sent_log. }
  rewrite Heq. unfold call_on_event. run.
  split.
  - by intros ->.
  - intros ->. simpl. split.
    + intros s' Hs'. by apply guarded_ok.
    + intros e s' Hs'. by apply guarded_raise.
Qed.

Lemma register_execution_client_eq client (self : TradeStrategy I) :
  register_execution_client client self
  = Ok tt
      (logged
         (LogDebug [Lit "Registered execution client, portfolio, and account."])
         (set_is_portfolio_registered true
            (set_is_exec_client_registered true
               (set_portfolio (Some (ExecutionClient.portfolio client))
                  (set_exec_client (Some client) self))))).
Proof. done. Qed.

Lemma collateral_inquiry_eq (self : TradeStrategy I) client :
  _exec_client self = Some client →
  collateral_inquiry self
  = Ok tt
      (set_trace
         (trace self
            ++ [Executed (CollateralInquiry (_guid_factory self)
                            (Clock.time_now (clock self)))])
         (set_guid_factory (S (_guid_factory self)) self)).
Proof.
  intros Hclient. unfold collateral_inquiry, execute_command, exec_client.
  run. by rewrite Hclient.
Qed.

(** X25. [register_execution_client] gives the strategy its execution
    client and the portfolio of that client, sets both registration flags
    and lets the commands through: a collateral inquiry is then sent under the next GUID with the
    time of the clock, and [is_flat] answers what the portfolio says. The
    ledger, the caches and the GUID factory are not touched by the
    registration. *)
Theorem register_execution_client_enables_commands
    (client : ExecutionClient.t) (self : TradeStrategy I) :
  let s := state_of (register_execution_client client self) in
  register_execution_client client self = Ok tt s
  ∧ is_exec_client_registered s = true
  ∧ is_portfolio_registered s = true
  ∧ _exec_client s = Some client
  ∧ _portfolio s = Some (ExecutionClient.portfolio client)
  ∧ (ledger s, _ticks s, _bars s, heap s, _guid_factory s)
    = (ledger self, _ticks self, _bars self, heap self, _guid_factory self)
  ∧ sent s = sent self
  ∧ is_flat s
    = Ok (Portfolio.strategy_flat (ExecutionClient.portfolio client)) s
  ∧ ∃ s', collateral_inquiry s = Ok tt s'
          ∧ sent s'
            = sent self
                ++ [CollateralInquiry (_guid_factory self)
                      (Clock.time_now (clock self))]
          ∧ _guid_factory s' = S (_guid_factory self).
Proof.
  intros s. unfold s. rewrite register_execution_client_eq.
  set (s0 := set_is_portfolio_registered true _).
  simpl state_of. split_and!; try done.
  - transitivity (sent s0); [apply sent_log|done].
  - rewrite (collateral_inquiry_eq _ client) by done.
    eexists. split; [done|]. split; [|done].
    unfold sent, logged. simpl. rewrite !commands_of_app. simpl.
    by rewrite !app_nil_r.
Qed.

End EventCommands.

(** ** The statements on the strategy under test *)

Section Witnesses.
Import Example.

Lemma base_hook_keeps {A V : Type} (view : TradeStrategy Warmup → V)
    (e : Exn) : keeps view (raise e : M (TradeStrategy Warmup) A).
Proof. by intros self. Qed.

(** Conclude from a fact that evaluates to the goal. *)
Ltac from H := revert H; vm_compute; intros H; exact H.

(** The rejection of the entry O1 of the submitted atomic order: the three
    orders leave the registers, the map of children is empty, and the only
    command ever sent is the atomic submission. *)
Lemma atomic_rejection_cascade_witness :
  AtomicOrder.take_profit atomic = Some O3
  ∧ is_exec_client_registered registered = true
  ∧ _exec_client registered = Some client
  ∧ NoDup ["O1"; "O2"; "O3"]
  ∧ absent "O1" registered ∧ absent "O2" registered ∧ absent "O3" registered
  ∧ _atomic_order_ids registered = Dict.empty
  ∧ keeps ledger (on_event (OrderRejected "O1"))
  ∧ keeps sent (on_event (OrderRejected "O1"))
  ∧ ∃ s2,
      (submit_atomic_order atomic "P1" ;; handle_event (OrderRejected "O1"))
        registered = Ok tt s2
      ∧ absent "O1" s2 ∧ absent "O2" s2 ∧ absent "O3" s2
      ∧ _atomic_order_ids s2 = Dict.empty
      ∧ sent s2 = [atomic_submission].
Proof.
  assert (NoDup ["O1"; "O2"; "O3"]) as Hnodup
    by compute_done.
  destruct (atomic_rejection_cascade hooks atomic O3 "P1" registered client)
    as (s1 & s2 & Hsubmit & _ & _ & _ & _ & Hreject & H1 & H2 & H3 & Hmap
        & Hsent & _); try done.
  split_and!; try done.
  exists s2. split_and!; try done.
  unfold mbind, M_bind. by rewrite Hsubmit.
Defined.

(** C1, as stated, fails: [flatten_on_sl_reject] is true and the portfolio
    holds the entered position P1 of O1, yet after the rejection of O1 no
    order closing P1 was sent. *)
Lemma atomic_rejection_sends_no_flatten :
  flatten_on_sl_reject submitted = true
  ∧ Dict.get "O1" (Portfolio.position_for_order portfolio) = Some P1
  ∧ Position.is_entered P1 = true
  ∧ (submit_atomic_order atomic "P1" ;; handle_event (OrderRejected "O1"))
      registered = Ok tt rejected_entry
  ∧ sent rejected_entry = [atomic_submission]
  ∧ ¬ flatten_submitted "P1" rejected_entry.
Proof.
  assert (sent rejected_entry = [atomic_submission]) as Hsent
    by (vm_compute; reflexivity).
  split_and!.
  - reflexivity.
  - (vm_compute; reflexivity).
  - reflexivity.
  - (vm_compute; reflexivity).
  - done.
  - intros (trader & strategy & order & guid & now & Hin & _).
    rewrite Hsent in Hin.
    apply list_elem_of_singleton in Hin. discriminate Hin.
Qed.

(** A second modification of O1 while the first is in flight is buffered
    and not sent; the acknowledgement of the first, with O1 still at 1.2000
    on the execution client, sends the buffered command again. *)
Lemma modify_order_buffers_and_drains_witness :
  is_exec_client_registered modifying = true
  ∧ _exec_client modifying = Some client
  ∧ sent (state_of (modify_order O1 12010 modifying)) = sent modifying
  ∧ sent (state_of (handle_event (OrderModified "O1") modifying))
    = sent modifying ++ [ModifyOrderCmd first_modify]
  ∧ Dict.mem "O1"
      (_modify_order_buffer
         (state_of (handle_event (OrderModified "O1") modifying))) = false.
Proof.
  assert (is_exec_client_registered modifying = true) as Hregistered
    by (vm_compute; reflexivity).
  assert (_exec_client modifying = Some client) as Hclient
    by (vm_compute; reflexivity).
  destruct (modify_order_buffers_and_drains hooks O1 12010 modifying client
              (OrderModified "O1") "O1" first_modify O1 Hregistered Hclient)
    as (Hmodify & _ & Hsent & Hdrain).
  destruct Hdrain as (Hevent & Hmem & Hdrained);
    [by left|vm_compute; reflexivity..|].
  apply (f_equal state_of) in Hmodify, Hevent.
  split_and!; [done|done|..].
  - apply (f_equal sent) in Hmodify. from Hmodify.
  - apply (f_equal sent) in Hevent. from Hevent.
  - apply (f_equal (λ s, Dict.mem "O1" (_modify_order_buffer s))) in Hevent.
    from Hevent.
Defined.

(** Stopping the running strategy with two active positions and one
    working order: two closing market orders, then one cancellation. *)
Lemma stop_sequence_witness :
  is_exec_client_registered running = true
  ∧ _exec_client running = Some client
  ∧ _portfolio running = Some portfolio
  ∧ is_running (state_of (stop running)) = false
  ∧ sent (state_of (stop running))
    = [SubmitOrder "Trader-000" "TradeStrategy-EMA-001" "P1"
         {| Order.id := "O-20200314-092653-000-EMA-001-1";
            Order.symbol := "AUDUSD"; Order.side := SELL;
            Order.type := MARKET; Order.quantity := 100000;
            Order.price := None; Order.label := "EXIT";
            Order.is_active := false |} 0%nat test_clock_time;
       SubmitOrder "Trader-000" "TradeStrategy-EMA-001" "P2"
         {| Order.id := "O-20200314-092653-000-EMA-001-2";
            Order.symbol := "GBPUSD"; Order.side := BUY;
            Order.type := MARKET; Order.quantity := 50000;
            Order.price := None; Order.label := "EXIT";
            Order.is_active := false |} 1%nat test_clock_time;
       CancelOrder "Trader-000" "TradeStrategy-EMA-001" "O1"
         "STOPPING STRATEGY" 2%nat test_clock_time].
Proof.
  destruct (stop_sequence hooks running client portfolio
              eq_refl eq_refl eq_refl) as (_ & Hstop & _).
  specialize (Hstop _ _ eq_refl).
  split_and!; [done|done|done|..]; rewrite Hstop; by vm_compute.
Defined.

(** Stopping the strategy that was started without any registration: the
    call ends where the portfolio is read, the strategy still running and
    nothing sent. *)
Lemma stop_needs_portfolio_to_flatten_witness :
  flatten_on_stop started = true
  ∧ _portfolio started = None
  ∧ is_running started = true
  ∧ value_of (stop started) = None
  ∧ is_running (state_of (stop started)) = true
  ∧ sent (state_of (stop started)) = [].
Proof.
  destruct (stop_needs_portfolio_to_flatten hooks started eq_refl eq_refl)
    as (Hstop & Hrun & Hsent).
  split_and!; [done|done|by vm_compute|by rewrite Hstop|..].
  - rewrite Hrun. by vm_compute.
  - rewrite Hsent. by vm_compute.
Defined.



(** Four bars delivered to a cache of capacity 3. *)
Lemma bar_cache_bounded_newest_first_witness :
  (∀ bar_type bar, keeps _bars (on_bar bar_type bar))
  ∧ (∀ bar_type bar, keeps bar_capacity (on_bar bar_type bar))
  ∧ bar_cache_ok strategy
  ∧ value_of
      (bars AUDUSD_1m
         (deliver [(AUDUSD_1m, b1); (AUDUSD_1m, b2); (AUDUSD_1m, b3);
                   (AUDUSD_1m, b4)] strategy))
    = Some [b4; b3; b2]
  ∧ value_of
      (last_bar AUDUSD_1m
         (deliver [(AUDUSD_1m, b1); (AUDUSD_1m, b2); (AUDUSD_1m, b3);
                   (AUDUSD_1m, b4)] strategy))
    = Some b4.
Proof.
  assert (bar_cache_ok strategy) as Hok by (split; [done|intros bt d; done]).
  destruct (bar_cache_bounded_newest_first hooks
              (λ _ _ _, eq_refl) (λ _ _ _, eq_refl)
              [(AUDUSD_1m, b1); (AUDUSD_1m, b2); (AUDUSD_1m, b3);
               (AUDUSD_1m, b4)] strategy AUDUSD_1m b1 b2 b3 b4 Hok)
    as (_ & _ & _ & Hscenario).
  destruct Hscenario as [Hbars Hlast]; [reflexivity..|].
  split_and!; [by intros ? ? ?|by intros ? ? ?|exact Hok|..].
  - apply (f_equal value_of) in Hbars. exact Hbars.
  - apply (f_equal value_of) in Hlast. exact Hlast.
Defined.

(** The reset of the strategy that received two bars and a tick. *)
Lemma reset_refuses_or_clears_witness :
  heap_ok warmed
  ∧ heap warmed = [{| period := 2; inputs := 2 |}]
  ∧ heap (state_of (reset warmed)) = [{| period := 2; inputs := 0 |}]
  ∧ _bars (state_of (reset warmed)) = Dict.empty
  ∧ _ticks (state_of (reset warmed)) = Dict.empty.
Proof.
  assert (heap_ok warmed) as Hok by (repeat constructor).
  destruct (reset_refuses_or_clears hooks warmed Hok) as (_ & Hreset & _).
  destruct Hreset as [_ Hreset]; [done|]. specialize (Hreset _ _ eq_refl).
  split_and!; [done|done|..]; rewrite Hreset; by vm_compute.
Defined.

(** A bar and a tick handled by the running strategy: the caches and the
    indicator are updated, and the failure of the hook of the base class is
    the last line of the log. *)
Lemma handlers_update_then_call_hooks_witness :
  0 ≤ bar_capacity live
  ∧ (Dict.mem AUDUSD_1m (_indicators live) = true →
   ∃ us, Dict.get AUDUSD_1m (_indicator_updaters live) = Some us
         ∧ Forall (λ u, IndicatorUpdater.indicator u
                        < length (heap live))%nat us)
  ∧ is_running live = true
  ∧ value_of (last_tick "AUDUSD" (state_of (handle_tick tick live)))
    = Some tick
  ∧ last (trace (state_of (handle_tick tick live)))
    = Some (Logged (LogException (NotImplementedError
        "Method on_tick() must be implemented in the strategy (or just add pass).")))
  ∧ value_of (bars AUDUSD_1m (state_of (handle_bar AUDUSD_1m b1 live)))
    = Some [b1]
  ∧ heap (state_of (handle_bar AUDUSD_1m b1 live))
    = [{| period := 2; inputs := 1 |}]
  ∧ last (trace (state_of (handle_bar AUDUSD_1m b1 live)))
    = Some (Logged (LogException (NotImplementedError
        "Method on_bar() must be implemented in the strategy (or just add pass)."))).
Proof.
  assert (Dict.mem AUDUSD_1m (_indicators live) = true →
    ∃ us, Dict.get AUDUSD_1m (_indicator_updaters live) = Some us
          ∧ Forall (λ u, IndicatorUpdater.indicator u
                         < length (heap live))%nat us) as Hreg.
  { intros _. eexists. split; [vm_compute; reflexivity|]. repeat constructor. }
  assert (0 ≤ bar_capacity live) as Hcap by done.
  assert (is_running live = true) as Hrun by (vm_compute; reflexivity).
  destruct (handlers_update_then_call_hooks hooks tick AUDUSD_1m b1
              live Hcap Hreg) as (_ & _ & _ & Hhooks).
  destruct (Hhooks Hrun) as (_ & Htick & _ & Hbar).
  specialize (Htick _ _ eq_refl). specialize (Hbar _ _ eq_refl).
  split_and!; [exact Hcap|exact Hreg|exact Hrun|..].
  - rewrite Htick. by vm_compute.
  - rewrite Htick. by vm_compute.
  - rewrite Hbar. by vm_compute.
  - rewrite Hbar. by vm_compute.
  - rewrite Hbar. by vm_compute.
Defined.

(** The ledger of a strategy with registered orders and a buffered
    modification is the same after [reset]. *)
Lemma reset_keeps_ledger_witness :
  keeps outside_reset on_reset
  ∧ ledger modifying ≠ ledger strategy
  ∧ ledger (state_of (reset modifying)) = ledger modifying
  ∧ outside_reset (state_of (reset modifying)) = outside_reset modifying.
Proof.
  destruct (reset_keeps_ledger hooks modifying (λ _, eq_refl))
    as (HE & HS & HT & HA & HM & Houtside).
  split_and!; [done|done| |done].
  unfold ledger. by rewrite HE, HS, HT, HA, HM.
Defined.

(** The indicator of period 2 is not initialized before its inputs. On
    the strategy just constructed no indicator is registered: all of them
    are initialized, and asked for one bar type the strategy answers false,
    the error dropped on the way, where [indicators] raises it. *)
Lemma indicators_initialized_all_iff_witness :
  heap_ok with_indicator
  ∧ indicators_initialized_all with_indicator = Ok false with_indicator
  ∧ heap_ok strategy
  ∧ Dict.mem AUDUSD_1m (_indicators strategy) = false
  ∧ indicators_initialized_all strategy = Ok true strategy
  ∧ value_of (indicators_initialized AUDUSD_1m strategy) = Some false
  ∧ trace (state_of (indicators_initialized AUDUSD_1m strategy))
    = [Unraisable (ValueError "bar_type")]
  ∧ value_of (indicators AUDUSD_1m strategy) = None.
Proof.
  assert (heap_ok with_indicator) as Hok by (repeat constructor).
  assert (heap_ok strategy) as Hok' by constructor.
  destruct (indicators_initialized_all_iff with_indicator AUDUSD_1m Hok)
    as ((b & Hb & Hiff) & _).
  destruct (indicators_initialized_all_iff strategy AUDUSD_1m Hok')
    as (_ & Hnone & _ & Hbar).
  destruct Hbar as [Hdropped Hraised]; [done|].
  split_and!; [done| |done|done|by apply Hnone|by rewrite Hdropped
               |by rewrite Hdropped|by rewrite Hraised].
  destruct b; [|done].
  assert (initialized {| period := 2; inputs := 0 |} = true) as Hinit; [|done].
  apply (proj1 Hiff eq_refl AUDUSD_1m [0%nat] 0%nat); [left|left|done].
Defined.

End Witnesses.

(** ** The further properties on the strategy under test *)

Section MoreWitnesses.
Import Example.

(** Conclude from a fact that evaluates to the goal. *)
Ltac from H := revert H; vm_compute; intros H; exact H.

(** A started strategy that does not flatten on stop. *)
Local Abbreviation quiet :=
  (state_of
     (start (initial "TradeStrategy" "EMA-001" true false true 3 test_clock 0
             : TradeStrategy Warmup))).

(** The strategy just constructed has no execution client: a submitted
    entry order is registered and not sent. *)
Lemma commands_suppressed_without_client_witness :
  is_exec_client_registered strategy = false
  ∧ sent (state_of (submit_order O1 "P1" strategy)) = []
  ∧ sent (state_of (submit_entry_order O1 "P1" strategy)) = []
  ∧ Dict.mem "O1"
      (_entry_orders (state_of (submit_entry_order O1 "P1" strategy))) = true.
Proof.
  assert (is_exec_client_registered strategy = false) as Hreg by done.
  destruct (commands_suppressed_without_client O1 "P1" atomic 12005
              (Some "reason") strategy Hreg)
    as (Hsubmit & _ & _ & _ & _ & _ & _ & Hentry).
  apply (f_equal state_of) in Hsubmit, Hentry.
  split_and!; [done|..].
  - apply (f_equal sent) in Hsubmit. from Hsubmit.
  - apply (f_equal sent) in Hentry. from Hentry.
  - apply (f_equal (λ s, Dict.mem "O1" (_entry_orders s))) in Hentry.
    from Hentry.
Defined.

(** Two orders submitted in a row on the registered strategy. *)
Lemma submitted_orders_have_consecutive_ids_witness :
  is_exec_client_registered registered = true
  ∧ _exec_client registered = Some client
  ∧ sent (state_of ((submit_order O1 "P1" ;; submit_order O2 "P1") registered))
    = [SubmitOrder "Trader-000" "TradeStrategy-EMA-001" "P1" O1 0%nat
         test_clock_time;
       SubmitOrder "Trader-000" "TradeStrategy-EMA-001" "P1" O2 1%nat
         test_clock_time].
Proof.
  assert (is_exec_client_registered registered = true) as Hreg
    by (vm_compute; reflexivity).
  assert (_exec_client registered = Some client) as Hclient
    by (vm_compute; reflexivity).
  destruct (submitted_orders_have_consecutive_ids [(O1, "P1"); (O2, "P1")]
              registered client Hreg Hclient)
    as (s' & Hrun & Hsent & _).
  split_and!; [done|done|].
  assert (state_of ((submit_order O1 "P1" ;; submit_order O2 "P1") registered)
          = s') as ->.
  { apply (f_equal state_of) in Hrun. from Hrun. }
  from Hsent.
Defined.

(** The LONG position P1 of the registered strategy is closed by a SELL
    of its whole quantity. *)
Lemma flatten_position_closes_position_witness :
  is_exec_client_registered registered = true
  ∧ _exec_client registered = Some client
  ∧ _portfolio registered = Some portfolio
  ∧ ∃ order,
      sent (state_of (flatten_position "P1" registered))
      = [SubmitOrder "Trader-000" "TradeStrategy-EMA-001" "P1" order 0%nat
           test_clock_time]
      ∧ Order.side order = SELL
      ∧ Order.quantity order = 100000
      ∧ Order.id order = "O-20200314-092653-000-EMA-001-1".
Proof.
  assert (is_exec_client_registered registered = true) as Hreg
    by (vm_compute; reflexivity).
  assert (_exec_client registered = Some client) as Hclient
    by (vm_compute; reflexivity).
  assert (_portfolio registered = Some portfolio) as Hportfolio
    by (vm_compute; reflexivity).
  pose proof (flatten_position_closes_position "P1" registered client
                portfolio Hreg Hclient Hportfolio) as Hflat.
  change (Dict.get "P1" (Portfolio.positions portfolio)) with (Some P1)
    in Hflat.
  change (Position.is_flat P1) with false in Hflat.
  cbv beta iota in Hflat.
  destruct Hflat as (order & s' & Hrun & Hsent & Hside & _ & _ & Hquantity
                     & _ & Hid & _).
  split_and!; [done|done|done|].
  exists order.
  assert (state_of (flatten_position "P1" registered) = s') as ->.
  { apply (f_equal state_of) in Hrun. from Hrun. }
  split_and!.
  - from Hsent.
  - from Hside.
  - from Hquantity.
  - from Hid.
Defined.

(** The rejection of the entry of the submitted atomic order adds nothing
    to the ledger. *)
Lemma handle_event_adds_nothing_to_ledger_witness :
  keeps ledger (on_event (OrderRejected "O1"))
  ∧ ledger_within rejected_entry submitted
  ∧ Dict.mem "O1" (_entry_orders submitted) = true
  ∧ Dict.mem "O1" (_entry_orders rejected_entry) = false.
Proof.
  assert (keeps ledger (on_event (OrderRejected "O1"))) as Hhook
    by apply base_hook_keeps.
  destruct (handle_event_adds_nothing_to_ledger hooks (OrderRejected "O1")
              submitted Hhook) as [Hwithin _].
  split_and!; [done|exact Hwithin| |]; vm_compute; reflexivity.
Defined.

(** The registers of the registered strategy are empty, and the atomic
    order has three identifiers. *)
Lemma submissions_keep_registers_disjoint_witness :
  registers_disjoint registered
  ∧ NoDup ["O1"; "O2"; "O3"]
  ∧ registers_disjoint submitted
  ∧ registers_disjoint (state_of (submit_entry_order O1 "P1" registered)).
Proof.
  assert (registers_disjoint registered) as Hdis.
  { intros x. split; intros Hmem; vm_compute in Hmem; done. }
  assert (NoDup ["O1"; "O2"; "O3"]) as Hnodup by compute_done.
  destruct (submissions_keep_registers_disjoint atomic O1 "P1" registered
              Hdis) as [Hatomic Hentry].
  split_and!; [done|done|..].
  - by apply Hatomic.
  - by apply Hentry.
Defined.

(** The expiry of the entry O1 of the submitted atomic order. *)
Lemma atomic_cancel_or_expiry_cascades_witness :
  AtomicOrder.take_profit atomic = Some O3
  ∧ is_exec_client_registered registered = true
  ∧ _exec_client registered = Some client
  ∧ NoDup ["O1"; "O2"; "O3"]
  ∧ absent "O1" registered ∧ absent "O2" registered ∧ absent "O3" registered
  ∧ _atomic_order_ids registered = Dict.empty
  ∧ keeps ledger (on_event (OrderExpired "O1"))
  ∧ ∃ s2,
      handle_event (OrderExpired "O1") submitted = Ok tt s2
      ∧ absent "O1" s2 ∧ absent "O2" s2 ∧ absent "O3" s2
      ∧ _atomic_order_ids s2 = Dict.empty.
Proof.
  assert (NoDup ["O1"; "O2"; "O3"]) as Hnodup by compute_done.
  assert (is_exec_client_registered registered = true) as Hreg
    by (vm_compute; reflexivity).
  assert (_exec_client registered = Some client) as Hclient
    by (vm_compute; reflexivity).
  assert (∀ x, absent x registered) as Habsent.
  { intros x. split_and!; vm_compute; reflexivity. }
  assert (OrderExpired "O1" ∈ [OrderCancelled "O1"; OrderExpired "O1"])
    as Hevent by (right; left).
  destruct (atomic_cancel_or_expiry_cascades hooks atomic O3 "P1"
              (OrderExpired "O1") registered client eq_refl Hreg Hclient
              Hnodup (Habsent "O1") (Habsent "O2") (Habsent "O3") eq_refl
              Hevent (base_hook_keeps _ _))
    as (s1 & s2 & Hsubmit & Hexpired & H1 & H2 & H3 & _ & Hmap).
  split_and!; try done.
  exists s2. split_and!; try done.
  assert (submitted = s1) as ->; [|done].
  apply (f_equal state_of) in Hsubmit. from Hsubmit.
Defined.

(** The fill of the entry O1 of the submitted atomic order: the stop-loss
    O2 and the take-profit O3 stay registered. *)
Lemma atomic_fill_keeps_children_witness :
  AtomicOrder.take_profit atomic = Some O3
  ∧ is_exec_client_registered registered = true
  ∧ _exec_client registered = Some client
  ∧ absent "O1" registered
  ∧ _atomic_order_ids registered = Dict.empty
  ∧ keeps ledger (on_event (OrderFilled "O1"))
  ∧ ∃ s2,
      handle_event (OrderFilled "O1") submitted = Ok tt s2
      ∧ Dict.mem "O1" (_entry_orders s2) = false
      ∧ Dict.get "O2" (_stop_loss_orders s2) = Some O2
      ∧ Dict.get "O3" (_take_profit_orders s2) = Some O3
      ∧ _atomic_order_ids s2 = Dict.empty.
Proof.
  assert (is_exec_client_registered registered = true) as Hreg
    by (vm_compute; reflexivity).
  assert (_exec_client registered = Some client) as Hclient
    by (vm_compute; reflexivity).
  assert (absent "O1" registered) as Habsent
    by (split_and!; vm_compute; reflexivity).
  destruct (atomic_fill_keeps_children hooks atomic O3 "P1" registered client
              eq_refl Hreg Hclient Habsent eq_refl (base_hook_keeps _ _))
    as (s1 & s2 & Hsubmit & Hfilled & H1 & H2 & H3 & Hmap).
  split_and!; try done.
  exists s2. split_and!; try done.
  assert (submitted = s1) as ->; [|done].
  apply (f_equal state_of) in Hsubmit. from Hsubmit.
Defined.

(** The rejection of the stop-loss O2 of the submitted atomic order, whose
    position P1 is entered and LONG: the position is closed by a SELL. *)
Lemma stop_loss_rejection_flattens_witness :
  is_exec_client_registered submitted = true
  ∧ _exec_client submitted = Some client
  ∧ _portfolio submitted = Some portfolio
  ∧ Dict.get "O2" (Portfolio.position_for_order portfolio) = Some P1
  ∧ keeps sent (on_event (OrderRejected "O2"))
  ∧ ∃ order,
      sent (state_of (handle_event (OrderRejected "O2") submitted))
      = [atomic_submission;
         SubmitOrder "Trader-000" "TradeStrategy-EMA-001" "P1" order 1%nat
           test_clock_time]
      ∧ Order.side order = SELL
      ∧ Order.type order = MARKET.
Proof.
  assert (is_exec_client_registered submitted = true) as Hreg
    by (vm_compute; reflexivity).
  assert (_exec_client submitted = Some client) as Hclient
    by (vm_compute; reflexivity).
  assert (_portfolio submitted = Some portfolio) as Hportfolio
    by (vm_compute; reflexivity).
  assert (Dict.get "O2" (Portfolio.position_for_order portfolio) = Some P1)
    as Hposition by (vm_compute; reflexivity).
  pose proof (stop_loss_rejection_flattens hooks "O2" submitted client
                portfolio P1 Hreg Hclient Hportfolio Hposition
                (base_hook_keeps _ _)) as Hflat.
  change (Dict.get (Position.id P1) (Portfolio.positions portfolio))
    with (Some P1) in Hflat.
  cbv beta iota zeta in Hflat.
  destruct Hflat as (s' & Hrun & Hsent).
  split_and!; try done.
  eexists.
  assert (state_of (handle_event (OrderRejected "O2") submitted) = s') as ->.
  { apply (f_equal state_of) in Hrun. from Hrun. }
  split_and!; [from Hsent|done|done].
Defined.

(** The strategy modifies O1 to 1.2005 and, before the acknowledgement,
    to 1.2010: the second command waits in the buffer and is sent when the
    first is acknowledged with O1 at 1.2000 on the execution client. *)
Lemma modify_twice_then_acknowledge_witness :
  is_exec_client_registered submitted = true
  ∧ _exec_client submitted = Some client
  ∧ Dict.mem "O1" (_modify_order_buffer submitted) = false
  ∧ Dict.get "O1" (ExecutionClient.orders client) = Some O1
  ∧ keeps sent (on_event (OrderModified "O1"))
  ∧ keeps _modify_order_buffer (on_event (OrderModified "O1"))
  ∧ ∃ s2 s3,
      (modify_order O1 12005 ;; modify_order O1 12010) submitted = Ok tt s2
      ∧ handle_event (OrderModified "O1") s2 = Ok tt s3
      ∧ (ModifyOrder.modified_price <$> omap
           (λ c, match c with ModifyOrderCmd m => Some m | _ => None end)
           (sent s3))
        = [12005; 12010]
      ∧ Dict.mem "O1" (_modify_order_buffer s3) = false.
Proof.
  assert (is_exec_client_registered submitted = true) as Hreg
    by (vm_compute; reflexivity).
  assert (_exec_client submitted = Some client) as Hclient
    by (vm_compute; reflexivity).
  assert (Dict.mem "O1" (_modify_order_buffer submitted) = false) as Hfresh
    by (vm_compute; reflexivity).
  assert (Dict.get "O1" (ExecutionClient.orders client) = Some O1) as Horder
    by (vm_compute; reflexivity).
  destruct (modify_twice_then_acknowledge hooks O1 O1 12005 12010 submitted
              client Hreg Hclient Hfresh Horder (base_hook_keeps _ _)
              (base_hook_keeps _ _))
    as (s2 & s3 & Hrun & Hsent2 & _ & Hevent & Hsent3 & Hmem).
  split_and!; try done.
  exists s2, s3. split_and!; try done.
  rewrite Hsent3, Hsent2. vm_compute. reflexivity.
Defined.

(** Two ticks of one symbol: the second is the last tick. *)
Lemma last_tick_is_latest_witness :
  (∀ t, keeps _ticks (on_tick t))
  ∧ value_of
      (last_tick "AUDUSD"
         (deliver_ticks
            [tick;
             {| Tick.symbol := "AUDUSD"; Tick.bid := 12002;
                Tick.ask := 12003; Tick.timestamp := test_clock_time |}]
            strategy))
    = Some {| Tick.symbol := "AUDUSD"; Tick.bid := 12002;
              Tick.ask := 12003; Tick.timestamp := test_clock_time |}
  ∧ value_of (last_tick "GBPUSD" (deliver_ticks [tick] strategy)) = None.
Proof.
  assert (∀ t, keeps _ticks (on_tick t)) as Hhook
    by (intros t; apply base_hook_keeps).
  destruct (last_tick_is_latest hooks
              [tick;
               {| Tick.symbol := "AUDUSD"; Tick.bid := 12002;
                  Tick.ask := 12003; Tick.timestamp := test_clock_time |}]
              "AUDUSD" strategy Hhook) as [_ Hlast].
  destruct (last_tick_is_latest hooks [tick] "GBPUSD" strategy Hhook)
    as [_ Hnone].
  apply (f_equal value_of) in Hlast, Hnone.
  split_and!; [done|from Hlast|from Hnone].
Defined.

(** Two bars delivered to the strategy with one indicator: it was fed
    twice. *)
Lemma delivered_bars_feed_indicators_witness :
  (∀ bar_type bar,
     keeps (λ s, (heap s, _indicators s, _indicator_updaters s,
                  bar_capacity s))
       (on_bar bar_type bar))
  ∧ 0 ≤ bar_capacity with_indicator
  ∧ indicators_aligned with_indicator
  ∧ heap (deliver [(AUDUSD_1m, b1); (AUDUSD_1m, b2)] with_indicator)
    = [{| period := 2; inputs := 2 |}].
Proof.
  assert (∀ bar_type bar,
     keeps (λ s, (heap s, _indicators s, _indicator_updaters s,
                  bar_capacity s))
       (on_bar bar_type bar)) as Hhook
    by (intros bt b; apply base_hook_keeps).
  assert (0 ≤ bar_capacity with_indicator) as Hcap by done.
  assert (indicators_aligned with_indicator) as Haligned.
  { apply register_indicator_aligned; [|simpl; lia].
    by apply indicators_aligned_empty. }
  destruct (delivered_bars_feed_indicators hooks
              [(AUDUSD_1m, b1); (AUDUSD_1m, b2)] with_indicator Hhook Hcap
              Haligned) as (Hheap & _).
  split_and!; [done|done|done|]. from Hheap.
Defined.

(** The reset of the strategy that received two bars and a tick. *)
Lemma reset_empties_caches_witness :
  is_running warmed = false
  ∧ heap_ok warmed
  ∧ keeps (λ s, (_bars s, _ticks s, _indicators s, _indicator_updaters s))
      on_reset
  ∧ value_of (bars AUDUSD_1m warmed) = Some [b2; b1]
  ∧ value_of (bars AUDUSD_1m (state_of (reset warmed))) = None
  ∧ value_of (last_tick "AUDUSD" (state_of (reset warmed))) = None
  ∧ _indicators (state_of (reset warmed)) = [(AUDUSD_1m, [0%nat])].
Proof.
  assert (is_running warmed = false) as Hrun by (vm_compute; reflexivity).
  assert (heap_ok warmed) as Hok by (repeat constructor).
  destruct (reset_empties_caches hooks AUDUSD_1m "AUDUSD" warmed Hrun Hok
              (base_hook_keeps _ _))
    as (s' & Hreset & Hbars & _ & Htick & Hindicators & _).
  assert (state_of (reset warmed) = s') as ->.
  { apply (f_equal state_of) in Hreset. from Hreset. }
  split_and!; [done|done|apply base_hook_keeps|..].
  - vm_compute. reflexivity.
  - by rewrite Hbars.
  - by rewrite Htick.
  - rewrite Hindicators. vm_compute. reflexivity.
Defined.

(** A second indicator registered for the bar type. *)
Lemma register_indicator_appends_witness :
  indicators_aligned with_indicator
  ∧ (0 < length (heap with_indicator))%nat
  ∧ value_of
      (indicators AUDUSD_1m
         (state_of (register_indicator AUDUSD_1m 0%nat warmup_update
                      with_indicator)))
    = Some [0%nat; 0%nat].
Proof.
  assert (indicators_aligned with_indicator) as Haligned.
  { apply register_indicator_aligned; [|simpl; lia].
    by apply indicators_aligned_empty. }
  assert (0 < length (heap with_indicator))%nat as Hheap by (simpl; lia).
  destruct (register_indicator_appends AUDUSD_1m 0%nat warmup_update
              with_indicator Haligned Hheap)
    as (s' & Hrun & Hlist & _).
  assert (state_of (register_indicator AUDUSD_1m 0%nat warmup_update
                      with_indicator) = s') as ->.
  { by rewrite Hrun. }
  split_and!; [done|done|]. apply (f_equal value_of) in Hlist. from Hlist.
Defined.

(** The indicator of period 2 is initialized after two bars. *)
Lemma indicators_initialized_per_bar_type_witness :
  heap_ok warmed
  ∧ indicators_initialized AUDUSD_1m warmed = Ok true warmed
  ∧ indicators_initialized AUDUSD_1m with_indicator
    = Ok false with_indicator.
Proof.
  assert (heap_ok warmed) as Hok by (repeat constructor).
  pose proof (indicators_initialized_per_bar_type AUDUSD_1m warmed Hok)
    as Hwarmed.
  change (Dict.get AUDUSD_1m (_indicators warmed)) with (Some [0%nat])
    in Hwarmed.
  destruct Hwarmed as (_ & b & Hb & Hiff & _).
  split_and!; [done| |vm_compute; reflexivity].
  rewrite Hb. do 2 f_equal. apply Hiff.
  intros r i Hr Hi. apply list_elem_of_singleton in Hr as ->.
  vm_compute in Hi. by injection Hi as <-.
Defined.


(** The fill of the entry O1 of the submitted atomic order sends
    nothing. *)
Lemma other_events_send_nothing_witness :
  keeps sent (on_event (OrderFilled "O1"))
  ∧ ∃ s', handle_event (OrderFilled "O1") submitted = Ok tt s'
          ∧ sent s' = [atomic_submission].
Proof.
  destruct (other_events_send_nothing hooks (OrderFilled "O1") submitted
              (base_hook_keeps _ _)) as (s' & Hrun & Hsent).
  split; [apply base_hook_keeps|].
  exists s'. split; [done|]. rewrite Hsent. vm_compute. reflexivity.
Defined.

(** The acknowledgement of a modification of O2, which has a command in
    the buffer and is unknown to the execution client: the call returns, the
    command is still buffered and nothing more was sent. *)
Lemma drain_keeps_command_for_unknown_order_witness :
  OrderModified "O2" ∈ [OrderModified "O2"; OrderCancelReject "O2"]
  ∧ _exec_client (state_of (modify_order O2 11940 submitted)) = Some client
  ∧ Dict.mem "O2"
      (_modify_order_buffer (state_of (modify_order O2 11940 submitted)))
    = true
  ∧ Dict.get "O2" (ExecutionClient.orders client) = None
  ∧ value_of
      (handle_event (OrderModified "O2")
         (state_of (modify_order O2 11940 submitted))) = Some tt
  ∧ Dict.mem "O2"
      (_modify_order_buffer
         (state_of
            (handle_event (OrderModified "O2")
               (state_of (modify_order O2 11940 submitted))))) = true
  ∧ sent
      (state_of
         (handle_event (OrderModified "O2")
            (state_of (modify_order O2 11940 submitted))))
    = sent (state_of (modify_order O2 11940 submitted)).
Proof.
  assert (OrderModified "O2" ∈ [OrderModified "O2"; OrderCancelReject "O2"])
    as Hevent by left.
  assert (_exec_client (state_of (modify_order O2 11940 submitted))
          = Some client) as Hclient by (vm_compute; reflexivity).
  assert (Dict.mem "O2"
            (_modify_order_buffer
               (state_of (modify_order O2 11940 submitted))) = true)
    as Hmem by (vm_compute; reflexivity).
  assert (Dict.get "O2" (ExecutionClient.orders client) = None) as Hunknown
    by (vm_compute; reflexivity).
  destruct (drain_keeps_command_for_unknown_order hooks (OrderModified "O2")
              "O2" (state_of (modify_order O2 11940 submitted)) client Hevent
              Hclient Hmem Hunknown)
    as (Hbuffer & Hsent & Hrun & _).
  rewrite Hrun by (vm_compute; reflexivity).
  split_and!; [done|done|done|done|done|..].
  - cbn [state_of]. by rewrite Hbuffer.
  - cbn [state_of]. exact Hsent.
Defined.

(** The hooks of the base class raise: [start] logs the exception of
    [on_start] and returns, a tick delivered to the running strategy is
    cached and the exception of [on_tick] logged, and [reset] returns. *)
Lemma hook_failures_are_logged_witness :
  heap_ok strategy
  ∧ is_running running = true
  ∧ (∃ s', reset strategy = Ok tt s')
  ∧ trace (state_of (start strategy))
    = [Logged (LogInfo [Lit "Starting..."]);
       Logged (LogException
                 (NotImplementedError
                    "Method on_start() must be implemented in the strategy (or just add pass)."));
       Logged (LogInfo [Lit "Running..."])]
  ∧ last (trace (state_of (handle_tick tick running)))
    = Some (Logged (LogException
                      (NotImplementedError
                         "Method on_tick() must be implemented in the strategy (or just add pass).")))
  ∧ Dict.get "AUDUSD" (_ticks (state_of (handle_tick tick running)))
    = Some tick.
Proof.
  assert (heap_ok strategy) as Hheap by constructor.
  assert (is_running running = true) as Hrunning by (vm_compute; reflexivity).
  pose proof (hook_failures_are_logged hooks tick strategy) as Hfresh.
  pose proof (hook_failures_are_logged hooks tick running) as Hrun.
  cbv zeta in Hfresh, Hrun.
  destruct Hfresh as (_ & Hstart & _ & _ & _ & Hreset).
  destruct Hrun as (_ & _ & _ & Htick & _).
  specialize (Hstart _ _ eq_refl). specialize (Htick _ _ Hrunning eq_refl).
  apply (f_equal state_of) in Hstart, Htick.
  split_and!; [done|done|by apply Hreset|..].
  - apply (f_equal trace) in Hstart. from Hstart.
  - apply (f_equal (λ s, last (trace s))) in Htick. from Htick.
  - apply (f_equal (λ s, Dict.get "AUDUSD" (_ticks s))) in Htick. from Htick.
Defined.

(** The running strategy refuses a reset; once stopped it caches a tick
    without logging anything. *)
Lemma running_flag_gates_witness :
  keeps is_running (on_start (I := Warmup))
  ∧ keeps is_running (on_stop (I := Warmup))
  ∧ is_running (state_of (start strategy)) = true
  ∧ _ticks (state_of (reset (state_of (start strategy)))) = Dict.empty
  ∧ stop running = Ok tt (state_of (stop running))
  ∧ is_running (state_of (stop running)) = false
  ∧ trace (state_of (handle_tick tick (state_of (stop running))))
    = trace (state_of (stop running)).
Proof.
  assert (stop running = Ok tt (state_of (stop running))) as Hstop
    by (vm_compute; reflexivity).
  destruct (running_flag_gates hooks tick strategy) as [Hstarted _].
  destruct (running_flag_gates hooks tick running) as [_ Hstopped].
  destruct (Hstarted (base_hook_keeps _ _)) as [Hflag Hreset].
  destruct (Hstopped (base_hook_keeps _ _) _ Hstop) as [Hcleared Htick].
  apply (f_equal state_of) in Hreset, Htick.
  split_and!; [apply base_hook_keeps|apply base_hook_keeps|done|..|done|].
  - apply (f_equal _ticks) in Hreset. from Hreset.
  - done.
  - apply (f_equal trace) in Htick. from Htick.
Defined.

(** The strategy that received the bars b1 and b2 answers b2 at index 0
    and b1 at index 1, and fails at index 2; the strategy just constructed
    has no bars for the bar type. *)
Lemma bar_indexes_bars_witness :
  c_int 1
  ∧ Dict.mem AUDUSD_1m (_bars warmed) = true
  ∧ Dict.mem AUDUSD_1m (_bars strategy) = false
  ∧ value_of (bars AUDUSD_1m warmed) = Some [b2; b1]
  ∧ value_of (bar AUDUSD_1m 1 warmed) = Some b1
  ∧ value_of (bar AUDUSD_1m 2 warmed) = None
  ∧ last_bar AUDUSD_1m strategy = Raise (ValueError "bar_type") strategy.
Proof.
  assert (Dict.mem AUDUSD_1m (_bars warmed) = true) as Hmem
    by (vm_compute; reflexivity).
  assert (Dict.mem AUDUSD_1m (_bars strategy) = false) as Hnone
    by (vm_compute; reflexivity).
  assert (c_int 0 ∧ c_int 1 ∧ c_int 2) as (Hc0 & Hc1 & Hc2)
    by (unfold c_int; lia).
  destruct (bar_indexes_bars AUDUSD_1m 1 warmed Hc1) as (_ & Hone & _).
  destruct (bar_indexes_bars AUDUSD_1m 2 warmed Hc2) as (_ & Htwo & _).
  destruct (bar_indexes_bars AUDUSD_1m 0 strategy Hc0) as (Hempty & _ & _).
  destruct (Hone Hmem) as (l & Hbars & _ & Hbar1).
  destruct (Htwo Hmem) as (l' & Hbars' & _ & Hbar2).
  destruct (Hempty Hnone) as (_ & _ & Hlast).
  assert (l = [b2; b1]) as ->.
  { apply (f_equal value_of) in Hbars. vm_compute in Hbars.
    by injection Hbars as <-. }
  assert (l' = [b2; b1]) as ->.
  { apply (f_equal value_of) in Hbars'. vm_compute in Hbars'.
    by injection Hbars' as <-. }
  split_and!; [done|done|done|by rewrite Hbars|..|done].
  - rewrite Hbar1 by done. reflexivity.
  - rewrite Hbar2 by done. reflexivity.
Defined.

(** The first order identifier and the first position identifier of the
    strategy under test differ. *)
Lemma order_and_position_identifiers_differ_witness :
  IdentifierGenerator.prefix (OrderIdGenerator.new "000" "EMA-001") = "O"
  ∧ IdentifierGenerator.prefix (PositionIdGenerator.new "000" "EMA-001") = "P"
  ∧ (OrderIdGenerator.generate test_clock_time
       (OrderIdGenerator.new "000" "EMA-001")).1
    ≠ (PositionIdGenerator.generate test_clock_time
         (PositionIdGenerator.new "000" "EMA-001")).1.
Proof.
  destruct IdentifierGeneratorMore.order_and_position_identifiers_differ
    as (_ & _ & Hdiffer).
  split_and!; [done|done|]. by apply Hdiffer.
Defined.

(** Three identifiers, a reset, and the first identifier comes again. *)
Lemma reset_restarts_identifiers_witness :
  IdentifierGenerator.counter (OrderIdGenerator.new "000" "EMA-001") = 0%nat
  ∧ (IdentifierGenerator._generate test_clock_time
       (IdentifierGenerator.reset
          (IdentifierGenerator.generate_all
             [test_clock_time; test_clock_time; test_clock_time]
             (OrderIdGenerator.new "000" "EMA-001")).2)).1
    = "O-20200314-092653-000-EMA-001-1"
  ∧ (IdentifierGenerator.generate_all
       [test_clock_time; test_clock_time; test_clock_time]
       (OrderIdGenerator.new "000" "EMA-001")).1 !! 0%nat
    = Some "O-20200314-092653-000-EMA-001-1".
Proof.
  pose proof (IdentifierGeneratorMore.reset_restarts_identifiers
                (OrderIdGenerator.new "000" "EMA-001") test_clock_time
                [test_clock_time; test_clock_time]) as Hreset.
  cbv zeta in Hreset. destruct Hreset as [Hnext Hfirst].
  specialize (Hfirst eq_refl).
  split_and!; [done|..].
  - rewrite Hnext. vm_compute. reflexivity.
  - rewrite Hfirst, Hnext. vm_compute. reflexivity.
Defined.

(** The strategy under test is what the constructor returns for a
    capacity of 3; a capacity of 0 is refused. *)
Lemma constructed_strategy_is_well_formed_witness :
  TradeStrategy_init "TradeStrategy" "EMA-001" true true true 3 test_clock 0
  = inr strategy
  ∧ c_int 3
  ∧ (∃ msg,
       TradeStrategy_init (I := Warmup) "TradeStrategy" "EMA-001" true true
         true 0 test_clock 0 = inl (ValueError msg))
  ∧ id strategy = "TradeStrategy-EMA-001"
  ∧ bar_cache_ok strategy
  ∧ indicators_aligned strategy
  ∧ registers_disjoint strategy.
Proof.
  assert (TradeStrategy_init "TradeStrategy" "EMA-001" true true true 3
            test_clock 0 = inr strategy) as Hinit
    by (vm_compute; reflexivity).
  assert (c_int 0 ∧ c_int 3) as [Hc0 Hc3] by (unfold c_int; lia).
  destruct (constructed_strategy_is_well_formed (I := Warmup) "TradeStrategy"
              "EMA-001" true true true 0 test_clock 0 Hc0) as [Hrefused _].
  destruct (constructed_strategy_is_well_formed (I := Warmup) "TradeStrategy"
              "EMA-001" true true true 3 test_clock 0 Hc3) as [_ Hbuilt].
  destruct (Hbuilt strategy Hinit)
    as (_ & Hid & _ & _ & _ & _ & _ & Hcache & _ & Haligned & Hdisjoint).
  split_and!; [done|done|by apply Hrefused|..|done|done|done].
  from Hid.
Defined.

End MoreWitnesses.
